(** * The papers pipeline: flatten, upsert, validate

    A shallow embedding of the record normaliser ([process_paper]), the
    batch upserter ([insert_papers_with_deduplication]), the data-quality
    validator (both the stand-alone [PapersDataValidator] and the copy
    inlined in [PapersDataPipeline]) and the orchestrator
    ([PapersDataPipeline.run]) of the market-data-pipeline repository,
    with the properties the specification states about them; then the
    fetcher ([fetch_recent_works]) and the snapshot loader
    ([load_papers_from_json.py]), with further properties of the code. *)

From Stdlib Require Import String Ascii List ZArith QArith Bool Arith Lia.
From Stdlib Require Import DecimalString.
Import ListNotations.

Local Open Scope string_scope.
Local Open Scope list_scope.
Local Close Scope Q_scope.

Set Warnings "-register-all".

(* ===================================================================== *)
(** * Python values and exceptions *)
(* ===================================================================== *)

(** A value as [json.load] (or the API client) hands it to the pipeline.
    A [dict] is kept as its list of items; [assoc] reads the first item
    with the key. *)
Inductive json : Type :=
| JNull
| JBool (b : bool)
| JInt (z : Z)
| JFloat (q : Q)
| JStr (s : string)
| JList (l : list json)
| JObj (kvs : list (string * json)).

(** The exception classes that occur on the modelled paths. *)
Inductive exn : Type :=
| AttributeError      (* a method looked up on a value that lacks it *)
| ValueError          (* [range] with a zero step, no AI field found *)
| OperationalError    (* the store cannot be reached *)
| DatabaseError       (* a statement the store refuses *)
| ApiError.           (* the remote API failed *)

Inductive result (A : Type) : Type :=
| Ok (a : A)
| Raise (e : exn).
Arguments Ok {A} a.
Arguments Raise {A} e.

Definition rbind {A B} (c : result A) (k : A -> result B) : result B :=
  match c with
  | Ok a => k a
  | Raise e => Raise e
  end.

Declare Scope result_scope.
Delimit Scope result_scope with result.
Notation "x <- c ;; k" := (rbind c (fun x => k))
  (at level 61, c at next level, right associativity) : result_scope.

Definition is_ok {A} (r : result A) : bool :=
  match r with Ok _ => true | Raise _ => false end.

(** [bool(v)] *)
Definition truthy (v : json) : bool :=
  match v with
  | JNull => false
  | JBool b => b
  | JInt z => negb (z =? 0)%Z
  | JFloat q => negb (Qnum q =? 0)%Z
  | JStr s => negb (s =? "")
  | JList l => match l with [] => false | _ => true end
  | JObj kvs => match kvs with [] => false | _ => true end
  end.

Fixpoint assoc (k : string) (kvs : list (string * json)) : option json :=
  match kvs with
  | [] => None
  | (k', v) :: rest => if k' =? k then Some v else assoc k rest
  end.

(** [d.get(k, default)]; a value that is not a [dict] has no [get]. *)
Definition dict_get (d : json) (k : string) (default : json) : result json :=
  match d with
  | JObj kvs => Ok (match assoc k kvs with Some v => v | None => default end)
  | _ => Raise AttributeError
  end.

(** [s.replace(old, new)] for a non-empty [old]: scan from the left, and
    at every position where [old] starts emit [new] and jump over it.
    [skip] counts the characters of a matched [old] still to jump over. *)
Fixpoint replace_from (old new : string) (skip : nat) (s : string) : string :=
  match s with
  | EmptyString => EmptyString
  | String c s' =>
      match skip with
      | S k => replace_from old new k s'
      | O =>
          if String.prefix old s
          then new ++ replace_from old new (String.length old - 1) s'
          else String c (replace_from old new 0 s')
      end
  end.

Definition str_replace (s old new : string) : string := replace_from old new 0 s.

(** [v.replace(old, new)]: only [str] has the method. *)
Definition replace_method (v : json) (old new : string) : result string :=
  match v with
  | JStr s => Ok (str_replace s old new)
  | _ => Raise AttributeError
  end.

(* ===================================================================== *)
(** * The record normaliser *)
(* ===================================================================== *)

Module Normalizer.

Local Open Scope result_scope.

Definition openalex_prefix : string := "https://openalex.org/".
Definition doi_prefix : string := "https://doi.org/".

(** [extract_doi]: [None] for a falsy DOI, else the DOI, without the URL
    when it starts with it.  A truthy value that is not a [str] has no
    [startswith]. *)
Definition extract_doi (paper : json) : result (option string) :=
  doi <- dict_get paper "doi" JNull ;;
  if truthy doi then
    match doi with
    | JStr s =>
        if String.prefix doi_prefix s
        then Ok (Some (str_replace s doi_prefix ""))
        else Ok (Some s)
    | _ => Raise AttributeError
    end
  else Ok None.

(** The tuple [process_paper] returns, in the order of the columns. *)
Record paper_tuple : Type := mkTuple {
  openalex_id : string;
  doi : option string;
  title : json;
  paper_type : json;
  publication_date : json;
  publication_year : json;
  primary_topic_name : json;
  primary_topic_score : json;
  subfield_name : json;
  field_name : json;
  domain_name : json;
  is_open_access : json;
  oa_status : json;
  cited_by_count : json;
  citation_percentile : json;
  is_top_1_percent : json;
  is_top_10_percent : json;
  citation_percentile_min : json;
  citation_percentile_max : json;
  fwci : json;
  countries_count : json;
  institutions_count : json
}.

(** [v.get(k, default) if v else other] *)
Definition get_if (v : json) (k : string) (default other : json) : result json :=
  if truthy v then dict_get v k default else Ok other.

(** [a or b] where [b] is read only when [a] is falsy. *)
Definition or_else (a : json) (b : result json) : result json :=
  if truthy a then Ok a else b.

Definition process_paper (paper : json) : result paper_tuple :=
  (* Identifiers *)
  id <- dict_get paper "id" (JStr "") ;;
  openalex_id <- replace_method id openalex_prefix "" ;;
  doi <- extract_doi paper ;;
  (* Basic information *)
  title0 <- dict_get paper "title" (JStr "") ;;
  title <- or_else title0 (dict_get paper "display_name" (JStr "")) ;;
  paper_type <- dict_get paper "type" JNull ;;
  publication_date <- dict_get paper "publication_date" JNull ;;
  publication_year <- dict_get paper "publication_year" JNull ;;
  (* Primary topic (flattened) *)
  primary_topic <- dict_get paper "primary_topic" (JObj []) ;;
  primary_topic_name <- get_if primary_topic "display_name" JNull JNull ;;
  primary_topic_score <- get_if primary_topic "score" JNull JNull ;;
  subfield <- get_if primary_topic "subfield" (JObj []) (JObj []) ;;
  subfield_name <- get_if subfield "display_name" JNull JNull ;;
  field <- get_if primary_topic "field" (JObj []) (JObj []) ;;
  field_name <- get_if field "display_name" JNull JNull ;;
  domain <- get_if primary_topic "domain" (JObj []) (JObj []) ;;
  domain_name <- get_if domain "display_name" JNull JNull ;;
  (* Open Access information *)
  open_access <- dict_get paper "open_access" (JObj []) ;;
  is_open_access <- get_if open_access "is_oa" (JBool false) (JBool false) ;;
  oa_status <- get_if open_access "oa_status" JNull JNull ;;
  (* Citation metrics *)
  cited0 <- dict_get paper "cited_by_count" (JInt 0) ;;
  cited_by_count <- or_else cited0 (Ok (JInt 0)) ;;
  citation_normalized <- dict_get paper "citation_normalized_percentile" (JObj []) ;;
  citation_percentile <- get_if citation_normalized "value" JNull JNull ;;
  is_top_1_percent <-
    get_if citation_normalized "is_in_top_1_percent" (JBool false) (JBool false) ;;
  is_top_10_percent <-
    get_if citation_normalized "is_in_top_10_percent" (JBool false) (JBool false) ;;
  cited_by_percentile_year <- dict_get paper "cited_by_percentile_year" (JObj []) ;;
  citation_percentile_min <- get_if cited_by_percentile_year "min" JNull JNull ;;
  citation_percentile_max <- get_if cited_by_percentile_year "max" JNull JNull ;;
  (* FWCI - not directly in JSON, set to None *)
  let fwci := JNull in
  (* Collaboration metrics *)
  countries0 <- dict_get paper "countries_distinct_count" (JInt 0) ;;
  countries_count <- or_else countries0 (Ok (JInt 0)) ;;
  institutions0 <- dict_get paper "institutions_distinct_count" (JInt 0) ;;
  institutions_count <- or_else institutions0 (Ok (JInt 0)) ;;
  Ok (mkTuple openalex_id doi title paper_type publication_date publication_year
        primary_topic_name primary_topic_score subfield_name field_name domain_name
        is_open_access oa_status cited_by_count citation_percentile
        is_top_1_percent is_top_10_percent citation_percentile_min
        citation_percentile_max fwci countries_count institutions_count).

(** The first loop of [insert_papers_with_deduplication]: one step for one
    raw record, on the pair [(processed_papers, skipped)].  The handler of
    the [except] clause formats [paper.get('id', 'unknown')] into its
    warning, and that lookup is outside any [try]. *)
Definition normalize_step (acc : list paper_tuple * nat) (paper : json)
  : result (list paper_tuple * nat) :=
  let '(processed_papers, skipped) := acc in
  match process_paper paper with
  | Ok processed =>
      if negb (truthy (JStr (openalex_id processed)))
      then Ok (processed_papers, skipped + 1)%nat
      else Ok (processed_papers ++ [processed], skipped)
  | Raise _ =>
      shown <- dict_get paper "id" (JStr "unknown") ;;
      Ok (processed_papers, skipped + 1)%nat
  end.

Fixpoint normalize_loop (papers : list json) (acc : list paper_tuple * nat)
  : result (list paper_tuple * nat) :=
  match papers with
  | [] => Ok acc
  | paper :: rest =>
      acc' <- normalize_step acc paper ;;
      normalize_loop rest acc'
  end.

Definition normalize_all (papers : list json) : result (list paper_tuple * nat) :=
  normalize_loop papers ([], 0%nat).

End Normalizer.

(* ===================================================================== *)
(** * The store: the [papers] table behind a pooled connection *)
(* ===================================================================== *)

Module Store.

Import Normalizer.

(** A persisted row: the bound parameters of the statement that wrote it
    and the two bookkeeping columns.  The surrogate [id SERIAL] column is
    never read or written by the pipeline and is left out. *)
Record row : Type := mkRow {
  r_data : paper_tuple;
  created_at : Z;
  updated_at : Z
}.

Definition r_key (r : row) : string := openalex_id (r_data r).

(** [INSERT ... VALUES (..., CURRENT_TIMESTAMP)]: [created_at] takes its
    column default, which is [CURRENT_TIMESTAMP] as well. *)
Definition inserted_row (now : Z) (t : paper_tuple) : row := mkRow t now now.

(** [DO UPDATE SET doi = EXCLUDED.doi, ..., updated_at = CURRENT_TIMESTAMP]:
    the 21 data columns and [updated_at] are assigned, [created_at] is not. *)
Definition updated_row (now : Z) (t : paper_tuple) (r : row) : row :=
  mkRow (mkTuple (openalex_id (r_data r)) (doi t) (title t) (paper_type t)
           (publication_date t) (publication_year t) (primary_topic_name t)
           (primary_topic_score t) (subfield_name t) (field_name t)
           (domain_name t) (is_open_access t) (oa_status t) (cited_by_count t)
           (citation_percentile t) (is_top_1_percent t) (is_top_10_percent t)
           (citation_percentile_min t) (citation_percentile_max t) (fwci t)
           (countries_count t) (institutions_count t))
        (created_at r) now.

(** [INSERT ... ON CONFLICT (openalex_id) DO UPDATE ...] on the rows of the
    table: the row with the same [openalex_id] is updated in place, and
    without one the new row is added. *)
Fixpoint upsert (now : Z) (t : paper_tuple) (rows : list row) : list row :=
  match rows with
  | [] => [inserted_row now t]
  | r :: rest =>
      if r_key r =? openalex_id t
      then updated_row now t r :: rest
      else r :: upsert now t rest
  end.

(** What a connection sees: the committed table, the table as the open
    transaction has it, and the number of transactions ended so far.
    [None] is a database without a [papers] table. *)
Record store : Type := mkStore {
  committed : option (list row);
  working : option (list row);
  txn : nat
}.

(** The ten data-quality checks, in the order both validators run them. *)
Inductive check : Type :=
| MissingOpenalexId
| MissingTitle
| NegativeCitedByCount
| NegativeCountriesCount
| NegativeInstitutionsCount
| InvalidCitationPercentileRange
| InvalidPrimaryTopicScoreRange
| NegativeFwci
| DuplicateOpenalexId
| DuplicateDoi.

(** Why a connection is taken from the pool. *)
Inductive purpose : Type :=
| PTableExists | PExtension | PCreateTable | PIndexes | PComments
| PUpload | PCountAll | PCheck (c : check).

Record world : Type := mkWorld {
  w_store : store;
  w_acquired : list purpose
}.

Definition commit (s : store) : store :=
  mkStore (working s) (working s) (S (txn s)).

Definition rollback (s : store) : store :=
  mkStore (committed s) (committed s) (S (txn s)).

Section Env.

(** The three things the pipeline does not decide: whether the store takes
    a row (column types, lengths, NOT NULL), what [CURRENT_TIMESTAMP] is in
    the n-th transaction, and whether the n-th request for a connection is
    served. *)
Variable accepts : paper_tuple -> bool.
Variable clock : nat -> Z.
Variable up : nat -> bool.

(** [DatabaseConnection.get_connection] *)
Definition get_connection (why : purpose) (w : world) : result unit * world :=
  let w' := mkWorld (w_store w) (w_acquired w ++ [why]) in
  if up (length (w_acquired w)) then (Ok tt, w') else (Raise OperationalError, w').

(** [cur.execute(insert_sql, paper_data)] *)
Definition execute_upsert (t : paper_tuple) (s : store) : result unit * store :=
  match working s with
  | None => (Raise DatabaseError, s)
  | Some rows =>
      if accepts t
      then (Ok tt, mkStore (committed s) (Some (upsert (clock (txn s)) t rows)) (txn s))
      else (Raise DatabaseError, s)
  end.

(** [cur.executemany(insert_sql, batch)]: one statement per row, stopping
    at the first that fails. *)
Fixpoint executemany (batch : list paper_tuple) (s : store) : result unit * store :=
  match batch with
  | [] => (Ok tt, s)
  | t :: rest =>
      match execute_upsert t s with
      | (Ok _, s') => executemany rest s'
      | (Raise e, s') => (Raise e, s')
      end
  end.

(** The inner loop of the [except] branch: one row, one transaction. *)
Fixpoint insert_one_by_one (batch : list paper_tuple) (total_inserted : nat) (s : store)
  : nat * store :=
  match batch with
  | [] => (total_inserted, s)
  | paper_data :: rest =>
      match execute_upsert paper_data s with
      | (Ok _, s') => insert_one_by_one rest (total_inserted + 1) (commit s')
      | (Raise _, s') => insert_one_by_one rest total_inserted (rollback s')
      end
  end.

(** The body of the batch loop for one [batch]. *)
Definition insert_batch (batch : list paper_tuple) (total_inserted : nat) (s : store)
  : nat * store :=
  match executemany batch s with
  | (Ok _, s') => (total_inserted + length batch, commit s')
  | (Raise _, s') => insert_one_by_one batch total_inserted (rollback s')
  end.

(** [range(0, stop, step)] *)
Definition py_range0 (stop : nat) (step : Z) : result (list nat) :=
  if (step =? 0)%Z then Raise ValueError
  else if (step <? 0)%Z then Ok []
  else
    let b := Z.to_nat step in
    Ok (map (fun k => k * b) (seq 0 ((stop + b - 1) / b))).

(** [lst[i:i + batch_size]] for a positive [batch_size] *)
Definition slice_from {A} (lst : list A) (i : nat) (batch_size : Z) : list A :=
  firstn (Z.to_nat batch_size) (skipn i lst).

(** [for i in range(...): batch = processed_papers[i:i + batch_size]; ...] *)
Fixpoint insert_batches (processed_papers : list paper_tuple) (batch_size : Z)
    (starts : list nat) (total_inserted : nat) (s : store) : nat * store :=
  match starts with
  | [] => (total_inserted, s)
  | i :: rest =>
      let batch := slice_from processed_papers i batch_size in
      let '(total', s') := insert_batch batch total_inserted s in
      insert_batches processed_papers batch_size rest total' s'
  end.

(** [insert_papers_with_deduplication], the same in [pipeline.py] (where
    the batch size is [self.batch_size]) and in [load_papers_from_json.py]. *)
Definition insert_papers_with_deduplication (papers : list json) (batch_size : Z)
    (w : world) : result nat * world :=
  match normalize_all papers with
  | Raise e => (Raise e, w)
  | Ok (processed_papers, skipped) =>
      match get_connection PUpload w with
      | (Raise e, w1) => (Raise e, w1)
      | (Ok _, w1) =>
          match py_range0 (length processed_papers) batch_size with
          | Raise e => (Raise e, w1)
          | Ok starts =>
              let '(total_inserted, s') :=
                insert_batches processed_papers batch_size starts 0 (w_store w1) in
              (Ok total_inserted, mkWorld s' (w_acquired w1))
          end
      end
  end.

(** [upload_papers] *)
Definition upload_papers (papers : list json) (batch_size : Z) (w : world)
  : result nat * world :=
  match papers with
  | [] => (Ok 0, w)
  | _ => insert_papers_with_deduplication papers batch_size w
  end.

(** [DatabaseConnection.get_cursor]: the body runs in one transaction,
    committed when it returns and rolled back when it raises. *)
Definition get_cursor {A} (why : purpose) (body : store -> result A * store)
    (w : world) : result A * world :=
  match get_connection why w with
  | (Raise e, w1) => (Raise e, w1)
  | (Ok _, w1) =>
      match body (w_store w1) with
      | (Ok a, s') => (Ok a, mkWorld (commit s') (w_acquired w1))
      | (Raise e, s') => (Raise e, mkWorld (rollback s') (w_acquired w1))
      end
  end.

End Env.

(** ** The statements the pipeline sends besides the upsert *)

(** [SELECT EXISTS (SELECT FROM information_schema.tables ...)] *)
Definition select_table_exists (s : store) : result bool * store :=
  (Ok (match working s with Some _ => true | None => false end), s).

(** [CREATE TABLE papers (...)] *)
Definition create_table (s : store) : result unit * store :=
  match working s with
  | Some _ => (Raise DatabaseError, s)
  | None => (Ok tt, mkStore (committed s) (Some []) (txn s))
  end.

(** [CREATE EXTENSION IF NOT EXISTS pg_trgm] *)
Definition create_extension (s : store) : result unit * store := (Ok tt, s).

(** [CREATE INDEX ... ON papers] and [COMMENT ON ... papers]: nothing in the
    rows changes, and the table has to be there. *)
Definition alter_table (s : store) : result unit * store :=
  match working s with
  | Some _ => (Ok tt, s)
  | None => (Raise DatabaseError, s)
  end.

(** [SELECT COUNT( * ) FROM papers] *)
Definition select_count_all (s : store) : result Z * store :=
  match working s with
  | Some rows => (Ok (Z.of_nat (length rows)), s)
  | None => (Raise DatabaseError, s)
  end.

(** The number a column holds, when it holds one. *)
Definition num (v : json) : option Q :=
  match v with
  | JInt z => Some (inject_Z z)
  | JFloat q => Some q
  | _ => None
  end.

Definition Qlt_bool (a b : Q) : bool := negb (Qle_bool b a).

(** [col < 0]: a NULL compares to nothing. *)
Definition negative (v : json) : bool :=
  match num v with
  | Some q => Qlt_bool q 0
  | None => false
  end.

(** [col IS NOT NULL AND (col < 0.0 OR col > 1.0)] *)
Definition out_of_unit_range (v : json) : bool :=
  match num v with
  | Some q => Qlt_bool q 0 || Qlt_bool 1 q
  | None => false
  end.

(** [SELECT COUNT( * ) FROM (SELECT k ... GROUP BY k HAVING COUNT( * ) > 1)] *)
Definition duplicated_groups (keys : list string) : nat :=
  length (filter (fun k => (1 <? count_occ string_dec keys k)%nat)
                 (nodup string_dec keys)).

Definition nonempty_dois (rows : list row) : list string :=
  flat_map (fun r => match doi (r_data r) with
                     | Some d => if d =? "" then [] else [d]
                     | None => []
                     end) rows.

Definition count_where (p : row -> bool) (rows : list row) : Z :=
  Z.of_nat (length (filter p rows)).

(** The count each check's query returns on the rows of the table. *)
Definition violations (c : check) (rows : list row) : Z :=
  match c with
  | MissingOpenalexId => count_where (fun r => r_key r =? "") rows
  | MissingTitle =>
      count_where (fun r => match title (r_data r) with
                            | JNull => true
                            | JStr t => t =? ""
                            | _ => false
                            end) rows
  | NegativeCitedByCount => count_where (fun r => negative (cited_by_count (r_data r))) rows
  | NegativeCountriesCount => count_where (fun r => negative (countries_count (r_data r))) rows
  | NegativeInstitutionsCount =>
      count_where (fun r => negative (institutions_count (r_data r))) rows
  | InvalidCitationPercentileRange =>
      count_where (fun r => out_of_unit_range (citation_percentile (r_data r))) rows
  | InvalidPrimaryTopicScoreRange =>
      count_where (fun r => out_of_unit_range (primary_topic_score (r_data r))) rows
  | NegativeFwci => count_where (fun r => negative (fwci (r_data r))) rows
  | DuplicateOpenalexId => Z.of_nat (duplicated_groups (map r_key rows))
  | DuplicateDoi => Z.of_nat (duplicated_groups (nonempty_dois rows))
  end.

Definition select_check (c : check) (s : store) : result Z * store :=
  match working s with
  | Some rows => (Ok (violations c rows), s)
  | None => (Raise DatabaseError, s)
  end.

End Store.

(* ===================================================================== *)
(** * The data-quality validators *)
(* ===================================================================== *)

Inductive test_status : Type := PASS | FAIL | ERROR.

(** The dictionary [run_test] returns: an errored test has no ['count']. *)
Record test_result : Type := mkTest {
  name : Store.check;
  status : test_status;
  count : option Z;
  passed : bool
}.

(** The counters both validators keep. *)
Record tally : Type := mkTally {
  results : list test_result;
  total_tests : nat;
  passed_tests : nat;
  failed_tests : nat
}.

Definition empty_tally : tally := mkTally [] 0 0 0.

(** [passed = (count == 0) if expect_zero else (count > 0)] *)
Definition test_passes (expect_zero : bool) (count : Z) : bool :=
  if expect_zero then (count =? 0)%Z else (count >? 0)%Z.

(** The validator inlined in [PapersDataPipeline] ([pipeline.py]). *)
Module PipelineValidator.

Import Store.

Section Env.

Variable up : nat -> bool.

(** [PapersDataPipeline.table_exists] *)
Definition table_exists (w : world) : result bool * world :=
  get_cursor up PTableExists select_table_exists w.

(** [PapersDataPipeline.run_test]: the query runs inside the [try], and any
    exception becomes an ERROR result that has not passed. *)
Definition run_test (test_name : check) (expect_zero : bool) (w : world)
  : test_result * world :=
  match get_cursor up (PCheck test_name) (select_check test_name) w with
  | (Ok count, w') =>
      let passed := test_passes expect_zero count in
      (mkTest test_name (if passed then PASS else FAIL) (Some count) passed, w')
  | (Raise _, w') => (mkTest test_name ERROR None false, w')
  end.

(** [results.append(test); total_tests += 1;
     if test['passed']: passed_tests += 1 else: failed_tests += 1] *)
Definition record_test (test : test_result) (t : tally) : tally :=
  if passed test
  then mkTally (results t ++ [test]) (total_tests t + 1) (passed_tests t + 1) (failed_tests t)
  else mkTally (results t ++ [test]) (total_tests t + 1) (passed_tests t) (failed_tests t + 1).

(** The DOI test: [results.append(test); total_tests += 1; passed_tests += 1] *)
Definition record_informational (test : test_result) (t : tally) : tally :=
  mkTally (results t ++ [test]) (total_tests t + 1) (passed_tests t + 1) (failed_tests t).

(** A run of tests that are each run and recorded the same way. *)
Fixpoint run_tests (tests : list check) (t : tally) (w : world) : tally * world :=
  match tests with
  | [] => (t, w)
  | c :: rest =>
      let '(test, w') := run_test c true w in
      run_tests rest (record_test test t) w'
  end.

(** The ten tests of [run_data_quality_tests], with their bookkeeping:
    nine recorded by outcome, then the DOI test recorded as passed. *)
Definition run_all_checks (w2 : world) : tally * world :=
  (* Test 1: Missing Required Fields *)
  let '(t1, w3) := run_tests [MissingOpenalexId; MissingTitle] empty_tally w2 in
  (* Test 2: Citation Count Validation *)
  let '(t2, w4) :=
    run_tests [NegativeCitedByCount; NegativeCountriesCount;
               NegativeInstitutionsCount] t1 w3 in
  (* Test 3: Score Range Validation *)
  let '(t3, w5) :=
    run_tests [InvalidCitationPercentileRange; InvalidPrimaryTopicScoreRange;
               NegativeFwci] t2 w4 in
  (* Test 4: Duplicate Detection *)
  let '(t4, w6) := run_tests [DuplicateOpenalexId] t3 w5 in
  (* Duplicate DOI test (informational - always passes) *)
  let '(test, w7) := run_test DuplicateDoi true w6 in
  (record_informational test t4, w7).

(** [PapersDataPipeline.run_data_quality_tests] *)
Definition run_data_quality_tests (w : world) : result Z * world :=
  match table_exists w with
  | (Raise e, w1) => (Raise e, w1)
  | (Ok false, w1) => (Ok 1%Z, w1)
  | (Ok true, w1) =>
      match get_cursor up PCountAll select_count_all w1 with
      | (Raise e, w2) => (Raise e, w2)
      | (Ok total_count, w2) =>
          let '(t5, w7) := run_all_checks w2 in
          (Ok (if (failed_tests t5 =? 0)%nat then 0%Z else 1%Z), w7)
      end
  end.

End Env.

End PipelineValidator.

(** The stand-alone [PapersDataValidator] ([data_quality_tests.py]). *)
Module StandaloneValidator.

Import Store.

Section Env.

Variable up : nat -> bool.

(** [PapersDataValidator.run_test]: the counters are fields of the
    validator and every test goes through the same bookkeeping. *)
Definition run_test (test_name : check) (expect_zero : bool) (t : tally) (w : world)
  : tally * world :=
  let total := (total_tests t + 1)%nat in
  match get_cursor up (PCheck test_name) (select_check test_name) w with
  | (Ok count, w') =>
      let passed := test_passes expect_zero count in
      if passed
      then (mkTally (results t ++ [mkTest test_name PASS (Some count) passed])
              total (passed_tests t + 1) (failed_tests t), w')
      else (mkTally (results t ++ [mkTest test_name FAIL (Some count) passed])
              total (passed_tests t) (failed_tests t + 1), w')
  | (Raise _, w') =>
      (mkTally (results t ++ [mkTest test_name ERROR None false])
         total (passed_tests t) (failed_tests t + 1), w')
  end.

Definition test_missing_required_fields (t : tally) (w : world) : tally * world :=
  let '(t1, w1) := run_test MissingOpenalexId true t w in
  run_test MissingTitle true t1 w1.

Definition test_citation_count_validation (t : tally) (w : world) : tally * world :=
  let '(t1, w1) := run_test NegativeCitedByCount true t w in
  let '(t2, w2) := run_test NegativeCountriesCount true t1 w1 in
  run_test NegativeInstitutionsCount true t2 w2.

Definition test_score_range_validation (t : tally) (w : world) : tally * world :=
  let '(t1, w1) := run_test InvalidCitationPercentileRange true t w in
  let '(t2, w2) := run_test InvalidPrimaryTopicScoreRange true t1 w1 in
  run_test NegativeFwci true t2 w2.

Definition test_duplicate_detection (t : tally) (w : world) : tally * world :=
  let '(t1, w1) := run_test DuplicateOpenalexId true t w in
  run_test DuplicateDoi true t1 w1.

(** [print_results], for its return value *)
Definition print_results (t : tally) : Z :=
  if (failed_tests t =? 0)%nat then 0%Z else 1%Z.

(** The two statements [run_all_tests] sends under one cursor before the
    tests: [None] stands for the early [return 1]. *)
Definition check_table (s : store) : result (option Z) * store :=
  match select_table_exists s with
  | (Raise e, s1) => (Raise e, s1)
  | (Ok false, s1) => (Ok None, s1)
  | (Ok true, s1) =>
      match select_count_all s1 with
      | (Raise e, s2) => (Raise e, s2)
      | (Ok total_count, s2) => (Ok (Some total_count), s2)
      end
  end.

(** [PapersDataValidator.run_all_tests] on a fresh validator *)
Definition run_all_tests (w : world) : Z * world :=
  match get_cursor up PTableExists check_table w with
  | (Raise _, w1) => (1%Z, w1)
  | (Ok None, w1) => (1%Z, w1)
  | (Ok (Some _), w1) =>
      let '(t1, w2) := test_missing_required_fields empty_tally w1 in
      let '(t2, w3) := test_citation_count_validation t1 w2 in
      let '(t3, w4) := test_score_range_validation t2 w3 in
      let '(t4, w5) := test_duplicate_detection t3 w4 in
      (print_results t4, w5)
  end.

End Env.

End StandaloneValidator.

(* ===================================================================== *)
(** * The orchestrator *)
(* ===================================================================== *)

Module Orchestrator.

Import Store.

Section Env.

Variable accepts : Normalizer.paper_tuple -> bool.
Variable clock : nat -> Z.
Variable up : nat -> bool.

(** One [with DatabaseConnection.get_cursor() as cur: cur.execute(ddl)] *)
Definition ddl_step (why : purpose) (stmt : store -> result unit * store)
    (next : world -> result unit * world) (w : world) : result unit * world :=
  match get_cursor up why stmt w with
  | (Raise e, w') => (Raise e, w')
  | (Ok _, w') => next w'
  end.

(** [PapersDataPipeline.create_table_if_needed] *)
Definition create_table_if_needed (w : world) : result unit * world :=
  match PipelineValidator.table_exists up w with
  | (Raise e, w1) => (Raise e, w1)
  | (Ok true, w1) => (Ok tt, w1)
  | (Ok false, w1) =>
      ddl_step PExtension create_extension
        (ddl_step PCreateTable create_table
           (ddl_step PIndexes alter_table
              (ddl_step PComments alter_table (fun w' => (Ok tt, w'))))) w1
  end.

(** The [try] block of [PapersDataPipeline.run]; [api] is what
    [self.query_api()] does: raise, or return the fetched records. *)
Definition run_body (skip_tests : bool) (batch_size : Z) (api : result (list json))
    (w : world) : result Z * world :=
  match api with
  | Raise e => (Raise e, w)
  | Ok [] => (Ok 0%Z, w)
  | Ok papers =>
      match create_table_if_needed w with
      | (Raise e, w1) => (Raise e, w1)
      | (Ok _, w1) =>
          match upload_papers accepts clock up papers batch_size w1 with
          | (Raise e, w2) => (Raise e, w2)
          | (Ok _, w2) =>
              if negb skip_tests
              then PipelineValidator.run_data_quality_tests up w2
              else (Ok 0%Z, w2)
          end
      end
  end.

(** [PapersDataPipeline.run]: the exit code.  Closing the pool in the
    [finally] clause changes neither the table nor the exit code. *)
Definition run (skip_tests : bool) (batch_size : Z) (api : result (list json))
    (w : world) : Z * world :=
  match run_body skip_tests batch_size api w with
  | (Ok exit_code, w') => (exit_code, w')
  | (Raise _, w') => (1%Z, w')
  end.

End Env.

End Orchestrator.

(* ===================================================================== *)
(** * The exceptions of the fetcher and of the loader *)
(* ===================================================================== *)

(** What the two can raise: one of the exceptions above, or one of three
    more. *)
Inductive error : Type :=
| TypeError            (* a [list] or [dict] offered to a [set], [len] of a number *)
| FileNotFoundError    (* the snapshot is not there *)
| JSONDecodeError      (* the snapshot does not parse *)
| Other (e : exn).

Inductive outcome (A : Type) : Type :=
| Done (a : A)
| Fails (e : error).
Arguments Done {A} a.
Arguments Fails {A} e.

(* ===================================================================== *)
(** * The fetcher *)
(* ===================================================================== *)

Module Fetch.

(** The number a value compares as: [True] is 1 and [False] is 0. *)
Definition py_num (v : json) : option Q :=
  match v with
  | JBool b => Some (inject_Z (if b then 1 else 0))
  | JInt z => Some (inject_Z z)
  | JFloat q => Some q
  | _ => None
  end.

(** [a == b] between two values a [set] can hold: numbers by value,
    strings by their characters, and nothing else is equal to another. *)
Definition py_eq (a b : json) : bool :=
  match a, b with
  | JNull, JNull => true
  | JStr s, JStr t => s =? t
  | _, _ =>
      match py_num a, py_num b with
      | Some x, Some y => Qeq_bool x y
      | _, _ => false
      end
  end.

(** [hash(v)] is defined: a [list] and a [dict] have none. *)
Definition hashable (v : json) : bool :=
  match v with
  | JList _ | JObj _ => false
  | _ => true
  end.

(** The two filters on the primary topic, with the identifier they carry. *)
Inductive query : Type :=
| ByField (field_id : json)
| BySubfield (subfield_id : json).

(** [seen_ids] and [all_works]; of the set only membership is read. *)
Record state : Type := mkState {
  seen_ids : list json;
  all_works : list json
}.

Definition per_page : nat := 200.

(** [work_id in seen_ids] *)
Definition member (work_id : json) (ids : list json) : bool :=
  existsb (py_eq work_id) ids.

(** The body of [for work in works]. *)
Definition add_work (st : state) (work : json) : outcome state :=
  match dict_get work "id" JNull with
  | Raise e => Fails (Other e)
  | Ok work_id =>
      if truthy work_id then
        if hashable work_id then
          if negb (member work_id (seen_ids st))
          then Done (mkState (seen_ids st ++ [work_id]) (all_works st ++ [work]))
          else Done st
        else Fails TypeError
      else Done st
  end.

Fixpoint add_works (works : list json) (st : state) : outcome state :=
  match works with
  | [] => Done st
  | work :: rest =>
      match add_work st work with
      | Done st' => add_works rest st'
      | Fails e => Fails e
      end
  end.

Section Api.

(** [Works().filter(...).get(per_page=per_page, page=page)]: what the API
    answers to a filter and a page number. *)
Variable get : query -> nat -> result (list json).

(** The [while True] loop, the same for both filters.  [fuel] bounds the
    pages asked for: [None] is a loop still running after that many. *)
Fixpoint fetch_pages (fuel : nat) (q : query) (page : nat) (st : state)
  : option (outcome state) :=
  match fuel with
  | O => None
  | S fuel' =>
      match get q page with
      | Raise e => Some (Fails (Other e))
      | Ok works =>
          if (length works =? 0)%nat then Some (Done st)
          else
            match add_works works st with
            | Fails e => Some (Fails e)
            | Done st' =>
                if (length works <? per_page)%nat then Some (Done st')
                else fetch_pages fuel' q (S page) st'
            end
      end
  end.

(** [if field_id: ... page = 1; while True: ...] *)
Definition fetch_filter (fuel : nat) (q : query) (st : state)
  : option (outcome state) :=
  let id := match q with ByField i => i | BySubfield i => i end in
  if truthy id then fetch_pages fuel q 1 st else Some (Done st).

(** [fetch_recent_works] *)
Definition fetch_recent_works (fuel : nat) (field_id subfield_id : json)
  : option (outcome (list json)) :=
  match fetch_filter fuel (ByField field_id) (mkState [] []) with
  | None => None
  | Some (Fails e) => Some (Fails e)
  | Some (Done st1) =>
      match fetch_filter fuel (BySubfield subfield_id) st1 with
      | None => None
      | Some (Fails e) => Some (Fails e)
      | Some (Done st2) => Some (Done (all_works st2))
      end
  end.

End Api.

End Fetch.

(* ===================================================================== *)
(** * The snapshot: saved by the fetch script, loaded by the loader *)
(* ===================================================================== *)

Module Snapshot.

Import Store.

(** What is at the path the loader is given. *)
Inductive file : Type :=
| Missing                 (* [os.path.exists] is false *)
| Garbled                 (* there, but [json.load] raises *)
| Holds (data : json).    (* there, and [json.load] returns [data] *)


(** [len(v)] is defined: a string, a list and a mapping have a length. *)
Definition has_len (v : json) : bool :=
  match v with
  | JStr _ | JList _ | JObj _ => true
  | _ => false
  end.

(** [load_json_file]: a list is taken as it is, and of a mapping the value
    under [papers]; its length goes into the message printed last. *)
Definition load_json_file (f : file) : outcome json :=
  match f with
  | Missing => Fails FileNotFoundError
  | Garbled => Fails JSONDecodeError
  | Holds data =>
      match
        match data with
        | JList _ => Done data
        | JObj kvs =>
            match assoc "papers" kvs with
            | Some papers => Done papers
            | None => Fails (Other ValueError)
            end
        | _ => Fails (Other ValueError)
        end
      with
      | Fails e => Fails e
      | Done papers => if has_len papers then Done papers else Fails TypeError
      end
  end.

(** [for paper in papers]: the elements of a list, the characters of a
    string, the keys of a mapping. *)
Definition py_iter (v : json) : list json :=
  match v with
  | JList l => l
  | JStr s => map (fun c => JStr (String c EmptyString)) (list_ascii_of_string s)
  | JObj kvs => map (fun kv => JStr (fst kv)) kvs
  | _ => []
  end.

Section Env.

Variable accepts : Normalizer.paper_tuple -> bool.
Variable clock : nat -> Z.
Variable up : nat -> bool.

(** [for idx_sql in indexes: try: cur.execute(idx_sql) except Exception:
    print(...)]: a statement that fails is reported and the loop goes
    on. *)
Fixpoint create_indexes (n : nat) (s : store) : result unit * store :=
  match n with
  | O => (Ok tt, s)
  | S n' => create_indexes n' (snd (alter_table s))
  end.

(** [create_papers_table_if_needed] of [load_papers_from_json.py] *)
Definition create_papers_table_if_needed (w : world) : result unit * world :=
  match PipelineValidator.table_exists up w with
  | (Raise e, w1) => (Raise e, w1)
  | (Ok true, w1) => (Ok tt, w1)
  | (Ok false, w1) =>
      Orchestrator.ddl_step up PExtension create_extension
        (Orchestrator.ddl_step up PCreateTable create_table
           (Orchestrator.ddl_step up PIndexes (create_indexes 10)
              (Orchestrator.ddl_step up PComments alter_table
                 (fun w' => (Ok tt, w'))))) w1
  end.

(** [main] of [load_papers_from_json.py]: the exit status of the script.
    [path] is [None] when no path is given on the command line, else what
    is at that path.  The batch size is the default of
    [insert_papers_with_deduplication], 100. *)
Definition main (path : option file) (w : world) : Z * world :=
  match path with
  | None => (1%Z, w)
  | Some f =>
      match load_json_file f with
      | Fails _ => (1%Z, w)
      | Done papers =>
          if negb (truthy papers) then (0%Z, w)
          else
            match create_papers_table_if_needed w with
            | (Raise _, w1) => (1%Z, w1)
            | (Ok _, w1) =>
                match insert_papers_with_deduplication accepts clock up
                        (py_iter papers) 100 w1 with
                | (Raise _, w2) => (1%Z, w2)
                | (Ok _, w2) => (0%Z, w2)
                end
            end
      end
  end.

End Env.

End Snapshot.

(* ===================================================================== *)
(** * Vocabulary of the statements *)
(* ===================================================================== *)

Import Normalizer Store.

(** The string without its first [n] characters. *)
Fixpoint drop (n : nat) (s : string) : string :=
  match n, s with
  | O, _ => s
  | S k, String _ s' => drop k s'
  | S _, EmptyString => EmptyString
  end.

(** A string stripped of a prefix: what [s.removeprefix(p)] returns. *)
Definition removeprefix (p s : string) : string :=
  if String.prefix p s then drop (String.length p) s else s.

(** [old] starts somewhere in [s]. *)
Fixpoint occurs (old s : string) : bool :=
  String.prefix old s ||
  match s with
  | EmptyString => false
  | String _ s' => occurs old s'
  end.

(** A raw record is a mapping. *)
Definition is_record (paper : json) : bool :=
  match paper with JObj _ => true | _ => false end.

(** A value that is a non-empty string. *)
Definition nonempty_string (v : json) : bool :=
  match v with JStr s => negb (s =? "") | _ => false end.

(** The name read off an optional sub-object: null when there is none. *)
Definition name_of (sub : option json) : json :=
  match sub with
  | Some (JObj kvs) =>
      match assoc "display_name" kvs with Some v => v | None => JNull end
  | _ => JNull
  end.

(** The value under a key of a mapping, or a default when the key is not
    there. *)
Definition item_or (k : string) (kvs : list (string * json)) (default : json) : json :=
  match assoc k kvs with Some v => v | None => default end.

Definition item_or_null (k : string) (kvs : list (string * json)) : json :=
  item_or k kvs JNull.

(** A record the first loop skips: processing raised, or the identifier
    came out empty. *)
Definition skipped_record (paper : json) : bool :=
  match Normalizer.process_paper paper with
  | Ok t => Normalizer.openalex_id t =? ""
  | Raise _ => true
  end.

(** What a record adds to [processed_papers]. *)
Definition kept_tuple (paper : json) : list Normalizer.paper_tuple :=
  match Normalizer.process_paper paper with
  | Ok t => if Normalizer.openalex_id t =? "" then [] else [t]
  | Raise _ => []
  end.

(** The rows of a table that carry a given identifier. *)
Definition rows_with_key (k : string) (rows : list Store.row) : list Store.row :=
  filter (fun r => Store.r_key r =? k) rows.

(** The table is there, for the open transaction and after a rollback. *)
Definition table_ready (s : Store.store) : bool :=
  match Store.committed s, Store.working s with
  | Some _, Some _ => true
  | _, _ => false
  end.

(** The rows of a batch the store takes. *)
Definition accepted_rows (accepts : Normalizer.paper_tuple -> bool)
    (batch : list Normalizer.paper_tuple) : list Normalizer.paper_tuple :=
  filter accepts batch.

(** The one check that is reported for information only. *)
Definition informational (c : Store.check) : bool :=
  match c with Store.DuplicateDoi => true | _ => false end.

(** A recorded test that is not informational and has not passed. *)
Definition hard_failure (test : test_result) : bool :=
  negb (informational (name test)) && negb (passed test).

Definition all_checks : list Store.check :=
  [Store.MissingOpenalexId; Store.MissingTitle; Store.NegativeCitedByCount;
   Store.NegativeCountriesCount; Store.NegativeInstitutionsCount;
   Store.InvalidCitationPercentileRange; Store.InvalidPrimaryTopicScoreRange;
   Store.NegativeFwci; Store.DuplicateOpenalexId; Store.DuplicateDoi].

(** The counters agree with the list of results. *)
Definition tally_sound (t : tally) : Prop :=
  failed_tests t = length (filter hard_failure (results t)) /\
  Forall (fun test => status test = ERROR -> passed test = false) (results t).

(** The runs the specification counts as successful: nothing was fetched;
    or the table was set up and the records uploaded, and then either the
    tests were skipped or every test that is not informational passed. *)
Inductive run_succeeds (accepts : Normalizer.paper_tuple -> bool) (clock : nat -> Z)
    (up : nat -> bool) (skip_tests : bool) (batch_size : Z)
    (api : result (list json)) (w : Store.world) : Prop :=
| nothing_fetched :
    api = Ok [] ->
    run_succeeds accepts clock up skip_tests batch_size api w
| tests_skipped papers w1 n w2 :
    api = Ok papers -> papers <> [] ->
    Orchestrator.create_table_if_needed up w = (Ok tt, w1) ->
    Store.upload_papers accepts clock up papers batch_size w1 = (Ok n, w2) ->
    skip_tests = true ->
    run_succeeds accepts clock up skip_tests batch_size api w
| tests_passed papers w1 n w2 w3 total w4 :
    api = Ok papers -> papers <> [] ->
    Orchestrator.create_table_if_needed up w = (Ok tt, w1) ->
    Store.upload_papers accepts clock up papers batch_size w1 = (Ok n, w2) ->
    skip_tests = false ->
    PipelineValidator.table_exists up w2 = (Ok true, w3) ->
    Store.get_cursor up Store.PCountAll Store.select_count_all w3 = (Ok total, w4) ->
    (forall test,
        In test (results (fst (PipelineValidator.run_all_checks up w4))) ->
        informational (name test) = false -> passed test = true) ->
    run_succeeds accepts clock up skip_tests batch_size api w.

(** The rows of a batch the store refuses. *)
Definition refused_rows (accepts : paper_tuple -> bool) (batch : list paper_tuple)
  : list paper_tuple :=
  filter (fun t => negb (accepts t)) batch.

(* ===================================================================== *)
(** * Sample data *)
(* ===================================================================== *)

(** The raw record of the paper numbered [k], as the API returns it. *)
Definition sample_paper (k : nat) : json :=
  JObj [("id", JStr ("https://openalex.org/W" ++ NilEmpty.string_of_uint (Nat.to_uint k)));
        ("title", JStr "A paper");
        ("cited_by_count", JInt (Z.of_nat k))].

Definition sample_tuple (id : string) (d : option string) : paper_tuple :=
  mkTuple id d (JStr "A paper") JNull JNull JNull JNull JNull JNull JNull JNull
    (JBool false) JNull (JInt 0) JNull (JBool false) (JBool false) JNull JNull JNull
    (JInt 0) (JInt 0).

(** A world whose [papers] table holds [rows], with no transaction open and
    no connection taken yet. *)
Definition world_with (rows : list row) : world :=
  mkWorld (mkStore (Some rows) (Some rows) 0) [].

(** The papers W0 ... W149 as fetched, and as processed. *)
Definition sample_papers : list json := map sample_paper (seq 0 150).

Definition sample_processed : list paper_tuple :=
  match normalize_all sample_papers with
  | Ok (processed, _) => processed
  | Raise _ => []
  end.

(** The store refuses row 37 of the first chunk, and only it. *)
Definition refuses_W36 (t : paper_tuple) : bool := negb (openalex_id t =? "W36").

(** A primary topic that names a field but no subfield and no domain, and
    a record that carries it. *)
Definition sample_topic : list (string * json) :=
  [("display_name", JStr "Neural networks"); ("score", JFloat (9 # 10));
   ("field", JObj [("display_name", JStr "Computer Science")])].

Definition topic_paper : json :=
  JObj [("id", JStr "W1"); ("primary_topic", JObj sample_topic)].

(** A record whose title is null and whose display name is not. *)
Definition untitled_paper : json :=
  JObj [("id", JStr "W1"); ("title", JNull);
        ("display_name", JStr "Attention is all you need")].

(** Two papers, a pre-print and its published version, that share a DOI. *)
Definition shared_doi_rows : list row :=
  [mkRow (sample_tuple "W1" (Some "10.1000/x")) 1 1;
   mkRow (sample_tuple "W2" (Some "10.1000/x")) 2 2].

(* ===================================================================== *)
(** * Vocabulary of the further properties *)
(* ===================================================================== *)

(** A value that is a string. *)
Definition is_string (v : json) : bool :=
  match v with JStr _ => true | _ => false end.

(** A value a nested lookup can be made on: a falsy one (absent, null,
    empty, zero, false) is not looked into, and a mapping has [get]. *)
Definition falsy_or_mapping (v : json) : bool := negb (truthy v) || is_record v.

Definition falsy_or_string (v : json) : bool := negb (truthy v) || is_string v.

(** What [v.get(k, default) if v else other] evaluates to when it does not
    raise. *)
Definition get_if_value (v : json) (k : string) (default other : json) : json :=
  if truthy v
  then match v with JObj items => item_or k items default | _ => other end
  else other.

(** The records [process_paper] does not raise on: the identifier, when
    there is one, is a string; the DOI is falsy or a string; and the
    primary topic, its subfield, field and domain, the open-access block
    and the two citation blocks are each falsy or a mapping. *)
Definition well_formed (kvs : list (string * json)) : bool :=
  let primary_topic := item_or "primary_topic" kvs (JObj []) in
  is_string (item_or "id" kvs (JStr "")) &&
  falsy_or_string (item_or "doi" kvs JNull) &&
  falsy_or_mapping primary_topic &&
  falsy_or_mapping (get_if_value primary_topic "subfield" (JObj []) (JObj [])) &&
  falsy_or_mapping (get_if_value primary_topic "field" (JObj []) (JObj [])) &&
  falsy_or_mapping (get_if_value primary_topic "domain" (JObj []) (JObj [])) &&
  falsy_or_mapping (item_or "open_access" kvs (JObj [])) &&
  falsy_or_mapping (item_or "citation_normalized_percentile" kvs (JObj [])) &&
  falsy_or_mapping (item_or "cited_by_percentile_year" kvs (JObj [])).

(** The table as a connection with no transaction open sees it: what is
    committed is what the next statement works on. *)
Definition settled (s : store) (rows : list row) : Prop :=
  committed s = Some rows /\ working s = Some rows.

(** The upsert on the data columns alone: the tuple replaces the one with
    its identifier, or is added at the end. *)
Fixpoint data_upsert (t : paper_tuple) (ds : list paper_tuple) : list paper_tuple :=
  match ds with
  | [] => [t]
  | d :: rest =>
      if openalex_id d =? openalex_id t
      then t :: rest
      else d :: data_upsert t rest
  end.

(** The tuples of a list upserted one after the other, first to last. *)
Definition data_upserts (ts ds : list paper_tuple) : list paper_tuple :=
  fold_left (fun acc t => data_upsert t acc) ts ds.

(** The row with a given identifier, if the table has one. *)
Definition find_row (k : string) (rows : list row) : option row :=
  find (fun r => r_key r =? k) rows.

(** Every row of the first table is still in the second, created when it
    was. *)
Definition keeps_rows (before after : list row) : Prop :=
  forall k r, find_row k before = Some r ->
  exists r', find_row k after = Some r' /\ created_at r' = created_at r.

(** The tuple carries the identifier. *)
Definition has_key (k : string) (t : paper_tuple) : bool := openalex_id t =? k.

(** The count a record holds under a key, as the tuple takes it. *)
Definition count_or_zero (v : option json) : json :=
  match v with
  | Some c => if truthy c then c else JInt 0
  | None => JInt 0
  end.

(** A record whose citation count is negative and whose country count is
    null. *)
Definition odd_counts_paper : list (string * json) :=
  [("id", JStr "W1"); ("cited_by_count", JInt (-5));
   ("countries_distinct_count", JNull)].

(** Two snapshots of the same paper, cited 3 and then 8 times, in one
    input. *)
Definition cited_twice : list json :=
  [JObj [("id", JStr "W1"); ("cited_by_count", JInt 3)];
   sample_paper 2;
   JObj [("id", JStr "W1"); ("cited_by_count", JInt 8)]].

(** The check finds nothing on the rows. *)
Definition clean (rows : list row) (c : check) : bool :=
  (violations c rows =? 0)%Z.

(** The checks that count towards the pipeline's exit code. *)
Definition hard_checks : list check :=
  filter (fun c => negb (informational c)) all_checks.

(** What a test records when its query runs on the rows. *)
Definition expected_test (rows : list row) (c : check) : test_result :=
  mkTest c (if clean rows c then PASS else FAIL) (Some (violations c rows))
    (clean rows c).

(** No transaction is open. *)
Definition quiescent (s : store) : Prop := committed s = working s.

(** A store that is always reachable. *)
Definition always_up (n : nat) : bool := true.

(** The tables of the second world are those of the first. *)
Definition same_tables (w w' : world) : Prop :=
  committed (w_store w') = committed (w_store w) /\
  working (w_store w') = working (w_store w).

(** The rows a store holds, none when the table is not there. *)
Definition rows_of (s : store) : list row :=
  match committed s with Some rows => rows | None => [] end.

(** The identifier of a fetched work: null when it has none. *)
Definition work_id (work : json) : json :=
  match work with
  | JObj kvs => item_or "id" kvs JNull
  | _ => JNull
  end.

(** No two works of the list have equal identifiers. *)
Fixpoint distinct_ids (works : list json) : bool :=
  match works with
  | [] => true
  | w :: rest =>
      negb (existsb (fun w' => Fetch.py_eq (work_id w) (work_id w')) rest)
      && distinct_ids rest
  end.

(** A work the fetcher keeps: a mapping with an identifier that is truthy
    and can be hashed. *)
Definition identified (work : json) : bool :=
  is_record work && truthy (work_id work) && Fetch.hashable (work_id work).

(** A work the fetcher can look at: a mapping whose identifier is falsy or
    can be hashed. *)
Definition fetchable (work : json) : bool :=
  is_record work && (negb (truthy (work_id work)) || Fetch.hashable (work_id work)).

(** The identifier a filter carries. *)
Definition filter_id (q : Fetch.query) : json :=
  match q with
  | Fetch.ByField i => i
  | Fetch.BySubfield i => i
  end.

(** The API answers the filter with these pages from page [page] on: each
    but the last holds [per_page] works or more, and the last holds
    fewer. *)
Fixpoint served (get : Fetch.query -> nat -> result (list json)) (q : Fetch.query)
    (page : nat) (pages : list (list json)) : Prop :=
  match pages with
  | [] => False
  | works :: rest =>
      get q page = Ok works /\
      match rest with
      | [] => (length works < Fetch.per_page)%nat
      | _ => (Fetch.per_page <= length works)%nat /\ served get q (S page) rest
      end
  end.

(** The pages the fetcher reads for a filter: none when the filter has no
    identifier, else those the API serves from page 1 on. *)
Definition answers (get : Fetch.query -> nat -> result (list json)) (q : Fetch.query)
    (pages : list (list json)) : Prop :=
  if truthy (filter_id q) then served get q 1 pages else pages = [].

(** An API with three pages for the field filter, of 200, 200 and 2
    works, the last two of which were already on page 1, and nothing for
    the subfield filter. *)
Definition sample_pages : list (list json) :=
  [map sample_paper (seq 0 200); map sample_paper (seq 200 200);
   [sample_paper 7; sample_paper 8]].

Definition sample_api (q : Fetch.query) (page : nat) : result (list json) :=
  match q with
  | Fetch.ByField _ => Ok (nth (page - 1) sample_pages [])
  | Fetch.BySubfield _ => Ok []
  end.

(** An API that answers every page of every filter with the same 200
    works. *)
Definition stuck_api (q : Fetch.query) (page : nat) : result (list json) :=
  Ok (map sample_paper (seq 0 200)).

(** A work a page of the API held. *)
Definition on_a_page (get : Fetch.query -> nat -> result (list json)) (w : json) : Prop :=
  exists q page works, get q page = Ok works /\ In w works.

(** What the loops of the fetcher keep true of [seen_ids] and [all_works]:
    the first holds the identifiers of the second, which are distinct, and
    every work kept is identified. *)
Definition inv (st : Fetch.state) : Prop :=
  Fetch.seen_ids st = map work_id (Fetch.all_works st) /\
  distinct_ids (Fetch.all_works st) = true /\
  forallb identified (Fetch.all_works st) = true.

(** What the loader can work on: a falsy value, which it passes over, or a
    list of mappings. *)
Definition loadable (papers : json) : bool :=
  negb (truthy papers)
  || match papers with
     | JList l => forallb is_record l
     | _ => false
     end.

(** A snapshot whose [papers] entry is a string. *)
Definition text_snapshot : Snapshot.file :=
  Snapshot.Holds (JObj [("papers", JStr "W1")]).

(** No row is updated before it was created, and none is stamped later
    than [now]. *)
Definition stamped (now : Z) (rows : list row) : Prop :=
  Forall (fun r => (created_at r <= updated_at r)%Z /\ (updated_at r <= now)%Z) rows.

(** The clock never goes backwards. *)
Definition monotone (clock : nat -> Z) : Prop :=
  forall m n, (m <= n)%nat -> (clock m <= clock n)%Z.

(* ===================================================================== *)
(** * The normaliser: strings, fields and the first loop *)
(* ===================================================================== *)

Module NormalizerFacts.

Import Normalizer.

(** ** Strings *)

Lemma prefix_split p : forall s,
  String.prefix p s = true -> s = (p ++ drop (String.length p) s)%string.
Proof.
  induction p as [|c p IH]; intros s H.
  - reflexivity.
  - destruct s as [|d s]; simpl in H; [discriminate|].
    destruct (ascii_dec c d) as [->|]; [|discriminate].
    simpl. f_equal. apply IH, H.
Qed.

Lemma replace_from_skip old new : forall k s,
  replace_from old new k s = replace_from old new 0 (drop k s).
Proof.
  induction k as [|k IH]; intros s.
  - reflexivity.
  - destruct s as [|c s]; [reflexivity|]. simpl. apply IH.
Qed.

Lemma replace_absent old new : forall s,
  occurs old s = false -> str_replace s old new = s.
Proof.
  unfold str_replace.
  induction s as [|c s IH]; intros H.
  - reflexivity.
  - cbn [occurs] in H. apply orb_false_iff in H as [Hp Ho].
    cbn [replace_from]. rewrite Hp. f_equal. apply IH, Ho.
Qed.

Lemma replace_at_prefix old new s :
  old <> "" -> String.prefix old s = true ->
  str_replace s old new = (new ++ str_replace (drop (String.length old) s) old new)%string.
Proof.
  intros Hne Hp. unfold str_replace.
  destruct s as [|c s].
  - destruct old; [congruence | discriminate].
  - cbn [replace_from]. rewrite Hp. f_equal.
    rewrite replace_from_skip. f_equal.
    destruct old as [|o old]; [congruence|]. simpl. now rewrite Nat.sub_0_r.
Qed.

(** An identifier in which the URL occurs at most once, at the start, loses
    exactly that prefix. *)
Lemma replace_is_removeprefix s :
  occurs openalex_prefix (removeprefix openalex_prefix s) = false ->
  str_replace s openalex_prefix "" = removeprefix openalex_prefix s.
Proof.
  unfold removeprefix.
  destruct (String.prefix openalex_prefix s) eqn:Hp; intros H.
  - rewrite replace_at_prefix by (try discriminate; assumption).
    now rewrite replace_absent.
  - now apply replace_absent.
Qed.

Lemma removeprefix_empty s :
  removeprefix openalex_prefix s = "" -> str_replace s openalex_prefix "" = "".
Proof.
  unfold removeprefix.
  destruct (String.prefix openalex_prefix s) eqn:Hp; intros H.
  - apply prefix_split in Hp. rewrite H in Hp. rewrite Hp. reflexivity.
  - rewrite H. reflexivity.
Qed.


(** ** Reading [process_paper] backwards *)

Ltac bind_inv H :=
  repeat match type of H with
  | rbind ?c _ = Ok _ =>
      let E := fresh "E" in
      destruct c eqn:E; cbn [rbind] in H; [| discriminate H]
  end.

Lemma process_paper_is_record paper t :
  process_paper paper = Ok t -> exists kvs, paper = JObj kvs.
Proof.
  destruct paper; try discriminate. eauto.
Qed.


Lemma process_paper_id paper t :
  process_paper paper = Ok t ->
  exists s, dict_get paper "id" (JStr "") = Ok (JStr s) /\
            openalex_id t = str_replace s openalex_prefix "".
Proof.
  intros H. unfold process_paper in H. bind_inv H.
  injection H as <-. cbn [openalex_id].
  destruct a; try discriminate. injection E0 as <-. eauto.
Qed.

Lemma process_paper_title paper t :
  process_paper paper = Ok t ->
  exists t0 d, dict_get paper "title" (JStr "") = Ok t0 /\
               dict_get paper "display_name" (JStr "") = Ok d /\
               title t = if truthy t0 then t0 else d.
Proof.
  intros H. unfold process_paper in H. bind_inv H.
  injection H as <-. cbn [title].
  exists a2.
  exists (match paper with
          | JObj kvs => item_or "display_name" kvs (JStr "")
          | _ => JNull
          end).
  split; [reflexivity|]. split.
  - destruct paper; try discriminate. reflexivity.
  - unfold or_else in E3. destruct (truthy a2).
    + now injection E3.
    + destruct paper; try discriminate. cbn in E3. now injection E3.
Qed.

Lemma get_if_falsy v k d o r :
  truthy v = false -> get_if v k d o = Ok r -> r = o.
Proof. unfold get_if. intros ->. now injection 1. Qed.

Lemma get_if_obj kvs k d o r :
  kvs <> [] -> get_if (JObj kvs) k d o = Ok r ->
  r = match assoc k kvs with Some v => v | None => d end.
Proof.
  unfold get_if. destruct kvs; [congruence|]. cbn [truthy dict_get].
  intros _. now injection 1.
Qed.

Lemma name_of_sub sub r :
  get_if sub "display_name" JNull JNull = Ok r ->
  forall o, sub = match o with Some v => v | None => JObj [] end ->
  r = name_of o.
Proof.
  intros H o ->. destruct o as [v|]; [|now injection H].
  unfold get_if in H. destruct (truthy v) eqn:Tv.
  - destruct v; try discriminate. cbn in H. now injection H.
  - injection H as <-. destruct v; try reflexivity.
    destruct kvs; [reflexivity | discriminate].
Qed.

Lemma process_paper_topic paper t :
  process_paper paper = Ok t ->
  exists pt,
    dict_get paper "primary_topic" (JObj []) = Ok pt /\
    (truthy pt = false ->
       primary_topic_name t = JNull /\ primary_topic_score t = JNull /\
       subfield_name t = JNull /\ field_name t = JNull /\ domain_name t = JNull) /\
    (forall kvs, pt = JObj kvs -> kvs <> [] ->
       primary_topic_name t = item_or_null "display_name" kvs /\
       primary_topic_score t = item_or_null "score" kvs /\
       subfield_name t = name_of (assoc "subfield" kvs) /\
       field_name t = name_of (assoc "field" kvs) /\
       domain_name t = name_of (assoc "domain" kvs)).
Proof.
  intros H. unfold process_paper in H. bind_inv H.
  injection H as <-.
  cbn [primary_topic_name primary_topic_score subfield_name field_name domain_name].
  exists a7. split; [reflexivity|]. split.
  - intros F.
    apply (get_if_falsy _ _ _ _ _ F) in E8, E9, E10, E12, E14. subst.
    cbn in E11, E13, E15. injection E11 as <-. injection E13 as <-.
    injection E15 as <-. repeat split; reflexivity.
  - intros pt -> Hne.
    apply (get_if_obj _ _ _ _ _ Hne) in E8, E9, E10, E12, E14.
    unfold item_or_null, item_or. repeat split; try assumption.
    + eapply name_of_sub; [exact E11|]. rewrite E10. now destruct (assoc "subfield" pt).
    + eapply name_of_sub; [exact E13|]. rewrite E12. now destruct (assoc "field" pt).
    + eapply name_of_sub; [exact E15|]. rewrite E14. now destruct (assoc "domain" pt).
Qed.

(** ** The first loop *)

Lemma normalize_step_ok acc paper r :
  normalize_step acc paper = Ok r ->
  r = (fst acc ++ kept_tuple paper,
       snd acc + (if skipped_record paper then 1 else 0))%nat.
Proof.
  destruct acc as [ps sk]. unfold normalize_step, kept_tuple, skipped_record.
  destruct (process_paper paper) as [t|e].
  - cbn [truthy negb]. rewrite negb_involutive.
    destruct (openalex_id t =? ""); injection 1 as <-; cbn [fst snd].
    + now rewrite app_nil_r.
    + now rewrite Nat.add_0_r.
  - destruct paper; try discriminate. cbn. injection 1 as <-.
    now rewrite app_nil_r.
Qed.

Lemma normalize_step_total acc paper :
  is_record paper = true -> is_ok (normalize_step acc paper) = true.
Proof.
  destruct acc as [ps sk], paper; try discriminate. intros _.
  unfold normalize_step. destruct (process_paper (JObj kvs)) as [t|e].
  - now destruct (negb (truthy (JStr (openalex_id t)))).
  - reflexivity.
Qed.

Lemma normalize_loop_ok papers : forall acc r,
  normalize_loop papers acc = Ok r ->
  r = (fst acc ++ flat_map kept_tuple papers,
       snd acc + length (filter skipped_record papers))%nat.
Proof.
  induction papers as [|p papers IH]; intros acc r H; cbn in H.
  - injection H as <-. cbn. rewrite app_nil_r, Nat.add_0_r. now destruct acc.
  - destruct (normalize_step acc p) as [acc'|] eqn:Hs; [|discriminate].
    cbn in H. apply IH in H. apply normalize_step_ok in Hs. subst acc'.
    cbn [fst snd] in H. rewrite H. cbn [flat_map filter].
    rewrite <- app_assoc. f_equal.
    destruct (skipped_record p); cbn [length]; lia.
Qed.

Lemma normalize_loop_total papers : forall acc,
  Forall (fun p => is_record p = true) papers ->
  is_ok (normalize_loop papers acc) = true.
Proof.
  induction papers as [|p papers IH]; intros acc HF; [reflexivity|].
  inversion HF as [|? ? Hp HF']; subst. cbn.
  pose proof (normalize_step_total acc p Hp) as Hs.
  destruct (normalize_step acc p); [|discriminate]. cbn. now apply IH.
Qed.

Lemma kept_or_skipped papers :
  (length (flat_map kept_tuple papers) + length (filter skipped_record papers)
   = length papers)%nat.
Proof.
  induction papers as [|p papers IH]; [reflexivity|].
  cbn [flat_map filter]. rewrite length_app.
  unfold kept_tuple at 1, skipped_record at 1.
  destruct (process_paper p) as [t|]; [destruct (openalex_id t =? "")|];
    cbn [length]; lia.
Qed.

Lemma normalize_all_records papers :
  Forall (fun p => is_record p = true) papers ->
  normalize_all papers =
  Ok (flat_map kept_tuple papers, length (filter skipped_record papers)).
Proof.
  intros HF. unfold normalize_all.
  pose proof (normalize_loop_total papers ([], 0%nat) HF) as Ht.
  destruct (normalize_loop papers ([], 0%nat)) as [r|] eqn:E; [|discriminate].
  apply normalize_loop_ok in E. now subst r.
Qed.

(** Outside the data model: for an element that is not a mapping, the
    lookup in the handler's own warning raises, and nothing catches it. *)
Lemma non_mapping_escapes_the_loop :
  normalize_all [JObj [("id", JStr "W1")]; JNull; JObj [("id", JStr "W2")]]
  = Raise AttributeError.
Proof. reflexivity. Qed.

End NormalizerFacts.

(* ===================================================================== *)
(** * The upsert and the batch loop *)
(* ===================================================================== *)

Module StoreFacts.

Import Normalizer Store.

(** ** The upsert statement *)

Lemma updated_row_key now t r : r_key (updated_row now t r) = r_key r.
Proof. reflexivity. Qed.

Lemma updated_row_data now t r :
  r_key r = openalex_id t -> updated_row now t r = mkRow t (created_at r) now.
Proof.
  unfold r_key, updated_row. intros ->. now destruct t.
Qed.

Lemma upsert_rows_with_key now t : forall rows,
  rows_with_key (openalex_id t) (upsert now t rows) =
  match rows_with_key (openalex_id t) rows with
  | [] => [inserted_row now t]
  | r :: rest => updated_row now t r :: rest
  end.
Proof.
  unfold rows_with_key.
  induction rows as [|r rows IH]; cbn [upsert filter].
  - unfold r_key at 1. cbn. now rewrite String.eqb_refl.
  - destruct (r_key r =? openalex_id t) eqn:E; cbn [filter].
    + now rewrite updated_row_key, E.
    + now rewrite E, IH.
Qed.

Lemma upsert_other_keys now t k : forall rows,
  k <> openalex_id t ->
  rows_with_key k (upsert now t rows) = rows_with_key k rows.
Proof.
  unfold rows_with_key. intros rows Hk.
  induction rows as [|r rows IH]; cbn [upsert filter].
  - unfold r_key. cbn.
    destruct (String.eqb_spec (openalex_id t) k); [congruence | reflexivity].
  - destruct (String.eqb_spec (r_key r) (openalex_id t)) as [E|E]; cbn [filter].
    + rewrite updated_row_key.
      destruct (String.eqb_spec (r_key r) k); [congruence | reflexivity].
    + now rewrite IH.
Qed.

Lemma upsert_keys now t : forall rows,
  map r_key (upsert now t rows) =
  if existsb (fun r => r_key r =? openalex_id t) rows
  then map r_key rows
  else map r_key rows ++ [openalex_id t].
Proof.
  induction rows as [|r rows IH]; cbn [upsert existsb map]; [reflexivity|].
  destruct (r_key r =? openalex_id t) eqn:E; cbn [orb map].
  - reflexivity.
  - rewrite IH. now destruct (existsb _ rows).
Qed.

(** The uniqueness constraint survives every upsert. *)
Lemma upsert_keeps_keys_unique now t rows :
  NoDup (map r_key rows) -> NoDup (map r_key (upsert now t rows)).
Proof.
  intros ND. rewrite upsert_keys.
  destruct (existsb _ rows) eqn:E; [assumption|].
  apply NoDup_app; [assumption | repeat constructor; intros [] | ].
  intros k Hin [<-|[]].
  apply in_map_iff in Hin as (r & Hr & Hin).
  assert (existsb (fun r => r_key r =? openalex_id t) rows = true); [|congruence].
  apply existsb_exists. exists r. split; [assumption|].
  now apply String.eqb_eq.
Qed.

Lemma unique_key_rows k : forall rows,
  NoDup (map r_key rows) -> (length (rows_with_key k rows) <= 1)%nat.
Proof.
  unfold rows_with_key.
  induction rows as [|r rows IH]; intros ND; cbn [filter map] in *; [cbn; lia|].
  inversion ND as [|? ? Hnin ND']; subst.
  destruct (String.eqb_spec (r_key r) k) as [E|E]; [|now apply IH].
  cbn [length].
  assert (filter (fun r0 => r_key r0 =? k) rows = []) as ->; [|cbn; lia].
  destruct (filter _ rows) as [|r' ?] eqn:F; [reflexivity|].
  exfalso. apply Hnin.
  assert (In r' (filter (fun r0 => r_key r0 =? k) rows)) as Hin
    by (rewrite F; now left).
  apply filter_In in Hin as [Hin Hk]. apply String.eqb_eq in Hk.
  apply in_map_iff. exists r'. split; [congruence | assumption].
Qed.

(** ** Chunking *)

Lemma firstn_add {A} (l : list A) : forall a b,
  firstn (a + b) l = firstn a l ++ firstn b (skipn a l).
Proof.
  intros a b. revert l. induction a as [|a IH]; intros l; [reflexivity|].
  destruct l as [|x l]; cbn.
  - now rewrite firstn_nil.
  - now rewrite IH.
Qed.

Lemma chunks_prefix {A} (l : list A) (b : nat) : forall j,
  concat (map (fun i => firstn b (skipn i l)) (map (fun k => k * b) (seq 0 j)))
  = firstn (j * b) l.
Proof.
  induction j as [|j IH]; [reflexivity|].
  rewrite seq_S, !map_app, concat_app, IH. cbn [map concat plus].
  rewrite app_nil_r, <- firstn_add. f_equal. lia.
Qed.

Lemma chunks_cover {A} (l : list A) (batch_size : Z) starts :
  (0 < batch_size)%Z ->
  py_range0 (length l) batch_size = Ok starts ->
  concat (map (fun i => slice_from l i batch_size) starts) = l.
Proof.
  intros Hb. unfold py_range0, slice_from.
  destruct (Z.eqb_spec batch_size 0); [lia|].
  destruct (Z.ltb_spec batch_size 0); [lia|].
  injection 1 as <-. rewrite chunks_prefix. apply firstn_all2.
  set (b := Z.to_nat batch_size). assert (0 < b)%nat by lia.
  pose proof (Nat.div_mod_eq (length l + b - 1) b).
  pose proof (Nat.mod_upper_bound (length l + b - 1) b).
  nia.
Qed.

Section Env.

Variable accepts : paper_tuple -> bool.
Variable clock : nat -> Z.

Lemma execute_upsert_ready t s :
  table_ready s = true ->
  exists s',
    execute_upsert accepts clock t s =
      (if accepts t then Ok tt else Raise DatabaseError, s') /\
    table_ready s' = true /\ committed s' = committed s /\ txn s' = txn s.
Proof.
  unfold table_ready, execute_upsert. destruct s as [c [w|] n]; cbn.
  - destruct c; [|discriminate]. intros _.
    destruct (accepts t); eexists; (split; [reflexivity|]); cbn; auto.
  - destruct c; discriminate.
Qed.

Lemma executemany_ready : forall batch s,
  table_ready s = true ->
  exists s',
    executemany accepts clock batch s =
      (if forallb accepts batch then Ok tt else Raise DatabaseError, s') /\
    table_ready s' = true /\ committed s' = committed s /\ txn s' = txn s.
Proof.
  induction batch as [|t batch IH]; intros s R; cbn [executemany forallb].
  - exists s. auto.
  - destruct (execute_upsert_ready t s R) as (s1 & -> & R1 & C1 & T1).
    destruct (accepts t); cbn [andb].
    + destruct (IH s1 R1) as (s2 & -> & R2 & C2 & T2).
      exists s2. repeat split; congruence.
    + exists s1. auto.
Qed.

Lemma commit_ready s : table_ready s = true -> table_ready (commit s) = true.
Proof. unfold table_ready, commit. cbn. now destruct (committed s), (working s). Qed.

Lemma rollback_ready s : table_ready s = true -> table_ready (rollback s) = true.
Proof. unfold table_ready, rollback. cbn. now destruct (committed s). Qed.

Lemma rollback_same s s' :
  committed s' = committed s -> txn s' = txn s -> rollback s' = rollback s.
Proof. unfold rollback. now intros -> ->. Qed.

Lemma insert_one_by_one_count : forall batch total s,
  table_ready s = true ->
  fst (insert_one_by_one accepts clock batch total s)
    = (total + length (accepted_rows accepts batch))%nat /\
  table_ready (snd (insert_one_by_one accepts clock batch total s)) = true.
Proof.
  unfold accepted_rows.
  induction batch as [|t batch IH]; intros total s R;
    cbn [insert_one_by_one filter].
  - cbn. split; [lia | assumption].
  - destruct (execute_upsert_ready t s R) as (s1 & -> & R1 & _).
    destruct (accepts t).
    + destruct (IH (total + 1)%nat (commit s1) (commit_ready _ R1)) as [-> ->].
      cbn [length]. split; [lia | reflexivity].
    + now apply IH, rollback_ready.
Qed.

(** A chunk whose bulk upsert fails is rolled back and retried row by row. *)
Lemma insert_batch_fallback batch total s :
  table_ready s = true -> forallb accepts batch = false ->
  insert_batch accepts clock batch total s =
  insert_one_by_one accepts clock batch total (rollback s).
Proof.
  intros R F. unfold insert_batch.
  destruct (executemany_ready batch s R) as (s1 & -> & R1 & C1 & T1).
  rewrite F. now rewrite (rollback_same s s1).
Qed.

Lemma insert_batch_count batch total s :
  table_ready s = true ->
  fst (insert_batch accepts clock batch total s)
    = (total + length (accepted_rows accepts batch))%nat /\
  table_ready (snd (insert_batch accepts clock batch total s)) = true.
Proof.
  intros R. unfold insert_batch.
  destruct (executemany_ready batch s R) as (s1 & E & R1 & C1 & T1).
  rewrite E. destruct (forallb accepts batch) eqn:F.
  - cbn [fst snd]. split; [|now apply commit_ready].
    unfold accepted_rows. f_equal. f_equal. symmetry.
    rewrite forallb_forall in F. clear -F.
    induction batch as [|t batch IH]; [reflexivity|]. cbn [filter].
    rewrite (F t) by now left. f_equal. apply IH. intros x Hx. apply F. now right.
  - now apply insert_one_by_one_count, rollback_ready.
Qed.

Lemma insert_batches_count processed batch_size : forall starts total s,
  table_ready s = true ->
  fst (insert_batches accepts clock processed batch_size starts total s) =
  (total + length (accepted_rows accepts
              (concat (map (fun i => slice_from processed i batch_size) starts))))%nat.
Proof.
  induction starts as [|i starts IH]; intros total s R;
    cbn [insert_batches map concat].
  - cbn. lia.
  - destruct (insert_batch_count (slice_from processed i batch_size) total s R)
      as [Hc Hr].
    destruct (insert_batch accepts clock _ total s) as [total' s'].
    cbn [fst snd] in Hc, Hr. rewrite IH by assumption. subst total'.
    unfold accepted_rows. rewrite filter_app, length_app. lia.
Qed.

(** Without any assumption on the store: a chunk adds at most its length. *)
Lemma insert_one_by_one_bound : forall batch total s,
  (fst (insert_one_by_one accepts clock batch total s) <= total + length batch)%nat.
Proof.
  induction batch as [|t batch IH]; intros total s; cbn [insert_one_by_one length].
  - cbn. lia.
  - destruct (execute_upsert accepts clock t s) as [[|] s1].
    + specialize (IH (total + 1)%nat (commit s1)). lia.
    + specialize (IH total (rollback s1)). lia.
Qed.

Lemma insert_batch_bound batch total s :
  (fst (insert_batch accepts clock batch total s) <= total + length batch)%nat.
Proof.
  unfold insert_batch.
  destruct (executemany accepts clock batch s) as [[|] s1].
  - cbn. lia.
  - apply insert_one_by_one_bound.
Qed.

Lemma insert_batches_bound processed batch_size : forall starts total s,
  (fst (insert_batches accepts clock processed batch_size starts total s) <=
   total + length (concat (map (fun i => slice_from processed i batch_size) starts)))%nat.
Proof.
  induction starts as [|i starts IH]; intros total s; cbn [insert_batches map concat].
  - cbn. lia.
  - pose proof (insert_batch_bound (slice_from processed i batch_size) total s) as Hb.
    destruct (insert_batch accepts clock _ total s) as [total' s'].
    cbn [fst] in Hb. specialize (IH total' s'). rewrite length_app. lia.
Qed.

End Env.
End StoreFacts.

(* ===================================================================== *)
(** * The validators' bookkeeping *)
(* ===================================================================== *)

Module ValidatorFacts.

Import Store PipelineValidator.

Section Env.

Variable up : nat -> bool.

Lemma run_test_name c e w : name (fst (run_test up c e w)) = c.
Proof.
  unfold run_test. now destruct (get_cursor up (PCheck c) (select_check c) w) as [[|] ?].
Qed.

(** A test passes exactly when its query ran and counted nothing. *)
Lemma run_test_passed c w :
  passed (fst (run_test up c true w)) = true <->
  count (fst (run_test up c true w)) = Some 0%Z.
Proof.
  unfold run_test.
  destruct (get_cursor up (PCheck c) (select_check c) w) as [[n|] ?]; cbn.
  - split; [intros H; apply Z.eqb_eq in H; now subst | injection 1 as ->; reflexivity].
  - split; discriminate.
Qed.

(** A test whose query raised is an ERROR, and an ERROR has not passed. *)
Lemma run_test_error c e w :
  (is_ok (fst (get_cursor up (PCheck c) (select_check c) w)) = false ->
   status (fst (run_test up c e w)) = ERROR) /\
  (status (fst (run_test up c e w)) = ERROR ->
   passed (fst (run_test up c e w)) = false).
Proof.
  unfold run_test.
  destruct (get_cursor up (PCheck c) (select_check c) w) as [[n|] ?]; cbn.
  - split; [discriminate|]. now destruct (test_passes e n).
  - split; reflexivity.
Qed.

Lemma record_test_sound test t :
  informational (name test) = false ->
  (status test = ERROR -> passed test = false) ->
  tally_sound t ->
  tally_sound (record_test test t) /\
  results (record_test test t) = results t ++ [test].
Proof.
  intros Hi He [Hf Hs].
  assert (Forall (fun x => status x = ERROR -> passed x = false) (results t ++ [test]))
    as Hs' by (apply Forall_app; split; [assumption | now constructor]).
  assert (length (filter hard_failure (results t ++ [test])) =
          length (filter hard_failure (results t)) + if passed test then 0 else 1)%nat
    as Hl.
  { rewrite filter_app, length_app. cbn [filter]. unfold hard_failure at 2.
    rewrite Hi. now destruct (passed test). }
  unfold record_test, tally_sound.
  destruct (passed test); cbn [results failed_tests];
    (split; [split; [lia | assumption] | reflexivity]).
Qed.

Lemma run_tests_sound : forall tests t w,
  Forall (fun c => informational c = false) tests ->
  tally_sound t ->
  tally_sound (fst (run_tests up tests t w)) /\
  map name (results (fst (run_tests up tests t w))) = map name (results t) ++ tests.
Proof.
  induction tests as [|c tests IH]; intros t w HF Ht; cbn [run_tests].
  - cbn. now rewrite app_nil_r.
  - inversion HF as [|? ? Hc HF']; subst.
    pose proof (run_test_name c true w) as Hn.
    pose proof (proj2 (run_test_error c true w)) as He.
    destruct (run_test up c true w) as [test w1]. cbn [fst] in Hn, He.
    destruct (record_test_sound test t) as [Hs Hr];
      [now rewrite Hn | assumption | assumption |].
    destruct (IH (record_test test t) w1 HF' Hs) as [IH1 IH2].
    split; [assumption|]. rewrite IH2, Hr, map_app, <- app_assoc.
    cbn. now rewrite Hn.
Qed.

(** The ten tests of the pipeline's validator: the failure counter counts
    the tests that did not pass, the DOI test apart. *)
Lemma run_all_checks_sound w :
  tally_sound (fst (run_all_checks up w)) /\
  map name (results (fst (run_all_checks up w))) = all_checks.
Proof.
  unfold run_all_checks.
  assert (tally_sound empty_tally) as S0 by (split; [reflexivity | constructor]).
  destruct (run_tests_sound [MissingOpenalexId; MissingTitle] empty_tally w)
    as [S1 N1]; [now repeat constructor | assumption |].
  destruct (run_tests up [MissingOpenalexId; MissingTitle] empty_tally w) as [t1 w3].
  cbn [fst] in S1, N1.
  destruct (run_tests_sound
              [NegativeCitedByCount; NegativeCountriesCount; NegativeInstitutionsCount]
              t1 w3) as [S2 N2]; [now repeat constructor | assumption |].
  destruct (run_tests up [NegativeCitedByCount; _; _] t1 w3) as [t2 w4].
  cbn [fst] in S2, N2.
  destruct (run_tests_sound
              [InvalidCitationPercentileRange; InvalidPrimaryTopicScoreRange; NegativeFwci]
              t2 w4) as [S3 N3]; [now repeat constructor | assumption |].
  destruct (run_tests up [InvalidCitationPercentileRange; _; _] t2 w4) as [t3 w5].
  cbn [fst] in S3, N3.
  destruct (run_tests_sound [DuplicateOpenalexId] t3 w5) as [S4 N4];
    [now repeat constructor | assumption |].
  destruct (run_tests up [DuplicateOpenalexId] t3 w5) as [t4 w6].
  cbn [fst] in S4, N4.
  pose proof (run_test_name DuplicateDoi true w6) as Hn.
  pose proof (proj2 (run_test_error DuplicateDoi true w6)) as He.
  destruct (run_test up DuplicateDoi true w6) as [test w7]. cbn [fst] in Hn, He |- *.
  destruct S4 as [F4 E4]. unfold record_informational, tally_sound.
  cbn [results failed_tests]. split; [split|].
  - rewrite filter_app, length_app. cbn [filter]. unfold hard_failure at 2.
    rewrite Hn. cbn. lia.
  - apply Forall_app. split; [assumption | now constructor].
  - rewrite map_app, N4, N3, N2, N1. cbn. now rewrite Hn.
Qed.

Lemma no_hard_failure (l : list test_result) :
  length (filter hard_failure l) = 0%nat <->
  (forall test, In test l -> informational (name test) = false -> passed test = true).
Proof.
  induction l as [|x l IH]; cbn [filter].
  - split; [intros _ ? [] | reflexivity].
  - unfold hard_failure at 1.
    destruct (informational (name x)) eqn:I, (passed x) eqn:P; cbn [negb andb length];
      rewrite ?IH; split; intros H;
      try (intros test [<-|Hin] Hi; [congruence | now apply H]);
      try (intros test Hin Hi; apply H; [now right | assumption]);
      try discriminate.
    exfalso. specialize (H x (or_introl eq_refl) I). congruence.
Qed.

End Env.

End ValidatorFacts.

(* ===================================================================== *)
(** * The orchestrator's exit status *)
(* ===================================================================== *)

Module OrchestratorFacts.

Import Store PipelineValidator Orchestrator.

Section Env.

Variable accepts : Normalizer.paper_tuple -> bool.
Variable clock : nat -> Z.
Variable up : nat -> bool.

(** Every cursor takes a connection from the pool. *)
Lemma get_cursor_acquires {A} why (body : store -> result A * store) w :
  w_acquired (snd (get_cursor up why body w)) = w_acquired w ++ [why].
Proof.
  unfold get_cursor, get_connection.
  destruct (up (length (w_acquired w))); [|reflexivity].
  cbn [w_store w_acquired].
  now destruct (body (w_store w)) as [[|] ?].
Qed.

Lemma grows_not_same {A} (l l' : list A) : length l < length l' -> l' <> l.
Proof. intros H E. rewrite E in H. lia. Qed.

Lemma ddl_step_acquires why stmt next w :
  (forall w', length (w_acquired w') <= length (w_acquired (snd (next w')))) ->
  length (w_acquired w) < length (w_acquired (snd (ddl_step up why stmt next w))).
Proof.
  intros Hn. unfold ddl_step.
  pose proof (get_cursor_acquires why stmt w) as Hc.
  destruct (get_cursor up why stmt w) as [[|] w']; cbn [snd] in *.
  - specialize (Hn w'). rewrite Hc, length_app in Hn. cbn in Hn. lia.
  - rewrite Hc, length_app. cbn. lia.
Qed.

Lemma create_table_acquires w :
  length (w_acquired w) < length (w_acquired (snd (create_table_if_needed up w))).
Proof.
  unfold create_table_if_needed, table_exists.
  pose proof (get_cursor_acquires PTableExists select_table_exists w) as Hc.
  destruct (get_cursor up PTableExists select_table_exists w) as [[[|]|] w1];
    cbn [snd] in *; try (rewrite Hc, length_app; cbn; lia).
  assert (length (w_acquired w) < length (w_acquired w1)) as Hlt
    by (rewrite Hc, length_app; cbn; lia).
  eapply Nat.lt_trans; [exact Hlt|].
  apply ddl_step_acquires. intros w2. apply Nat.lt_le_incl.
  apply ddl_step_acquires. intros w3. apply Nat.lt_le_incl.
  apply ddl_step_acquires. intros w4. apply Nat.lt_le_incl.
  apply ddl_step_acquires. intros w5. cbn. lia.
Qed.

Lemma run_test_acquires c e w :
  w_acquired (snd (run_test up c e w)) = w_acquired w ++ [PCheck c].
Proof.
  unfold run_test.
  pose proof (get_cursor_acquires (PCheck c) (select_check c) w) as Hc.
  now destruct (get_cursor up (PCheck c) (select_check c) w) as [[|] ?].
Qed.

Lemma run_tests_acquires : forall tests t w,
  w_acquired (snd (run_tests up tests t w)) = w_acquired w ++ map PCheck tests.
Proof.
  induction tests as [|c tests IH]; intros t w; cbn [run_tests map].
  - cbn. now rewrite app_nil_r.
  - pose proof (run_test_acquires c true w) as Hc.
    destruct (run_test up c true w) as [test w1]. cbn [snd] in Hc.
    rewrite IH, Hc, <- app_assoc. reflexivity.
Qed.

(** The validator asks for one connection per test, in the order of the
    tests. *)
Lemma run_all_checks_acquires w :
  w_acquired (snd (run_all_checks up w)) = w_acquired w ++ map PCheck all_checks.
Proof.
  unfold run_all_checks.
  pose proof (run_tests_acquires [MissingOpenalexId; MissingTitle] empty_tally w) as H1.
  destruct (run_tests up [MissingOpenalexId; MissingTitle] empty_tally w) as [t1 w3].
  pose proof (run_tests_acquires
                [NegativeCitedByCount; NegativeCountriesCount; NegativeInstitutionsCount]
                t1 w3) as H2.
  destruct (run_tests up [NegativeCitedByCount; _; _] t1 w3) as [t2 w4].
  pose proof (run_tests_acquires
                [InvalidCitationPercentileRange; InvalidPrimaryTopicScoreRange;
                 NegativeFwci] t2 w4) as H3.
  destruct (run_tests up [InvalidCitationPercentileRange; _; _] t2 w4) as [t3 w5].
  pose proof (run_tests_acquires [DuplicateOpenalexId] t3 w5) as H4.
  destruct (run_tests up [DuplicateOpenalexId] t3 w5) as [t4 w6].
  pose proof (run_test_acquires DuplicateDoi true w6) as H5.
  destruct (run_test up DuplicateDoi true w6) as [test w7].
  cbn [snd] in *. rewrite H5, H4, H3, H2, H1, <- !app_assoc. reflexivity.
Qed.

Lemma validator_acquires w :
  length (w_acquired w) < length (w_acquired (snd (run_data_quality_tests up w))).
Proof.
  unfold run_data_quality_tests, table_exists.
  pose proof (get_cursor_acquires PTableExists select_table_exists w) as Hc.
  destruct (get_cursor up PTableExists select_table_exists w) as [[[|]|] w1];
    cbn [snd] in *; try (rewrite Hc, length_app; cbn; lia).
  pose proof (get_cursor_acquires PCountAll select_count_all w1) as Hd.
  destruct (get_cursor up PCountAll select_count_all w1) as [[total|] w2];
    cbn [snd] in *; [| rewrite Hd, Hc, !length_app; cbn; lia].
  pose proof (run_all_checks_acquires w2) as He.
  destruct (run_all_checks up w2) as [t5 w7]. cbn [snd] in *.
  rewrite He, Hd, Hc, !length_app. cbn. lia.
Qed.

(** The validator's exit code, once the table is found and counted. *)
Lemma validator_exit_code w w1 total w2 :
  table_exists up w = (Ok true, w1) ->
  get_cursor up PCountAll select_count_all w1 = (Ok total, w2) ->
  run_data_quality_tests up w =
  (Ok (if existsb hard_failure (results (fst (run_all_checks up w2)))
       then 1%Z else 0%Z),
   snd (run_all_checks up w2)).
Proof.
  intros H1 H2. unfold run_data_quality_tests. rewrite H1, H2.
  destruct (ValidatorFacts.run_all_checks_sound up w2) as [[Hf _] _].
  destruct (run_all_checks up w2) as [t5 w7]. cbn [fst snd] in *.
  rewrite Hf. f_equal. f_equal.
  destruct (filter hard_failure (results t5)) as [|x l] eqn:F.
  - cbn. destruct (existsb hard_failure (results t5)) eqn:E; [|reflexivity].
    apply existsb_exists in E as (x & Hin & Hx).
    assert (In x (filter hard_failure (results t5))) as Hin'
      by (apply filter_In; auto).
    rewrite F in Hin'. destruct Hin'.
  - cbn. assert (In x (filter hard_failure (results t5))) as Hin
      by (rewrite F; now left).
    apply filter_In in Hin as [Hin Hx].
    assert (existsb hard_failure (results t5) = true) as ->; [|reflexivity].
    apply existsb_exists. eauto.
Qed.

Lemma no_hard_failure_iff (l : list test_result) :
  existsb hard_failure l = false <->
  (forall test, In test l -> informational (name test) = false -> passed test = true).
Proof.
  split.
  - intros H test Hin Hi.
    destruct (passed test) eqn:P; [reflexivity|].
    assert (existsb hard_failure l = true); [|congruence].
    apply existsb_exists. exists test. split; [assumption|].
    unfold hard_failure. now rewrite Hi, P.
  - intros H. destruct (existsb hard_failure l) eqn:E; [|reflexivity].
    apply existsb_exists in E as (x & Hin & Hx). unfold hard_failure in Hx.
    apply andb_true_iff in Hx as [Hi Hp].
    apply negb_true_iff in Hi, Hp. rewrite (H x Hin Hi) in Hp. discriminate.
Qed.

Lemma run_code_is_0_or_1 skip_tests batch_size api w :
  fst (run accepts clock up skip_tests batch_size api w) = 0%Z \/
  fst (run accepts clock up skip_tests batch_size api w) = 1%Z.
Proof.
  unfold run, run_body.
  destruct api as [[|p papers]|]; cbn [fst]; auto.
  destruct (create_table_if_needed up w) as [[|] w1]; cbn [fst]; auto.
  destruct (upload_papers accepts clock up (p :: papers) batch_size w1) as [[|] w2];
    cbn [fst]; auto.
  destruct skip_tests; cbn [negb fst]; auto.
  unfold run_data_quality_tests.
  destruct (table_exists up w2) as [[[|]|] w3]; cbn [fst]; auto.
  destruct (get_cursor up PCountAll select_count_all w3) as [[|] w4]; cbn [fst]; auto.
  destruct (run_all_checks up w4) as [t5 w7]. cbn [fst].
  destruct (failed_tests t5 =? 0)%nat; auto.
Qed.

Lemma run_zero_iff skip_tests batch_size api w :
  fst (run accepts clock up skip_tests batch_size api w) = 0%Z <->
  run_succeeds accepts clock up skip_tests batch_size api w.
Proof.
  split.
  - unfold run, run_body.
    destruct api as [[|p papers]|]; cbn [fst]; intros H.
    + now apply nothing_fetched.
    + destruct (create_table_if_needed up w) as [[[]|] w1] eqn:C;
        cbn [fst] in H; [|discriminate].
      destruct (upload_papers accepts clock up (p :: papers) batch_size w1)
        as [[n|] w2] eqn:U; cbn [fst] in H; [|discriminate].
      destruct skip_tests eqn:Sk; cbn [negb fst] in H.
      * eapply tests_skipped; eauto. discriminate.
      * destruct (table_exists up w2) as [[[|]|] w3] eqn:T.
        -- destruct (get_cursor up PCountAll select_count_all w3)
             as [[total|] w4] eqn:G.
           ++ rewrite (validator_exit_code _ _ _ _ T G) in H. cbn [fst] in H.
              destruct (existsb hard_failure _) eqn:E; [discriminate|].
              eapply tests_passed; eauto; [discriminate|].
              now apply no_hard_failure_iff.
           ++ unfold run_data_quality_tests in H. rewrite T, G in H. discriminate.
        -- unfold run_data_quality_tests in H. rewrite T in H. discriminate.
        -- unfold run_data_quality_tests in H. rewrite T in H. discriminate.
    + discriminate.
  - intros [->|papers w1 n w2 -> Hne C U ->
               |papers w1 n w2 w3 total w4 -> Hne C U -> T G Hp].
    + reflexivity.
    + unfold run, run_body. destruct papers; [congruence|]. now rewrite C, U.
    + unfold run, run_body. destruct papers; [congruence|]. rewrite C, U.
      cbn [negb]. rewrite (validator_exit_code _ _ _ _ T G). cbn [fst].
      apply no_hard_failure_iff in Hp. now rewrite Hp.
Qed.

End Env.

End OrchestratorFacts.

(* ===================================================================== *)
(** * The properties of the specification *)
(* ===================================================================== *)

(** ** C1 *)

(** C1. Upserting two tuples with the same [openalex_id] one after the other
    (the same tuple twice in particular) into a table whose identifiers are
    unique leaves exactly one row for that identifier: it holds the fields
    of the second tuple and the second write's [updated_at], and its
    [created_at] is the one the row had after the first write, which is the
    first write's timestamp when the first write inserted the row. *)
Theorem upsert_twice_leaves_one_row (rows : list row) (t t' : paper_tuple)
    (now1 now2 : Z) :
  NoDup (map r_key rows) ->
  openalex_id t' = openalex_id t ->
  exists r1,
    rows_with_key (openalex_id t) (upsert now1 t rows) = [r1] /\
    r_data r1 = t /\ updated_at r1 = now1 /\
    (rows_with_key (openalex_id t) rows = [] -> created_at r1 = now1) /\
    rows_with_key (openalex_id t) (upsert now2 t' (upsert now1 t rows))
      = [mkRow t' (created_at r1) now2] /\
    NoDup (map r_key (upsert now2 t' (upsert now1 t rows))).
Proof.
  intros ND Hk.
  pose proof (StoreFacts.unique_key_rows (openalex_id t) rows ND) as Hu.
  pose proof (StoreFacts.upsert_rows_with_key now1 t rows) as H1.
  assert (exists r1, rows_with_key (openalex_id t) (upsert now1 t rows) = [r1] /\
                     r_data r1 = t /\ updated_at r1 = now1 /\
                     (rows_with_key (openalex_id t) rows = [] -> created_at r1 = now1))
    as (r1 & E1 & D1 & U1 & C1).
  { destruct (rows_with_key (openalex_id t) rows) as [|r [|? ?]] eqn:F;
      [| |cbn in Hu; lia].
    - exists (inserted_row now1 t). rewrite H1. auto.
    - exists (updated_row now1 t r). rewrite H1. split; [reflexivity|].
      assert (In r (rows_with_key (openalex_id t) rows)) as Hin
        by (rewrite F; now left).
      apply filter_In in Hin as [_ Hin]. apply String.eqb_eq in Hin.
      rewrite (StoreFacts.updated_row_data now1 t r Hin). cbn.
      repeat split. discriminate. }
  exists r1. repeat split; try assumption.
  - pose proof (StoreFacts.upsert_rows_with_key now2 t' (upsert now1 t rows)) as H2.
    rewrite Hk in H2. rewrite H2, E1. f_equal.
    apply StoreFacts.updated_row_data. unfold r_key. now rewrite D1.
  - now apply StoreFacts.upsert_keeps_keys_unique, StoreFacts.upsert_keeps_keys_unique.
Qed.

Lemma upsert_twice_leaves_one_row_witness :
  NoDup (map r_key [mkRow (sample_tuple "W2" None) 5 5]) /\
  openalex_id (sample_tuple "W1" (Some "10.1/x")) = openalex_id (sample_tuple "W1" None) /\
  exists r1,
    rows_with_key "W1"
      (upsert 10 (sample_tuple "W1" None) [mkRow (sample_tuple "W2" None) 5 5]) = [r1] /\
    r_data r1 = sample_tuple "W1" None /\ updated_at r1 = 10%Z /\
    (rows_with_key "W1" [mkRow (sample_tuple "W2" None) 5 5] = [] ->
     created_at r1 = 10%Z) /\
    rows_with_key "W1"
      (upsert 20 (sample_tuple "W1" (Some "10.1/x"))
         (upsert 10 (sample_tuple "W1" None) [mkRow (sample_tuple "W2" None) 5 5]))
      = [mkRow (sample_tuple "W1" (Some "10.1/x")) (created_at r1) 20] /\
    NoDup (map r_key
             (upsert 20 (sample_tuple "W1" (Some "10.1/x"))
                (upsert 10 (sample_tuple "W1" None)
                   [mkRow (sample_tuple "W2" None) 5 5]))).
Proof.
  assert (NoDup (map r_key [mkRow (sample_tuple "W2" None) 5 5])) as ND
    by (repeat constructor; intros []).
  split; [exact ND|]. split; [reflexivity|].
  exact (upsert_twice_leaves_one_row [mkRow (sample_tuple "W2" None) 5 5]
           (sample_tuple "W1" None) (sample_tuple "W1" (Some "10.1/x")) 10 20
           ND eq_refl).
Defined.

(** ** C2 *)

Lemma accepted_or_refused accepts (batch : list paper_tuple) :
  (length (accepted_rows accepts batch) + length (refused_rows accepts batch)
   = length batch)%nat.
Proof.
  unfold accepted_rows, refused_rows.
  induction batch as [|t batch IH]; [reflexivity|].
  cbn [filter]. destruct (accepts t); cbn [negb length]; lia.
Qed.

Lemma some_row_refused accepts (batch : list paper_tuple) :
  refused_rows accepts batch <> [] -> forallb accepts batch = false.
Proof.
  unfold refused_rows. induction batch as [|t batch IH]; [intros H; now destruct H|].
  cbn [filter forallb]. destruct (accepts t); cbn [negb andb]; auto.
Qed.

(** Each row of the retry ends one transaction, committed or rolled back. *)
Lemma insert_one_by_one_txn accepts clock : forall batch total s,
  txn (snd (insert_one_by_one accepts clock batch total s))
  = (txn s + length batch)%nat.
Proof.
  induction batch as [|t batch IH]; intros total s; cbn [insert_one_by_one length].
  - cbn. lia.
  - unfold execute_upsert. destruct (working s).
    + destruct (accepts t); rewrite IH; cbn; lia.
    + rewrite IH. cbn. lia.
Qed.

(** With a positive batch size, a reachable store and the table in place,
    the function returns the number of rows the store takes. *)
Lemma insert_papers_total accepts clock up papers processed skipped batch_size w :
  normalize_all papers = Ok (processed, skipped) ->
  (0 < batch_size)%Z ->
  up (length (w_acquired w)) = true ->
  table_ready (w_store w) = true ->
  fst (insert_papers_with_deduplication accepts clock up papers batch_size w)
  = Ok (length (accepted_rows accepts processed)).
Proof.
  intros Hn Hb Hup Hr. unfold insert_papers_with_deduplication, get_connection.
  rewrite Hn, Hup.
  destruct (py_range0 (length processed) batch_size) as [starts|] eqn:R.
  - cbn [w_store w_acquired].
    pose proof (StoreFacts.insert_batches_count accepts clock processed batch_size
                  starts 0 (w_store w) Hr) as Hc.
    destruct (insert_batches accepts clock processed batch_size starts 0 (w_store w))
      as [total s'].
    cbn [fst] in *. rewrite Hc. cbn [plus]. f_equal. f_equal. f_equal.
    now apply StoreFacts.chunks_cover.
  - unfold py_range0 in R.
    destruct (Z.eqb_spec batch_size 0); [lia|].
    destruct (batch_size <? 0)%Z; discriminate.
Qed.

(** C2. A chunk whose bulk upsert fails is rolled back and its rows are
    retried one by one, each in a transaction of its own; the chunk adds to
    the count the rows that the store takes, wherever the refused rows
    stand.  With 150 processed papers, a batch size of 100 and exactly one
    refused row, which is in the first chunk, the chunks have 100 and 50
    rows, the first falls back to the row-by-row retry, and the function
    returns 149. *)
Theorem failed_chunk_is_retried_row_by_row (accepts : paper_tuple -> bool)
    (clock : nat -> Z) (up : nat -> bool) (papers : list json)
    (processed : list paper_tuple) (skipped : nat) (w : world) :
  normalize_all papers = Ok (processed, skipped) ->
  length processed = 150%nat ->
  length (refused_rows accepts (firstn 100 processed)) = 1%nat ->
  refused_rows accepts (skipn 100 processed) = [] ->
  up (length (w_acquired w)) = true ->
  table_ready (w_store w) = true ->
  (forall batch total s,
      table_ready s = true -> forallb accepts batch = false ->
      insert_batch accepts clock batch total s
        = insert_one_by_one accepts clock batch total (rollback s) /\
      fst (insert_batch accepts clock batch total s)
        = (total + length (accepted_rows accepts batch))%nat /\
      txn (snd (insert_batch accepts clock batch total s))
        = (txn s + 1 + length batch)%nat) /\
  py_range0 150 100 = Ok [0; 100]%nat /\
  length (slice_from processed 0 100) = 100%nat /\
  length (slice_from processed 100 100) = 50%nat /\
  forallb accepts (slice_from processed 0 100) = false /\
  fst (insert_papers_with_deduplication accepts clock up papers 100 w) = Ok 149%nat.
Proof.
  intros Hn Hlen Hbad Hgood Hup Hr. split; [|repeat split].
  - intros batch total s Rs F.
    pose proof (StoreFacts.insert_batch_fallback accepts clock batch total s Rs F) as E.
    split; [exact E|]. split.
    + now apply StoreFacts.insert_batch_count.
    + rewrite E, insert_one_by_one_txn. cbn. lia.
  - unfold slice_from. cbn [skipn]. rewrite length_firstn. cbn. lia.
  - unfold slice_from. rewrite length_firstn, length_skipn. cbn. lia.
  - apply some_row_refused. unfold slice_from. cbn [skipn].
    change (Z.to_nat 100) with 100%nat. intros E. rewrite E in Hbad. discriminate.
  - rewrite (insert_papers_total accepts clock up papers processed skipped 100 w)
      by (try assumption; lia).
    f_equal.
    pose proof (accepted_or_refused accepts processed) as Hp.
    assert (length (refused_rows accepts processed) = 1%nat) as Hone.
    { rewrite <- (firstn_skipn 100 processed). unfold refused_rows in *.
      rewrite filter_app, length_app, Hbad, Hgood. reflexivity. }
    lia.
Qed.

Lemma failed_chunk_is_retried_row_by_row_witness :
  fst (insert_papers_with_deduplication refuses_W36 Z.of_nat (fun _ => true)
         sample_papers 100 (world_with [])) = Ok 149%nat.
Proof.
  refine (proj2 (proj2 (proj2 (proj2 (proj2
    (failed_chunk_is_retried_row_by_row refuses_W36 Z.of_nat (fun _ => true)
       sample_papers sample_processed 0 (world_with []) _ _ _ _ _ _)))))).
  - vm_compute. reflexivity.
  - vm_compute. reflexivity.
  - vm_compute. reflexivity.
  - vm_compute. reflexivity.
  - reflexivity.
  - reflexivity.
Defined.

(** ** C3 *)

(** C3. On a list of raw records the first loop never raises: it returns
    the tuples of the records it keeps and the number of records it skips.
    A record whose processing raises, and a record whose identifier is
    missing or is empty once the URL prefix is stripped, is skipped: it is
    counted and adds no tuple, and the records after it are processed as
    they would be without it. *)
Theorem malformed_records_are_skipped (papers : list json) :
  Forall (fun p => is_record p = true) papers ->
  normalize_all papers
    = Ok (flat_map kept_tuple papers, length (filter skipped_record papers)) /\
  (forall paper,
      is_ok (process_paper paper) = false ->
      skipped_record paper = true /\ kept_tuple paper = []) /\
  (forall paper s,
      dict_get paper "id" (JStr "") = Ok (JStr s) ->
      removeprefix openalex_prefix s = "" ->
      skipped_record paper = true /\ kept_tuple paper = []) /\
  (forall before paper after,
      papers = before ++ paper :: after ->
      skipped_record paper = true ->
      flat_map kept_tuple papers = flat_map kept_tuple (before ++ after) /\
      length (filter skipped_record papers)
        = S (length (filter skipped_record (before ++ after)))).
Proof.
  intros HF. split; [now apply NormalizerFacts.normalize_all_records|].
  split; [|split].
  - intros paper H. unfold skipped_record, kept_tuple.
    now destruct (process_paper paper).
  - intros paper s Hid Hs. unfold skipped_record, kept_tuple.
    destruct (process_paper paper) as [t|] eqn:E; [|now split].
    destruct (NormalizerFacts.process_paper_id paper t E) as (s' & Hid' & Ht).
    rewrite Hid in Hid'. injection Hid' as <-.
    rewrite Ht, (NormalizerFacts.removeprefix_empty s Hs). now split.
  - intros before paper after -> Hs.
    assert (kept_tuple paper = []) as Hk.
    { unfold skipped_record in Hs. unfold kept_tuple.
      destruct (process_paper paper); [now rewrite Hs | reflexivity]. }
    rewrite !flat_map_app, !filter_app, !length_app. cbn [flat_map filter].
    rewrite Hk, Hs. cbn [app length]. split; [reflexivity | lia].
Qed.

Lemma malformed_records_are_skipped_witness :
  normalize_all
    [sample_paper 1; JObj [("title", JStr "No identifier")];
     JObj [("id", JStr "https://openalex.org/")];
     JObj [("id", JStr "W7"); ("primary_topic", JStr "not a mapping")];
     sample_paper 2]
  = Ok (flat_map kept_tuple [sample_paper 1; sample_paper 2], 3%nat).
Proof.
  refine (eq_trans (proj1 (malformed_records_are_skipped _ _)) _).
  - repeat constructor.
  - vm_compute. reflexivity.
Defined.

(** ** C4 *)

(** C4. On a table whose only finding is one DOI shared by two papers, the
    validator inlined in the pipeline returns 0, and the stand-alone
    validator, whose [run_test] counts the DOI test like any other, returns
    1. *)
Theorem shared_doi_fails_standalone_validator :
  map (fun c => violations c shared_doi_rows) all_checks
    = [0; 0; 0; 0; 0; 0; 0; 0; 0; 1]%Z /\
  fst (PipelineValidator.run_data_quality_tests (fun _ => true)
         (world_with shared_doi_rows)) = Ok 0%Z /\
  fst (StandaloneValidator.run_all_tests (fun _ => true)
         (world_with shared_doi_rows)) = 1%Z.
Proof.
  split; [|split].
  - vm_compute. reflexivity.
  - vm_compute. reflexivity.
  - vm_compute. reflexivity.
Qed.

(** ** C5 *)

(** The claim as the specification states it does not hold: a record with a
    non-empty identifier yields no tuple when another of its fields is
    malformed, and [str.replace] removes the URL wherever it stands, not
    only at the start. *)
Lemma external_id_counterexample :
  process_paper (JObj [("id", JStr "W1"); ("doi", JInt 5)]) = Raise AttributeError /\
  exists t,
    process_paper (JObj [("id", JStr "W1https://openalex.org/")]) = Ok t /\
    openalex_id t = "W1" /\
    removeprefix openalex_prefix "W1https://openalex.org/" = "W1https://openalex.org/".
Proof.
  split; [reflexivity|]. eexists. split; [reflexivity|]. split; reflexivity.
Qed.

(** C5 (amended). For every raw record whose identifier is a string in
    which the URL [https://openalex.org/] stands at most once, at the
    start, and from which [process_paper] returns a tuple, the tuple's
    [openalex_id] is the identifier stripped of that prefix. *)
Theorem external_id_is_identifier_without_prefix (paper : json) (s : string)
    (t : paper_tuple) :
  dict_get paper "id" (JStr "") = Ok (JStr s) ->
  occurs openalex_prefix (removeprefix openalex_prefix s) = false ->
  process_paper paper = Ok t ->
  openalex_id t = removeprefix openalex_prefix s.
Proof.
  intros Hid Hocc Hp.
  destruct (NormalizerFacts.process_paper_id paper t Hp) as (s' & Hid' & Ht).
  rewrite Hid in Hid'. injection Hid' as <-.
  rewrite Ht. now apply NormalizerFacts.replace_is_removeprefix.
Qed.

Lemma external_id_is_identifier_without_prefix_witness :
  exists t,
    process_paper (JObj [("id", JStr "https://openalex.org/W7105757696")]) = Ok t /\
    openalex_id t = "W7105757696".
Proof.
  eexists. split; [reflexivity|].
  exact (external_id_is_identifier_without_prefix
           (JObj [("id", JStr "https://openalex.org/W7105757696")])
           "https://openalex.org/W7105757696" _ eq_refl eq_refl eq_refl).
Defined.

(** ** C6 *)

(** C6. In a tuple [process_paper] returns: when the record has no
    [primary_topic] (or a null or empty one), the topic name, the score and
    the subfield, field and domain names are all null; when it has one, the
    topic name and score are its [display_name] and [score], and each of
    the subfield, field and domain names is read from its own sub-object
    alone, null exactly when that sub-object is absent or holds no name,
    whatever the other two are. *)
Theorem primary_topic_is_flattened (paper : json) (t : paper_tuple) :
  process_paper paper = Ok t ->
  exists kvs, paper = JObj kvs /\
  ((assoc "primary_topic" kvs = None \/
    exists pt, assoc "primary_topic" kvs = Some pt /\ truthy pt = false) ->
   primary_topic_name t = JNull /\ primary_topic_score t = JNull /\
   subfield_name t = JNull /\ field_name t = JNull /\ domain_name t = JNull) /\
  (forall pt, assoc "primary_topic" kvs = Some (JObj pt) -> pt <> [] ->
   primary_topic_name t = item_or_null "display_name" pt /\
   primary_topic_score t = item_or_null "score" pt /\
   subfield_name t = name_of (assoc "subfield" pt) /\
   field_name t = name_of (assoc "field" pt) /\
   domain_name t = name_of (assoc "domain" pt) /\
   (assoc "subfield" pt = None -> subfield_name t = JNull) /\
   (assoc "field" pt = None -> field_name t = JNull) /\
   (assoc "domain" pt = None -> domain_name t = JNull)).
Proof.
  intros Hp. destruct (NormalizerFacts.process_paper_is_record paper t Hp) as [kvs ->].
  exists kvs. split; [reflexivity|].
  destruct (NormalizerFacts.process_paper_topic _ t Hp) as (pt & Hpt & Hnone & Hsome).
  cbn [dict_get] in Hpt. injection Hpt as Hpt. split.
  - intros H. apply Hnone. rewrite <- Hpt.
    destruct H as [->|(v & -> & Hv)]; [reflexivity | exact Hv].
  - intros kv Hkv Hne. rewrite Hkv in Hpt.
    destruct (Hsome kv (eq_sym Hpt) Hne) as (H1 & H2 & H3 & H4 & H5).
    repeat split; try assumption.
    + intros E. now rewrite H3, E.
    + intros E. now rewrite H4, E.
    + intros E. now rewrite H5, E.
Qed.

Lemma primary_topic_is_flattened_witness :
  exists t,
    process_paper topic_paper = Ok t /\
    subfield_name t = JNull /\ field_name t = JStr "Computer Science" /\
    domain_name t = JNull.
Proof.
  eexists. split; [reflexivity|].
  destruct (primary_topic_is_flattened topic_paper _ eq_refl) as (kvs & E & _ & H).
  injection E as <-.
  assert (sample_topic <> []) as Hne by discriminate.
  destruct (H sample_topic eq_refl Hne) as (_ & _ & _ & Hf & _ & Hs & _ & Hd).
  split; [exact (Hs eq_refl)|]. split; [exact Hf | exact (Hd eq_refl)].
Defined.

(** ** C7 *)

(** The claim as the specification states it does not hold: a record that
    has neither a title nor a display name is processed all the same, and
    its tuple has an empty title. *)
Lemma nonempty_title_counterexample :
  exists t,
    process_paper (JObj [("id", JStr "https://openalex.org/W1")]) = Ok t /\
    title t = JStr "".
Proof. eexists. split; reflexivity. Qed.

(** C7 (amended). The title of a tuple [process_paper] returns is the
    record's [title] when that is truthy, and otherwise its
    [display_name] (the empty string when the record has none); so it is a
    non-empty string exactly when the [title] is one, or the [title] is
    absent, null or empty and the [display_name] is one. *)
Theorem title_falls_back_to_display_name (paper : json) (t : paper_tuple)
    (title0 display_name : json) :
  process_paper paper = Ok t ->
  dict_get paper "title" (JStr "") = Ok title0 ->
  dict_get paper "display_name" (JStr "") = Ok display_name ->
  title t = (if truthy title0 then title0 else display_name) /\
  nonempty_string (title t)
    = nonempty_string title0 || (negb (truthy title0) && nonempty_string display_name).
Proof.
  intros Hp H0 Hd.
  destruct (NormalizerFacts.process_paper_title paper t Hp) as (t0 & d & H0' & Hd' & Ht).
  rewrite H0 in H0'. injection H0' as <-. rewrite Hd in Hd'. injection Hd' as <-.
  split; [exact Ht|]. rewrite Ht.
  destruct (truthy title0) eqn:T; cbn [negb andb].
  - now rewrite orb_false_r.
  - assert (nonempty_string title0 = false) as ->; [|reflexivity].
    destruct title0; try reflexivity. exact T.
Qed.

Lemma title_falls_back_to_display_name_witness :
  exists t,
    process_paper untitled_paper = Ok t /\
    title t = JStr "Attention is all you need".
Proof.
  eexists. split; [reflexivity|].
  exact (proj1 (title_falls_back_to_display_name untitled_paper _ JNull
                  (JStr "Attention is all you need") eq_refl eq_refl eq_refl)).
Defined.

(** ** C8 *)

Import PipelineValidator Orchestrator.

(** C8. The exit code of [run] is 0 or 1, and it is 0 exactly when the run
    succeeds: nothing was fetched; or the records were uploaded and the
    tests were skipped, in which case the world is left as the upload left
    it; or the tests ran and every test but the informational DOI test
    passed.  A test whose query raises is recorded as an ERROR that has not
    passed, and whenever a step of the run raises the exit code is 1.  The
    validator cannot run unseen: it takes a connection whenever it runs. *)
Theorem exit_status_is_zero_iff_run_succeeds (accepts : paper_tuple -> bool)
    (clock : nat -> Z) (up : nat -> bool) (skip_tests : bool) (batch_size : Z)
    (api : result (list json)) (w : world) :
  (fst (run accepts clock up skip_tests batch_size api w) = 0%Z \/
   fst (run accepts clock up skip_tests batch_size api w) = 1%Z) /\
  (fst (run accepts clock up skip_tests batch_size api w) = 0%Z <->
   run_succeeds accepts clock up skip_tests batch_size api w) /\
  (is_ok (fst (run_body accepts clock up skip_tests batch_size api w)) = false ->
   fst (run accepts clock up skip_tests batch_size api w) = 1%Z) /\
  (skip_tests = true ->
   forall papers w1 n w2,
     api = Ok papers -> papers <> [] ->
     create_table_if_needed up w = (Ok tt, w1) ->
     upload_papers accepts clock up papers batch_size w1 = (Ok n, w2) ->
     run accepts clock up skip_tests batch_size api w = (0%Z, w2)) /\
  (forall w', map name (results (fst (run_all_checks up w'))) = all_checks) /\
  (forall w' test,
     In test (results (fst (run_all_checks up w'))) ->
     status test = ERROR -> passed test = false) /\
  (forall c w',
     is_ok (fst (get_cursor up (PCheck c) (select_check c) w')) = false ->
     status (fst (run_test up c true w')) = ERROR /\
     passed (fst (run_test up c true w')) = false) /\
  (forall w', w_acquired (snd (run_data_quality_tests up w')) <> w_acquired w').
Proof.
  split; [apply OrchestratorFacts.run_code_is_0_or_1|].
  split; [apply OrchestratorFacts.run_zero_iff|].
  split; [|split; [|split; [|split; [|split]]]].
  - unfold run. now destruct (run_body accepts clock up skip_tests batch_size api w)
      as [[|] ?].
  - intros -> papers w1 n w2 -> Hne C U. unfold run, run_body.
    destruct papers; [congruence|]. now rewrite C, U.
  - intros w'. apply ValidatorFacts.run_all_checks_sound.
  - intros w' test Hin.
    destruct (ValidatorFacts.run_all_checks_sound up w') as [[_ He] _].
    rewrite Forall_forall in He. now apply He.
  - intros c w' H.
    destruct (ValidatorFacts.run_test_error up c true w') as [H1 H2]. auto.
  - intros w'. apply OrchestratorFacts.grows_not_same,
      OrchestratorFacts.validator_acquires.
Qed.

(** ** C9 *)

(** A write to the store is made on a connection taken for it. *)
Lemma upload_takes_a_connection accepts clock up papers batch_size w :
  w_store (snd (upload_papers accepts clock up papers batch_size w)) <> w_store w ->
  w_acquired (snd (upload_papers accepts clock up papers batch_size w)) <> w_acquired w.
Proof.
  unfold upload_papers, insert_papers_with_deduplication, get_connection.
  destruct papers as [|p papers]; [now intros H|].
  destruct (normalize_all (p :: papers)) as [[processed skipped]|]; [|now intros H].
  intros _. apply OrchestratorFacts.grows_not_same.
  destruct (up (length (w_acquired w))); cbn [snd w_acquired].
  - destruct (py_range0 (length processed) batch_size) as [starts|];
      [destruct (insert_batches _ _ _ _ _ _ _)|];
      cbn [snd w_acquired]; rewrite length_app; cbn; lia.
  - rewrite length_app. cbn. lia.
Qed.

(** C9. When nothing is fetched, [run] returns 0 and leaves the world as it
    found it: the table and its rows are the same and no connection was
    taken from the pool, whereas creating the table, writing rows and
    validating each take one. *)
Theorem nothing_fetched_touches_nothing (accepts : paper_tuple -> bool)
    (clock : nat -> Z) (up : nat -> bool) (skip_tests : bool) (batch_size : Z)
    (w : world) :
  run accepts clock up skip_tests batch_size (Ok []) w = (0%Z, w) /\
  (forall w', w_acquired (snd (create_table_if_needed up w')) <> w_acquired w') /\
  (forall papers w',
     w_store (snd (upload_papers accepts clock up papers batch_size w')) <> w_store w' ->
     w_acquired (snd (upload_papers accepts clock up papers batch_size w'))
       <> w_acquired w') /\
  (forall w', w_acquired (snd (run_data_quality_tests up w')) <> w_acquired w').
Proof.
  split; [reflexivity|]. split; [|split].
  - intros w'. apply OrchestratorFacts.grows_not_same,
      OrchestratorFacts.create_table_acquires.
  - intros papers w'. apply upload_takes_a_connection.
  - intros w'. apply OrchestratorFacts.grows_not_same,
      OrchestratorFacts.validator_acquires.
Qed.

(** ** C10 *)

Lemma slices_within {A} (l : list A) batch_size starts :
  py_range0 (length l) batch_size = Ok starts ->
  (length (concat (map (fun i => slice_from l i batch_size) starts)) <= length l)%nat.
Proof.
  intros R. destruct (Z.ltb_spec 0 batch_size) as [Hb|Hb].
  - now rewrite (StoreFacts.chunks_cover l batch_size starts Hb R).
  - unfold py_range0 in R. destruct (Z.eqb_spec batch_size 0); [discriminate|].
    destruct (Z.ltb_spec batch_size 0); [|lia]. injection R as <-. cbn. lia.
Qed.

(** C10. For a list of raw records, the first loop returns the tuples of
    the records it keeps, in the order of the input, and the number of the
    records it skips; every record is either kept, adding exactly one
    tuple, or skipped, adding one to the count, so the two add up to the
    length of the input; and a count the function returns is at most the
    number of processed tuples. *)
Theorem processed_plus_skipped_is_input (papers : list json) :
  Forall (fun p => is_record p = true) papers ->
  exists processed skipped,
    normalize_all papers = Ok (processed, skipped) /\
    processed = flat_map kept_tuple papers /\
    skipped = length (filter skipped_record papers) /\
    Forall (fun p => (exists t, kept_tuple p = [t] /\ skipped_record p = false) \/
                     (kept_tuple p = [] /\ skipped_record p = true)) papers /\
    (length processed + skipped = length papers)%nat /\
    forall accepts clock up batch_size w n w',
      insert_papers_with_deduplication accepts clock up papers batch_size w = (Ok n, w') ->
      (n <= length processed)%nat.
Proof.
  intros HF. pose proof (NormalizerFacts.normalize_all_records papers HF) as Hn.
  exists (flat_map kept_tuple papers), (length (filter skipped_record papers)).
  split; [exact Hn|]. split; [reflexivity|]. split; [reflexivity|]. split; [|split].
  - apply Forall_forall. intros p _. unfold kept_tuple, skipped_record.
    destruct (process_paper p) as [t|]; [|now right].
    destruct (openalex_id t =? ""); [now right | left; eauto].
  - apply NormalizerFacts.kept_or_skipped.
  - intros accepts clock up batch_size w n w' H.
    unfold insert_papers_with_deduplication in H. rewrite Hn in H.
    destruct (get_connection up PUpload w) as [[|] w1]; [|discriminate].
    destruct (py_range0 _ batch_size) as [starts|] eqn:R; [|discriminate].
    pose proof (StoreFacts.insert_batches_bound accepts clock
                  (flat_map kept_tuple papers) batch_size starts 0 (w_store w1)) as Hb.
    destruct (insert_batches accepts clock _ batch_size starts 0 (w_store w1))
      as [total s'].
    injection H as <- _. cbn [fst plus] in Hb.
    pose proof (slices_within _ _ _ R). lia.
Qed.

Lemma processed_plus_skipped_is_input_witness :
  exists processed skipped,
    normalize_all [sample_paper 1; JObj []; JObj [("id", JInt 3)]; sample_paper 2]
      = Ok (processed, skipped) /\
    length processed = 2%nat /\ skipped = 2%nat.
Proof.
  destruct (processed_plus_skipped_is_input
              [sample_paper 1; JObj []; JObj [("id", JInt 3)]; sample_paper 2])
    as (processed & skipped & Hn & Hp & Hs & _).
  - repeat constructor.
  - exists processed, skipped. split; [exact Hn|].
    rewrite Hp, Hs. split; reflexivity.
Defined.

(* ===================================================================== *)
(** * Further facts about the normaliser, the upserter, the validators and the orchestrator *)
(* ===================================================================== *)

Module NormalizerMore.

Lemma get_if_sound v k d o :
  falsy_or_mapping v = true -> get_if v k d o = Ok (get_if_value v k d o).
Proof.
  unfold falsy_or_mapping, get_if, get_if_value.
  destruct (truthy v); cbn [negb orb]; [|reflexivity].
  destruct v; try discriminate. reflexivity.
Qed.

Lemma get_if_raises v k d o :
  falsy_or_mapping v = false -> get_if v k d o = Raise AttributeError.
Proof.
  unfold falsy_or_mapping, get_if.
  destruct (truthy v); cbn [negb orb]; [|discriminate].
  destruct v; try discriminate; reflexivity.
Qed.

Lemma extract_doi_ok kvs :
  is_ok (extract_doi (JObj kvs)) = falsy_or_string (item_or "doi" kvs JNull).
Proof.
  unfold extract_doi, falsy_or_string, item_or. cbn [dict_get rbind].
  destruct (match assoc "doi" kvs with Some v => v | None => JNull end) as [| | | |s| |] eqn:E;
    cbn [truthy negb orb is_string is_ok]; try reflexivity.
  - now destruct b.
  - now destruct (z =? 0)%Z.
  - now destruct (Qnum q =? 0)%Z.
  - destruct (s =? ""); cbn; [reflexivity|]. now destruct (String.prefix doi_prefix s).
  - now destruct l.
  - now destruct kvs0.
Qed.

Lemma if_ok {A} (c : bool) (x y : A) :
  (if c then Ok x else Ok y) = Ok (if c then x else y).
Proof. now destruct c. Qed.

Ltac step_get_if :=
  match goal with
  | |- context [get_if ?v ?k ?d ?o] =>
      first [ rewrite (get_if_sound v k d o) by assumption
            | rewrite (get_if_raises v k d o) by assumption ]
  end.

Lemma process_paper_ok_iff kvs :
  is_ok (process_paper (JObj kvs)) = well_formed kvs.
Proof.
  unfold process_paper, well_formed. cbn [dict_get rbind].
  fold (item_or "id" kvs (JStr "")). fold (item_or "primary_topic" kvs (JObj [])).
  fold (item_or "open_access" kvs (JObj [])).
  fold (item_or "citation_normalized_percentile" kvs (JObj [])).
  fold (item_or "cited_by_percentile_year" kvs (JObj [])).
  destruct (item_or "id" kvs (JStr "")) as [| | | |s| |];
    cbn [replace_method rbind is_string andb is_ok]; try reflexivity.
  pose proof (extract_doi_ok kvs) as Hd.
  destruct (extract_doi (JObj kvs)) as [d|]; cbn [is_ok] in Hd; rewrite <- Hd;
    cbn [rbind andb is_ok]; [|reflexivity].
  unfold or_else.
  set (pt := item_or "primary_topic" kvs (JObj [])).
  set (oa := item_or "open_access" kvs (JObj [])).
  set (cn := item_or "citation_normalized_percentile" kvs (JObj [])).
  set (cy := item_or "cited_by_percentile_year" kvs (JObj [])).
  rewrite !if_ok. cbn [rbind].
    (destruct (falsy_or_mapping pt) eqn:Hpt; repeat (step_get_if; cbn [rbind]);
       cbn [andb is_ok]; [|reflexivity]);
    (destruct (falsy_or_mapping (get_if_value pt "subfield" (JObj []) (JObj []))) eqn:Hs;
       repeat (step_get_if; cbn [rbind]); cbn [andb is_ok]; [|reflexivity]);
    (destruct (falsy_or_mapping (get_if_value pt "field" (JObj []) (JObj []))) eqn:Hf;
       repeat (step_get_if; cbn [rbind]); cbn [andb is_ok]; [|reflexivity]);
    (destruct (falsy_or_mapping (get_if_value pt "domain" (JObj []) (JObj []))) eqn:Hdm;
       repeat (step_get_if; cbn [rbind]); cbn [andb is_ok]; [|reflexivity]);
    (destruct (falsy_or_mapping oa) eqn:Hoa; repeat (step_get_if; cbn [rbind]);
       cbn [andb is_ok]; [|reflexivity]);
    (destruct (falsy_or_mapping cn) eqn:Hcn; repeat (step_get_if; cbn [rbind]);
       cbn [andb is_ok]; [|reflexivity]);
    (destruct (falsy_or_mapping cy) eqn:Hcy; repeat (step_get_if; cbn [rbind]);
       cbn [andb is_ok]; reflexivity).
Qed.

Lemma process_paper_counts paper t :
  process_paper paper = Ok t ->
  exists c1 c2 c3,
    dict_get paper "cited_by_count" (JInt 0) = Ok c1 /\
    dict_get paper "countries_distinct_count" (JInt 0) = Ok c2 /\
    dict_get paper "institutions_distinct_count" (JInt 0) = Ok c3 /\
    cited_by_count t = (if truthy c1 then c1 else JInt 0) /\
    countries_count t = (if truthy c2 then c2 else JInt 0) /\
    institutions_count t = (if truthy c3 then c3 else JInt 0) /\
    fwci t = JNull.
Proof.
  intros H. unfold process_paper in H. NormalizerFacts.bind_inv H.
  injection H as <-. cbn [cited_by_count countries_count institutions_count fwci].
  exists a19, a28, a30. repeat split.
  - unfold or_else in E20. destruct (truthy a19); now injection E20.
  - unfold or_else in E29. destruct (truthy a28); now injection E29.
  - unfold or_else in E31. destruct (truthy a30); now injection E31.
Qed.

Lemma processed_ids_non_empty papers processed skipped :
  normalize_all papers = Ok (processed, skipped) ->
  Forall (fun t => openalex_id t <> "") processed.
Proof.
  intros H. apply NormalizerFacts.normalize_loop_ok in H. injection H as -> _.
  cbn [fst app]. apply Forall_forall. intros t Hin.
  apply in_flat_map in Hin as (p & _ & Hp). unfold kept_tuple in Hp.
  destruct (process_paper p) as [t'|]; [|destruct Hp].
  destruct (String.eqb_spec (openalex_id t') ""); [destruct Hp|].
  destruct Hp as [<-|[]]. assumption.
Qed.

(** The first loop never hands on an [fwci]. *)
Lemma processed_fwci_null papers processed skipped :
  normalize_all papers = Ok (processed, skipped) ->
  Forall (fun t => fwci t = JNull) processed.
Proof.
  intros H. apply NormalizerFacts.normalize_loop_ok in H. injection H as -> _.
  cbn [fst app]. apply Forall_forall. intros t Hin.
  apply in_flat_map in Hin as (p & _ & Hp). unfold kept_tuple in Hp.
  destruct (process_paper p) as [t'|] eqn:E; [|destruct Hp].
  destruct (openalex_id t' =? ""); [destruct Hp|]. destruct Hp as [<-|[]].
  now destruct (process_paper_counts p t' E) as (_ & _ & _ & _ & _ & _ & _ & _ & _ & F).
Qed.

End NormalizerMore.

Module UpserterMore.

Lemma upsert_data now t : forall rows,
  map r_data (upsert now t rows) = data_upsert t (map r_data rows).
Proof.
  induction rows as [|r rows IH]; cbn [upsert map data_upsert]; [reflexivity|].
  fold (r_key r). destruct (String.eqb_spec (r_key r) (openalex_id t)) as [E|E];
    cbn [map].
  - now rewrite (StoreFacts.updated_row_data now t r E).
  - now rewrite IH.
Qed.

Section Env.

Variable accepts : paper_tuple -> bool.
Variable clock : nat -> Z.

(** A property of the rows that every upsert of an admissible tuple keeps. *)
Variable Q : list row -> Prop.
Variable admissible : paper_tuple -> Prop.
Hypothesis Q_upsert :
  forall now t rows, admissible t -> Q rows -> Q (upsert now t rows).

Lemma executemany_keeps : forall batch s rows,
  Forall admissible batch ->
  committed s = Some rows -> (exists w, working s = Some w /\ Q w) ->
  exists s',
    executemany accepts clock batch s =
      (if forallb accepts batch then Ok tt else Raise DatabaseError, s') /\
    committed s' = Some rows /\ txn s' = txn s /\
    (exists w', working s' = Some w' /\ Q w').
Proof.
  induction batch as [|t batch IH]; intros s rows HF Hc (w & Hw & Qw);
    cbn [executemany forallb].
  - exists s. repeat split; eauto.
  - inversion HF as [|? ? Ht HF']; subst.
    unfold execute_upsert. rewrite Hw. destruct (accepts t); cbn [andb].
    + destruct (IH (mkStore (committed s) (Some (upsert (clock (txn s)) t w)) (txn s))
                  rows HF' Hc) as (s' & E & Hc' & Ht' & Hw'); [cbn; eauto|].
      exists s'. rewrite E. repeat split; assumption.
    + exists s. repeat split; eauto.
Qed.

Lemma insert_one_by_one_keeps : forall batch total s rows,
  Forall admissible batch -> settled s rows -> Q rows ->
  exists rows',
    settled (snd (insert_one_by_one accepts clock batch total s)) rows' /\ Q rows'.
Proof.
  induction batch as [|t batch IH]; intros total s rows HF [Hc Hw] Qr;
    cbn [insert_one_by_one].
  - exists rows. now split.
  - inversion HF as [|? ? Ht HF']; subst.
    unfold execute_upsert. rewrite Hw. destruct (accepts t).
    + eapply IH; [assumption | split; reflexivity | now apply Q_upsert].
    + eapply IH; [assumption | split; cbn; eassumption | assumption].
Qed.

Lemma insert_batch_keeps batch total s rows :
  Forall admissible batch -> settled s rows -> Q rows ->
  exists rows',
    settled (snd (insert_batch accepts clock batch total s)) rows' /\ Q rows'.
Proof.
  intros HF [Hc Hw] Qr. unfold insert_batch.
  destruct (executemany_keeps batch s rows HF Hc) as (s' & -> & Hc' & _ & w' & Hw' & Qw');
    [eauto|].
  destruct (forallb accepts batch).
  - exists w'. split; [split; cbn; assumption | assumption].
  - eapply insert_one_by_one_keeps; [assumption | split; cbn; eassumption | assumption].
Qed.

Lemma insert_batches_keeps processed batch_size : forall starts total s rows,
  Forall admissible processed -> settled s rows -> Q rows ->
  exists rows',
    settled (snd (insert_batches accepts clock processed batch_size starts total s)) rows'
    /\ Q rows'.
Proof.
  induction starts as [|i starts IH]; intros total s rows HF Hs Qr;
    cbn [insert_batches].
  - exists rows. now split.
  - assert (Forall admissible (slice_from processed i batch_size)) as HFs.
    { unfold slice_from. apply Forall_forall. intros x Hx.
      rewrite Forall_forall in HF. apply HF.
      rewrite <- (firstn_skipn i processed). apply in_or_app. right.
      rewrite <- (firstn_skipn (Z.to_nat batch_size) (skipn i processed)).
      apply in_or_app. now left. }
    destruct (insert_batch_keeps _ total s rows HFs Hs Qr) as (rows1 & Hs1 & Q1).
    destruct (insert_batch accepts clock _ total s) as [total' s']. cbn [snd] in Hs1.
    now apply (IH total' s' rows1).
Qed.

End Env.


Section Data.

Variable accepts : paper_tuple -> bool.
Variable clock : nat -> Z.

Lemma data_upserts_app a b ds :
  data_upserts (a ++ b) ds = data_upserts b (data_upserts a ds).
Proof. apply fold_left_app. Qed.

Lemma all_accepted batch :
  forallb accepts batch = true -> accepted_rows accepts batch = batch.
Proof.
  unfold accepted_rows. induction batch as [|t batch IH]; [reflexivity|].
  cbn [forallb filter]. intros H. apply andb_true_iff in H as [-> H].
  now rewrite IH.
Qed.

Lemma executemany_data : forall batch s w,
  working s = Some w -> forallb accepts batch = true ->
  exists s' w',
    executemany accepts clock batch s = (Ok tt, s') /\
    committed s' = committed s /\ working s' = Some w' /\
    map r_data w' = data_upserts batch (map r_data w).
Proof.
  induction batch as [|t batch IH]; intros s w Hw F; cbn [executemany forallb] in *.
  - exists s, w. auto.
  - apply andb_true_iff in F as [Ft F]. unfold execute_upsert. rewrite Hw, Ft.
    destruct (IH (mkStore (committed s) (Some (upsert (clock (txn s)) t w)) (txn s))
                (upsert (clock (txn s)) t w) eq_refl F) as (s' & w' & E & Hc & Hw' & Hd).
    exists s', w'. rewrite E. repeat split; try assumption.
    rewrite Hd, upsert_data. reflexivity.
Qed.

Lemma insert_one_by_one_data : forall batch total s rows,
  settled s rows ->
  exists rows',
    settled (snd (insert_one_by_one accepts clock batch total s)) rows' /\
    map r_data rows' = data_upserts (accepted_rows accepts batch) (map r_data rows).
Proof.
  unfold accepted_rows.
  induction batch as [|t batch IH]; intros total s rows [Hc Hw];
    cbn [insert_one_by_one filter].
  - exists rows. now split.
  - unfold execute_upsert. rewrite Hw. destruct (accepts t).
    + destruct (IH (total + 1)%nat
                  (commit (mkStore (committed s) (Some (upsert (clock (txn s)) t rows))
                             (txn s)))
                  (upsert (clock (txn s)) t rows)) as (rows' & Hs' & Hd);
        [split; reflexivity|].
      exists rows'. split; [assumption|]. rewrite Hd, upsert_data. reflexivity.
    + apply IH. split; cbn; assumption.
Qed.

Lemma insert_batch_data batch total s rows :
  settled s rows ->
  exists rows',
    settled (snd (insert_batch accepts clock batch total s)) rows' /\
    map r_data rows' = data_upserts (accepted_rows accepts batch) (map r_data rows).
Proof.
  intros [Hc Hw]. unfold insert_batch.
  destruct (forallb accepts batch) eqn:F.
  - destruct (executemany_data batch s rows Hw F) as (s' & w' & -> & Hc' & Hw' & Hd).
    exists w'. split; [split; cbn; assumption|]. now rewrite all_accepted.
  - assert (table_ready s = true) as R by (unfold table_ready; now rewrite Hc, Hw).
    destruct (StoreFacts.executemany_ready accepts clock batch s R)
      as (s' & -> & _ & Hc' & _).
    rewrite F. apply insert_one_by_one_data. split; cbn; congruence.
Qed.

Lemma insert_batches_data processed batch_size : forall starts total s rows,
  settled s rows ->
  exists rows',
    settled (snd (insert_batches accepts clock processed batch_size starts total s)) rows'
    /\ map r_data rows' =
       data_upserts
         (accepted_rows accepts
            (concat (map (fun i => slice_from processed i batch_size) starts)))
         (map r_data rows).
Proof.
  induction starts as [|i starts IH]; intros total s rows Hs;
    cbn [insert_batches map concat].
  - exists rows. now split.
  - destruct (insert_batch_data (slice_from processed i batch_size) total s rows Hs)
      as (rows1 & Hs1 & Hd1).
    destruct (insert_batch accepts clock _ total s) as [total' s']. cbn [snd] in Hs1.
    destruct (IH total' s' rows1 Hs1) as (rows' & Hs' & Hd').
    exists rows'. split; [assumption|].
    unfold accepted_rows in *. now rewrite filter_app, data_upserts_app, <- Hd1.
Qed.

End Data.

(** ** What an upsert keeps *)

Lemma find_row_upsert_same now t : forall rows k r,
  find_row k rows = Some r ->
  exists r', find_row k (upsert now t rows) = Some r' /\ created_at r' = created_at r.
Proof.
  unfold find_row.
  induction rows as [|x rows IH]; intros k r H; cbn [find upsert] in *; [discriminate|].
  destruct (String.eqb_spec (r_key x) (openalex_id t)) as [E|E]; cbn [find].
  - rewrite StoreFacts.updated_row_key.
    destruct (r_key x =? k); [|eauto].
    injection H as <-. eauto.
  - destruct (r_key x =? k); [eauto|]. now apply IH.
Qed.

Lemma keeps_rows_refl rows : keeps_rows rows rows.
Proof. intros k r H. eauto. Qed.

Lemma keeps_rows_upsert rows0 now t rows :
  keeps_rows rows0 rows -> keeps_rows rows0 (upsert now t rows).
Proof.
  intros H k r Hk. destruct (H k r Hk) as (r1 & H1 & C1).
  destruct (find_row_upsert_same now t rows k r1 H1) as (r2 & H2 & C2).
  exists r2. split; [assumption | congruence].
Qed.

(** ** Identifiers stay unique and non-empty *)

Lemma upsert_keeps_keys_nonempty now t rows :
  openalex_id t <> "" ->
  Forall (fun r => r_key r <> "") rows ->
  Forall (fun r => r_key r <> "") (upsert now t rows).
Proof.
  intros Ht. induction rows as [|r rows IH]; intros HF; cbn [upsert].
  - now repeat constructor.
  - inversion HF as [|? ? Hr HF']; subst.
    destruct (r_key r =? openalex_id t); constructor; auto.
Qed.

Lemma unique_keys_no_duplicated_group (keys : list string) :
  NoDup keys -> duplicated_groups keys = 0%nat.
Proof.
  intros ND. unfold duplicated_groups.
  assert (forall l, filter (fun k => (1 <? count_occ string_dec keys k)%nat) l = [])
    as ->; [|reflexivity].
  induction l as [|k l IH]; [reflexivity|]. cbn [filter].
  pose proof (proj1 (NoDup_count_occ string_dec keys) ND k) as Hk.
  destruct (Nat.ltb_spec 1 (count_occ string_dec keys k)); [lia | exact IH].
Qed.

Lemma no_empty_key_counts_nothing (rows : list row) :
  Forall (fun r => r_key r <> "") rows ->
  violations MissingOpenalexId rows = 0%Z.
Proof.
  intros HF. unfold violations, count_where.
  assert (filter (fun r => r_key r =? "") rows = []) as ->; [|reflexivity].
  induction HF as [|r rows Hr HF IH]; [reflexivity|]. cbn [filter].
  destruct (String.eqb_spec (r_key r) ""); [contradiction | exact IH].
Qed.

(** ** The last write wins *)

Lemma find_data_upsert t k : forall ds,
  find (has_key k) (data_upsert t ds)
  = if has_key k t then Some t else find (has_key k) ds.
Proof.
  unfold has_key.
  induction ds as [|d ds IH]; cbn [data_upsert find]; [reflexivity|].
  destruct (String.eqb_spec (openalex_id d) (openalex_id t)) as [E|E]; cbn [find].
  - rewrite E. now destruct (openalex_id t =? k).
  - rewrite IH. destruct (String.eqb_spec (openalex_id d) k) as [Ed|Ed];
      [|reflexivity].
    destruct (String.eqb_spec (openalex_id t) k); [congruence | reflexivity].
Qed.

Lemma find_last {A} (p : A -> bool) (l : list A) (x : A) :
  find p (l ++ [x]) = match find p l with Some y => Some y | None => find p [x] end.
Proof.
  induction l as [|y l IH]; [reflexivity|]. cbn [app find].
  destruct (p y); [reflexivity | exact IH].
Qed.

Lemma find_data_upserts k : forall ts ds,
  find (has_key k) (data_upserts ts ds)
  = match find (has_key k) (rev ts) with
    | Some t => Some t
    | None => find (has_key k) ds
    end.
Proof.
  unfold data_upserts.
  induction ts as [|t ts IH]; intros ds; cbn [fold_left rev]; [reflexivity|].
  rewrite IH, find_last, find_data_upsert. cbn [find].
  destruct (find (has_key k) (rev ts)); [reflexivity|].
  now destruct (has_key k t).
Qed.

Lemma find_row_data k rows :
  option_map r_data (find_row k rows) = find (has_key k) (map r_data rows).
Proof.
  unfold find_row, has_key, r_key.
  induction rows as [|r rows IH]; [reflexivity|]. cbn [find map].
  destruct (openalex_id (r_data r) =? k); [reflexivity | exact IH].
Qed.

End UpserterMore.

Module ValidatorMore.

Section Env.

Variable up : nat -> bool.

(** A cursor whose statement only reads leaves the tables as they were. *)
Lemma get_cursor_reads {A} why (body : store -> result A * store) w :
  (forall s, committed (snd (body s)) = committed s /\
             working (snd (body s)) = working s) ->
  quiescent (w_store w) ->
  committed (w_store (snd (get_cursor up why body w))) = committed (w_store w) /\
  working (w_store (snd (get_cursor up why body w))) = working (w_store w).
Proof.
  intros Hb Hq. unfold get_cursor, get_connection.
  destruct (up (length (w_acquired w))); [|now split].
  cbn [w_store]. destruct (Hb (w_store w)) as [Hc Hw].
  destruct (body (w_store w)) as [[a|e] s']; cbn [snd w_store commit rollback committed
                                                    working] in *.
  - unfold quiescent in Hq. split; congruence.
  - unfold quiescent in Hq. split; congruence.
Qed.

Lemma select_check_reads c s :
  committed (snd (select_check c s)) = committed s /\
  working (snd (select_check c s)) = working s.
Proof. unfold select_check. destruct (working s) eqn:E; cbn; auto. Qed.

Lemma select_table_exists_reads s :
  committed (snd (select_table_exists s)) = committed s /\
  working (snd (select_table_exists s)) = working s.
Proof. now split. Qed.

Lemma select_count_all_reads s :
  committed (snd (select_count_all s)) = committed s /\
  working (snd (select_count_all s)) = working s.
Proof. unfold select_count_all. destruct (working s) eqn:E; cbn; auto. Qed.

Lemma check_table_reads s :
  committed (snd (StandaloneValidator.check_table s)) = committed s /\
  working (snd (StandaloneValidator.check_table s)) = working s.
Proof.
  unfold StandaloneValidator.check_table, select_table_exists, select_count_all.
  destruct (working s) eqn:E; cbn; auto.
Qed.

(** The stand-alone [run_test] is the pipeline's, followed by the
    pipeline's bookkeeping for a test that is not the DOI test. *)
Lemma standalone_run_test c e t w :
  StandaloneValidator.run_test up c e t w
  = (PipelineValidator.record_test (fst (PipelineValidator.run_test up c e w)) t,
     snd (PipelineValidator.run_test up c e w)).
Proof.
  unfold StandaloneValidator.run_test, PipelineValidator.run_test,
    PipelineValidator.record_test.
  destruct (get_cursor up (PCheck c) (select_check c) w) as [[n|] w']; cbn [fst snd].
  - now destruct (test_passes e n).
  - reflexivity.
Qed.

Lemma run_test_reads c e w :
  quiescent (w_store w) ->
  committed (w_store (snd (PipelineValidator.run_test up c e w))) = committed (w_store w) /\
  working (w_store (snd (PipelineValidator.run_test up c e w))) = working (w_store w).
Proof.
  intros Hq. unfold PipelineValidator.run_test.
  pose proof (get_cursor_reads (PCheck c) (select_check c) w (select_check_reads c) Hq)
    as H.
  now destruct (get_cursor up (PCheck c) (select_check c) w) as [[n|] w'].
Qed.

Hypothesis reachable : forall n, up n = true.

Lemma run_test_settled c w rows :
  settled (w_store w) rows ->
  fst (PipelineValidator.run_test up c true w) = expected_test rows c.
Proof.
  intros [Hc Hw]. unfold PipelineValidator.run_test, get_cursor, get_connection.
  rewrite reachable. cbn [w_store]. unfold select_check. rewrite Hw. reflexivity.
Qed.

End Env.

Lemma quiescent_same s s' :
  quiescent s -> committed s' = committed s -> working s' = working s -> quiescent s'.
Proof. unfold quiescent. congruence. Qed.

Lemma settled_same s s' rows :
  settled s rows -> committed s' = committed s -> working s' = working s ->
  settled s' rows.
Proof. unfold settled. intros [? ?] ? ?. split; congruence. Qed.

Lemma settled_quiescent s rows : settled s rows -> quiescent s.
Proof. unfold settled, quiescent. intros [? ?]. congruence. Qed.

Section Reachable.

Variable up : nat -> bool.
Hypothesis reachable : forall n, up n = true.
Variable rows : list row.

Lemma cursor_settled {A} why (body : store -> result A * store) w :
  (forall s, committed (snd (body s)) = committed s /\
             working (snd (body s)) = working s) ->
  settled (w_store w) rows ->
  get_cursor up why body w
    = (fst (body (w_store w)), snd (get_cursor up why body w)) /\
  settled (w_store (snd (get_cursor up why body w))) rows.
Proof.
  intros Hb Hs. split.
  - unfold get_cursor, get_connection. rewrite reachable. cbn [w_store].
    now destruct (body (w_store w)) as [[a|e] s'].
  - destruct (get_cursor_reads up why body w Hb (settled_quiescent _ _ Hs)) as [Hc Hw].
    now apply (settled_same (w_store w)).
Qed.

Lemma pipeline_step c w :
  settled (w_store w) rows ->
  exists w',
    PipelineValidator.run_test up c true w = (expected_test rows c, w') /\
    settled (w_store w') rows.
Proof.
  intros Hs. exists (snd (PipelineValidator.run_test up c true w)). split.
  - rewrite <- (run_test_settled up reachable c w rows Hs).
    now destruct (PipelineValidator.run_test up c true w).
  - destruct (run_test_reads up c true w (settled_quiescent _ _ Hs)) as [Hc Hw].
    now apply (settled_same (w_store w)).
Qed.

Lemma standalone_step c t w :
  settled (w_store w) rows ->
  exists w',
    StandaloneValidator.run_test up c true t w
      = (PipelineValidator.record_test (expected_test rows c) t, w') /\
    settled (w_store w') rows.
Proof.
  intros Hs. destruct (pipeline_step c w Hs) as (w' & E & Hs').
  exists w'. split; [|assumption]. now rewrite standalone_run_test, E.
Qed.

Lemma pipeline_steps : forall tests t w,
  settled (w_store w) rows ->
  exists w',
    PipelineValidator.run_tests up tests t w
      = (fold_left (fun acc c => PipelineValidator.record_test (expected_test rows c) acc)
           tests t, w') /\
    settled (w_store w') rows.
Proof.
  induction tests as [|c tests IH]; intros t w Hs; cbn [PipelineValidator.run_tests fold_left].
  - eauto.
  - destruct (pipeline_step c w Hs) as (w1 & -> & Hs1). now apply IH.
Qed.

Lemma failed_after_record c t :
  failed_tests (PipelineValidator.record_test (expected_test rows c) t)
  = (failed_tests t + if clean rows c then 0 else 1)%nat.
Proof.
  unfold PipelineValidator.record_test, expected_test. cbn [passed].
  destruct (clean rows c); cbn [failed_tests]; lia.
Qed.

Lemma failed_after_records : forall tests t,
  failed_tests
    (fold_left (fun acc c => PipelineValidator.record_test (expected_test rows c) acc)
       tests t)
  = (failed_tests t + length (filter (fun c => negb (clean rows c)) tests))%nat.
Proof.
  induction tests as [|c tests IH]; intros t; cbn [fold_left filter].
  - cbn. lia.
  - rewrite IH, failed_after_record. destruct (clean rows c); cbn [negb length]; lia.
Qed.

Lemma none_unclean (tests : list check) :
  (length (filter (fun c => negb (clean rows c)) tests) =? 0)%nat
  = forallb (clean rows) tests.
Proof.
  induction tests as [|c tests IH]; [reflexivity|]. cbn [filter forallb].
  destruct (clean rows c); cbn [negb andb length]; [exact IH | reflexivity].
Qed.

Lemma pipeline_validator_settled w :
  settled (w_store w) rows ->
  fst (PipelineValidator.run_data_quality_tests up w)
    = Ok (if forallb (clean rows) hard_checks then 0%Z else 1%Z) /\
  settled (w_store (snd (PipelineValidator.run_data_quality_tests up w))) rows.
Proof.
  intros Hs. unfold PipelineValidator.run_data_quality_tests,
    PipelineValidator.table_exists.
  destruct (cursor_settled PTableExists select_table_exists w
              select_table_exists_reads Hs) as [E1 Hs1].
  rewrite E1. cbn [fst select_table_exists]. destruct Hs as [Hc Hw]. rewrite Hw.
  set (w1 := snd (get_cursor up PTableExists select_table_exists w)) in *.
  destruct (cursor_settled PCountAll select_count_all w1
              select_count_all_reads Hs1) as [E2 Hs2].
  rewrite E2.
  set (w2 := snd (get_cursor up PCountAll select_count_all w1)) in *.
  unfold select_count_all. destruct Hs1 as [Hc1 Hw1]. rewrite Hw1.
  cbn [fst].
  unfold PipelineValidator.run_all_checks.
  repeat match goal with
         | H : settled (w_store ?w0) rows
           |- context [PipelineValidator.run_tests up ?tests ?t ?w0] =>
             let w' := fresh "w" in
             let E := fresh "E" in
             let Hs' := fresh "Hs" in
             destruct (pipeline_steps tests t w0 H) as (w' & E & Hs');
             rewrite E; clear E
         end.
  match goal with
  | H : settled (w_store ?w0) rows
    |- context [PipelineValidator.run_test up DuplicateDoi true ?w0] =>
      destruct (pipeline_step DuplicateDoi w0 H) as (w7 & -> & Hs7)
  end.
  cbn [fst snd]. split; [|assumption].
  unfold PipelineValidator.record_informational. cbn [failed_tests].
  rewrite !failed_after_records. cbn [empty_tally failed_tests plus].
  rewrite <- !length_app, <- !filter_app, none_unclean.
  reflexivity.
Qed.

End Reachable.

(** ** The validators only read *)

Section Reads.

Variable up : nat -> bool.

Lemma same_tables_refl w : same_tables w w.
Proof. now split. Qed.

Lemma same_tables_trans w1 w2 w3 :
  same_tables w1 w2 -> same_tables w2 w3 -> same_tables w1 w3.
Proof. unfold same_tables. intros [? ?] [? ?]. split; congruence. Qed.

Lemma same_tables_quiescent w w' :
  quiescent (w_store w) -> same_tables w w' -> quiescent (w_store w').
Proof. unfold quiescent, same_tables. intros ? [? ?]. congruence. Qed.

Lemma run_tests_reads : forall tests t w,
  quiescent (w_store w) ->
  same_tables w (snd (PipelineValidator.run_tests up tests t w)).
Proof.
  induction tests as [|c tests IH]; intros t w Hq; cbn [PipelineValidator.run_tests].
  - apply same_tables_refl.
  - pose proof (run_test_reads up c true w Hq) as H1.
    destruct (PipelineValidator.run_test up c true w) as [test w1]. cbn [snd] in H1.
    eapply same_tables_trans; [exact H1|].
    apply IH. now apply (same_tables_quiescent w).
Qed.

Lemma run_all_checks_reads w :
  quiescent (w_store w) ->
  same_tables w (snd (PipelineValidator.run_all_checks up w)).
Proof.
  intros Hq. unfold PipelineValidator.run_all_checks.
  repeat match goal with
         | |- context [PipelineValidator.run_tests up ?tests ?t ?w0] =>
             let H := fresh "H" in
             pose proof (run_tests_reads tests t w0) as H;
             destruct (PipelineValidator.run_tests up tests t w0)
         end.
  match goal with
  | |- context [PipelineValidator.run_test up DuplicateDoi true ?w0] =>
      pose proof (run_test_reads up DuplicateDoi true w0) as H3;
      destruct (PipelineValidator.run_test up DuplicateDoi true w0)
  end.
  cbn [snd] in *.
  specialize (H Hq).
  specialize (H0 (same_tables_quiescent _ _ Hq H)).
  pose proof (same_tables_trans _ _ _ H H0) as T1.
  specialize (H1 (same_tables_quiescent _ _ Hq T1)).
  pose proof (same_tables_trans _ _ _ T1 H1) as T2.
  specialize (H2 (same_tables_quiescent _ _ Hq T2)).
  pose proof (same_tables_trans _ _ _ T2 H2) as T3.
  specialize (H3 (same_tables_quiescent _ _ Hq T3)).
  exact (same_tables_trans _ _ _ T3 H3).
Qed.

Lemma pipeline_validator_reads w :
  quiescent (w_store w) ->
  same_tables w (snd (PipelineValidator.run_data_quality_tests up w)).
Proof.
  intros Hq. unfold PipelineValidator.run_data_quality_tests,
    PipelineValidator.table_exists.
  pose proof (get_cursor_reads up PTableExists select_table_exists w
                select_table_exists_reads Hq) as H1.
  destruct (get_cursor up PTableExists select_table_exists w) as [[[|]|] w1];
    cbn [snd] in *; try exact H1.
  pose proof (same_tables_quiescent _ _ Hq H1) as Hq1.
  pose proof (get_cursor_reads up PCountAll select_count_all w1
                select_count_all_reads Hq1) as H2.
  destruct (get_cursor up PCountAll select_count_all w1) as [[n|] w2];
    cbn [snd] in *; [|exact (same_tables_trans _ _ _ H1 H2)].
  pose proof (same_tables_trans _ _ _ H1 H2) as T.
  pose proof (run_all_checks_reads w2 (same_tables_quiescent _ _ Hq T)) as H3.
  destruct (PipelineValidator.run_all_checks up w2) as [t5 w7]. cbn [snd] in *.
  exact (same_tables_trans _ _ _ T H3).
Qed.

Lemma standalone_run_test_reads c e t w :
  quiescent (w_store w) ->
  same_tables w (snd (StandaloneValidator.run_test up c e t w)).
Proof.
  intros Hq. rewrite standalone_run_test. cbn [snd]. now apply run_test_reads.
Qed.

Lemma standalone_validator_reads w :
  quiescent (w_store w) ->
  same_tables w (snd (StandaloneValidator.run_all_tests up w)).
Proof.
  intros Hq. unfold StandaloneValidator.run_all_tests.
  pose proof (get_cursor_reads up PTableExists StandaloneValidator.check_table w
                check_table_reads Hq) as H1.
  destruct (get_cursor up PTableExists StandaloneValidator.check_table w)
    as [[[n|]|] w1]; cbn [snd] in *; try exact H1.
  unfold StandaloneValidator.test_missing_required_fields,
    StandaloneValidator.test_citation_count_validation,
    StandaloneValidator.test_score_range_validation,
    StandaloneValidator.test_duplicate_detection.
  change (same_tables w w1) in H1.
  pose proof (same_tables_quiescent _ _ Hq H1) as Hq1.
  repeat match goal with
         | T : same_tables w ?w0, Q : quiescent (w_store ?w0)
           |- context [StandaloneValidator.run_test up ?c true ?t ?w0] =>
             let H := fresh "H" in
             let w' := fresh "w" in
             let t' := fresh "t" in
             pose proof (standalone_run_test_reads c true t w0 Q) as H;
             destruct (StandaloneValidator.run_test up c true t w0) as [t' w'];
             cbn [snd] in H; cbv beta iota;
             pose proof (same_tables_quiescent _ _ Q H);
             pose proof (same_tables_trans _ _ _ T H);
             clear T Q H
         end.
  cbn [snd]. assumption.
Qed.

End Reads.

End ValidatorMore.

Module OrchestratorMore.

Import Orchestrator.

(** Setting up the table on a store with no transaction open: the table is
    there afterwards, with the rows it had, or empty when it was new. *)
Lemma create_table_settles up w w' :
  quiescent (w_store w) ->
  create_table_if_needed up w = (Ok tt, w') ->
  exists rows,
    settled (w_store w') rows /\
    match committed (w_store w) with
    | Some rows0 => rows = rows0 /\ w_acquired w' = w_acquired w ++ [PTableExists]
    | None =>
        rows = [] /\
        w_acquired w'
        = w_acquired w ++ [PTableExists; PExtension; PCreateTable; PIndexes; PComments]
    end.
Proof.
  destruct w as [[c wk n] acq]. unfold quiescent. cbn [w_store committed working].
  intros <-.
  unfold create_table_if_needed, PipelineValidator.table_exists, ddl_step, get_cursor,
    get_connection.
  cbn [w_store w_acquired select_table_exists working].
  destruct (up (length acq)); [|discriminate].
  destruct c as [rows0|]; cbn [commit working committed].
  - cbn. intros H. apply (f_equal snd) in H. cbn [snd] in H. subst w'.
    exists rows0. cbn. repeat split; reflexivity.
  - cbn [w_store w_acquired create_extension create_table alter_table working commit].
    repeat (match goal with
            | |- context [up (length ?l)] => destruct (up (length l))
            end; cbn; [|discriminate]).
    intros H. apply (f_equal snd) in H. cbn [snd] in H. subst w'.
    exists []. cbn. repeat split; try reflexivity. now rewrite <- !app_assoc.
Qed.

Lemma create_table_reachable up w :
  (forall n, up n = true) -> quiescent (w_store w) ->
  exists w1,
    create_table_if_needed up w = (Ok tt, w1) /\ settled (w_store w1) (rows_of (w_store w)).
Proof.
  intros Hup Hq.
  assert (exists w1, create_table_if_needed up w = (Ok tt, w1)) as [w1 H].
  { destruct w as [[c wk n] acq]. unfold quiescent in Hq. cbn in Hq. subst wk.
    unfold create_table_if_needed, PipelineValidator.table_exists, ddl_step, get_cursor,
      get_connection.
    cbn [w_store w_acquired select_table_exists working]. rewrite Hup.
    destruct c as [rows0|]; cbn; [eexists; reflexivity|].
    repeat (match goal with
            | |- context [up (length ?l)] => rewrite (Hup (length l))
            end; cbn).
    eexists; reflexivity. }
  exists w1. split; [assumption|].
  destruct (create_table_settles up w w1 Hq H) as (rows & Hs & Hr).
  unfold rows_of. destruct (committed (w_store w)); destruct Hr as [-> _]; assumption.
Qed.

End OrchestratorMore.

(* ===================================================================== *)
(** * Facts about the fetcher *)
(* ===================================================================== *)

Module FetchFacts.

Import Fetch.

Lemma Qeq_bool_sym (x y : Q) : Qeq_bool x y = Qeq_bool y x.
Proof.
  destruct (Qeq_bool x y) eqn:E1, (Qeq_bool y x) eqn:E2; try reflexivity.
  - apply Qeq_bool_iff in E1. symmetry in E1. apply Qeq_bool_iff in E1. congruence.
  - apply Qeq_bool_iff in E2. symmetry in E2. apply Qeq_bool_iff in E2. congruence.
Qed.

(** [==] does not depend on the side a value stands on. *)
Lemma py_eq_sym (a b : json) : py_eq a b = py_eq b a.
Proof.
  destruct a, b; cbn; try reflexivity; try apply Qeq_bool_sym.
  apply String.eqb_sym.
Qed.

Lemma distinct_ids_snoc works w :
  distinct_ids (works ++ [w])
  = distinct_ids works && negb (member (work_id w) (map work_id works)).
Proof.
  induction works as [|w0 works IH]; [reflexivity|].
  cbn [app distinct_ids map member existsb]. rewrite IH, existsb_app. cbn [existsb].
  rewrite orb_false_r, (py_eq_sym (work_id w) (work_id w0)). unfold member.
  destruct (existsb _ works), (py_eq _ _), (distinct_ids works),
    (existsb (py_eq (work_id w)) _); reflexivity.
Qed.

Lemma inv_empty : inv (mkState [] []).
Proof. repeat split. Qed.

(** One work: the state is left alone, or the work is appended. *)
Lemma add_work_cases st work st' :
  add_work st work = Done st' ->
  fetchable work = true /\
  (truthy (work_id work) = true -> member (work_id work) (seen_ids st') = true) /\
  (st' = st \/
   (st' = mkState (seen_ids st ++ [work_id work]) (all_works st ++ [work]) /\
    identified work = true /\ member (work_id work) (seen_ids st) = false)).
Proof.
  unfold add_work, fetchable, identified. destruct work; try discriminate.
  cbn [dict_get work_id is_record andb]. unfold item_or.
  set (v := match assoc "id" kvs with Some v => v | None => JNull end).
  destruct (truthy v) eqn:T; cbn [negb orb].
  - destruct (hashable v) eqn:Hh; [|discriminate].
    destruct (member v (seen_ids st)) eqn:M; cbn [negb]; intros [= <-].
    + repeat split; auto.
    + repeat split.
      * intros _. cbn [seen_ids]. unfold member. rewrite existsb_app. cbn.
        assert (py_eq v v = true) as ->; [|now rewrite orb_true_r].
        destruct v; try discriminate; cbn.
        -- apply Qeq_bool_iff. reflexivity.
        -- apply Qeq_bool_iff. reflexivity.
        -- apply Qeq_bool_iff. reflexivity.
        -- apply String.eqb_refl.
      * right. repeat split.
  - intros [= <-]. repeat split; [discriminate | now left].
Qed.

Lemma member_app x l l' : member x l = true -> member x (l ++ l') = true.
Proof. unfold member. rewrite existsb_app. now intros ->. Qed.

(** A page: the identifiers stay distinct, what is appended comes from the
    page, and every identifier of the page is then among the seen ones. *)
Lemma add_works_spec works : forall st st',
  add_works works st = Done st' ->
  inv st ->
  inv st' /\
  forallb fetchable works = true /\
  (exists extra,
     all_works st' = all_works st ++ extra /\ incl extra works) /\
  (forall w, In w works -> truthy (work_id w) = true ->
             member (work_id w) (seen_ids st') = true).
Proof.
  induction works as [|work works IH]; intros st st' H I.
  - injection H as <-. repeat split; try apply I.
    + exists []. split; [now rewrite app_nil_r | easy].
    + intros w [].
  - cbn [add_works] in H. destruct (add_work st work) as [st1|] eqn:E; [|discriminate].
    apply add_work_cases in E as (F & M & C).
    assert (inv st1 /\ exists e1, all_works st1 = all_works st ++ e1 /\ incl e1 [work])
      as [I1 (e1 & A1 & In1)].
    { destruct C as [->|(-> & Id & NM)].
      - split; [assumption|]. exists []. split; [now rewrite app_nil_r | easy].
      - destruct I as (S1 & D1 & G1). split.
        + repeat split; cbn [seen_ids all_works].
          * now rewrite map_app, S1.
          * rewrite distinct_ids_snoc, D1, <- S1, NM. reflexivity.
          * rewrite forallb_app, G1. cbn. now rewrite Id.
        + exists [work]. split; [reflexivity | apply incl_refl]. }
    destruct (IH st1 st' H I1) as (I' & F' & (e2 & A2 & In2) & M').
    split; [assumption|]. split; [cbn; now rewrite F, F'|]. split.
    + exists (e1 ++ e2). split; [now rewrite A2, A1, app_assoc|].
      intros x Hx. apply in_app_or in Hx as [Hx|Hx].
      * apply In1 in Hx as [<-|[]]. now left.
      * right. now apply In2.
    + intros w [<-|Hw] T; [|now apply M'].
      specialize (M T). destruct I' as (S' & _), I1 as (S1 & _).
      rewrite S', A2, map_app, <- S1. now apply member_app.
Qed.

Lemma add_works_app a b st :
  add_works (a ++ b) st
  = match add_works a st with
    | Done st' => add_works b st'
    | Fails e => Fails e
    end.
Proof.
  revert st. induction a as [|w a IH]; intros st; [reflexivity|].
  cbn [app add_works]. destruct (add_work st w); [apply IH | reflexivity].
Qed.

(** Works the loop can look at never make it raise. *)
Lemma add_works_total works : forall st,
  forallb fetchable works = true -> exists st', add_works works st = Done st'.
Proof.
  induction works as [|work works IH]; intros st F; [now exists st|].
  cbn [forallb] in F. apply andb_true_iff in F as [F1 F2]. cbn [add_works].
  assert (exists st1, add_work st work = Done st1) as [st1 ->].
  { unfold add_work, fetchable in *. destruct work; try discriminate.
    cbn [dict_get work_id is_record andb] in *. unfold item_or in F1.
    destruct (truthy _); cbn in F1; [rewrite F1|]; eauto.
    destruct (negb _); eauto. }
  now apply IH.
Qed.

Section Api.

Variable get : query -> nat -> result (list json).

(** The page loop: what it appends was on a page. *)
Lemma fetch_pages_spec fuel q : forall page st st',
  fetch_pages get fuel q page st = Some (Done st') ->
  inv st ->
  inv st' /\ exists extra, all_works st' = all_works st ++ extra /\ Forall (on_a_page get) extra.
Proof.
  induction fuel as [|fuel IH]; intros page st st' H I; [discriminate|].
  cbn [fetch_pages] in H. destruct (get q page) as [works|] eqn:G; [|discriminate].
  destruct (length works =? 0)%nat.
  { injection H as <-. split; [assumption|]. exists []. now rewrite app_nil_r. }
  destruct (add_works works st) as [st1|] eqn:A; [|discriminate].
  destruct (add_works_spec works st st1 A I) as (I1 & _ & (e1 & A1 & In1) & _).
  assert (Forall (on_a_page get) e1) as P1.
  { apply Forall_forall. intros w Hw. exists q, page, works. split; [assumption|].
    now apply In1. }
  destruct (length works <? per_page)%nat.
  - injection H as <-. split; [assumption|]. now exists e1.
  - destruct (IH (S page) st1 st' H I1) as (I' & e2 & A2 & P2).
    split; [assumption|]. exists (e1 ++ e2). split.
    + now rewrite A2, A1, app_assoc.
    + apply Forall_app. now split.
Qed.

Lemma fetch_filter_spec fuel q st st' :
  fetch_filter get fuel q st = Some (Done st') ->
  inv st ->
  inv st' /\ exists extra, all_works st' = all_works st ++ extra /\ Forall (on_a_page get) extra.
Proof.
  unfold fetch_filter. destruct (truthy _); [apply fetch_pages_spec|].
  intros [= <-] I. split; [assumption|]. exists []. now rewrite app_nil_r.
Qed.

(** What the function returns was on a page, is identified, and holds no
    identifier twice. *)
Lemma fetch_spec fuel field_id subfield_id works :
  fetch_recent_works get fuel field_id subfield_id = Some (Done works) ->
  distinct_ids works = true /\ forallb identified works = true /\
  Forall (on_a_page get) works.
Proof.
  unfold fetch_recent_works.
  destruct (fetch_filter get fuel (ByField field_id) _) as [[st1|]|] eqn:E1;
    try discriminate.
  destruct (fetch_filter get fuel (BySubfield subfield_id) st1) as [[st2|]|] eqn:E2;
    try discriminate.
  intros [= <-].
  destruct (fetch_filter_spec _ _ _ _ E1 inv_empty) as (I1 & e1 & A1 & P1).
  destruct (fetch_filter_spec _ _ _ _ E2 I1) as ((_ & D & G) & e2 & A2 & P2).
  repeat split; try assumption. rewrite A2, A1. cbn [all_works app].
  apply Forall_app. now split.
Qed.

(** The page loop in closed form: the pages up to the first short one, and
    no more fuel than there are pages. *)
Lemma fetch_pages_served q : forall pages fuel page st,
  served get q page pages ->
  (length pages <= fuel)%nat ->
  fetch_pages get fuel q page st = Some (add_works (concat pages) st).
Proof.
  induction pages as [|works rest IH]; intros fuel page st S L; [destruct S|].
  destruct fuel as [|fuel]; [cbn in L; lia|]. cbn [length] in L.
  cbn [served] in S. destruct S as [G S]. cbn [fetch_pages concat]. rewrite G.
  rewrite add_works_app. destruct rest as [|works' rest'].
  - cbn [concat add_works]. destruct works as [|w works]; [reflexivity|].
    cbn [length Nat.eqb]. destruct (add_works (w :: works) st); [|reflexivity].
    apply Nat.ltb_lt in S. cbn [length] in S. now rewrite S.
  - destruct S as [F S]. unfold per_page in F.
    destruct works as [|w works]; [cbn in F; lia|]. cbn [length Nat.eqb].
    destruct (add_works (w :: works) st) as [st1|]; [|reflexivity].
    assert ((length (w :: works) <? per_page)%nat = false) as E
      by (apply Nat.ltb_ge; exact F).
    cbn [length] in E. rewrite E. apply IH; [assumption | lia].
Qed.

Lemma fetch_filter_answers q pages fuel st :
  answers get q pages ->
  (length pages <= fuel)%nat ->
  fetch_filter get fuel q st = Some (add_works (concat pages) st).
Proof.
  unfold answers, fetch_filter, filter_id. intros A L.
  destruct (truthy match q with ByField i => i | BySubfield i => i end).
  - now apply fetch_pages_served.
  - now subst pages.
Qed.

(** A filter whose every page is full keeps the loop running. *)
Lemma fetch_pages_never_ends q :
  (forall page, exists works,
     get q page = Ok works /\ (per_page <= length works)%nat /\
     forallb fetchable works = true) ->
  forall fuel page st, fetch_pages get fuel q page st = None.
Proof.
  intros H. induction fuel as [|fuel IH]; intros page st; [reflexivity|].
  cbn [fetch_pages]. destruct (H page) as (works & -> & F & T).
  destruct (add_works_total works st T) as [st1 ->].
  assert ((length works <? per_page)%nat = false) as -> by now apply Nat.ltb_ge.
  destruct works as [|w works]; [unfold per_page in F; cbn in F; lia|].
  cbn [length Nat.eqb]. apply IH.
Qed.

End Api.

End FetchFacts.

(* ===================================================================== *)
(** * Facts about the loader *)
(* ===================================================================== *)

Module SnapshotFacts.

Import Snapshot Orchestrator.

(** An element that is not a mapping stops the first loop. *)
Lemma normalize_loop_raises papers : forall acc,
  forallb is_record papers = false ->
  normalize_loop papers acc = Raise AttributeError.
Proof.
  induction papers as [|p papers IH]; intros acc H; [discriminate|].
  cbn [forallb] in H. cbn [normalize_loop]. destruct (is_record p) eqn:R.
  - pose proof (NormalizerFacts.normalize_step_total acc p R) as T.
    destruct (normalize_step acc p) as [acc'|]; [|discriminate]. cbn [rbind].
    now apply IH.
  - destruct acc as [ps sk]. destruct p; try discriminate; reflexivity.
Qed.

Lemma normalize_all_ok_iff papers :
  is_ok (normalize_all papers) = forallb is_record papers.
Proof.
  destruct (forallb is_record papers) eqn:F.
  - apply NormalizerFacts.normalize_loop_total. apply Forall_forall.
    now apply forallb_forall.
  - unfold normalize_all. now rewrite normalize_loop_raises.
Qed.

Lemma create_indexes_keeps n : forall s, create_indexes n s = (Ok tt, s).
Proof.
  induction n as [|n IH]; intros s; [reflexivity|]. cbn [create_indexes].
  rewrite IH. unfold alter_table. now destruct (working s).
Qed.

(** The loader sets the table up as the pipeline does. *)
Lemma creates_like_the_pipeline up w :
  create_papers_table_if_needed up w = create_table_if_needed up w.
Proof.
  unfold create_papers_table_if_needed, create_table_if_needed.
  destruct (PipelineValidator.table_exists up w) as [[[|]|] w1]; try reflexivity.
  unfold ddl_step.
  destruct (get_cursor up PExtension create_extension w1) as [[|] w2]; [|reflexivity].
  destruct (get_cursor up PCreateTable create_table w2) as [[|] w3] eqn:E;
    [|reflexivity].
  assert (working (w_store w3) <> None) as T.
  { unfold get_cursor, get_connection in E. destruct (up (length (w_acquired w2)));
      [|discriminate].
    cbn [w_store] in E. unfold create_table in E.
    destruct (working (w_store w2)); [discriminate|].
    apply (f_equal snd) in E. cbn [snd] in E. subst w3. discriminate. }
  unfold get_cursor at 1 3. unfold get_connection.
  destruct (up (length (w_acquired w3))); [|reflexivity]. cbn [w_store].
  rewrite create_indexes_keeps. unfold alter_table at 2.
  now destruct (working (w_store w3)).
Qed.

Lemma load_has_len f papers :
  load_json_file f = Done papers -> has_len papers = true.
Proof.
  unfold load_json_file. destruct f as [| |data]; try discriminate.
  destruct data; try discriminate.
  - cbn. now intros [= <-].
  - destruct (assoc "papers" kvs) as [p|]; [|discriminate].
    destruct (has_len p) eqn:H; [|discriminate]. now intros [= <-].
Qed.

(** What the loader iterates over is empty exactly when the value is
    falsy. *)
Lemma py_iter_truthy papers :
  has_len papers = true ->
  truthy papers = match py_iter papers with [] => false | _ => true end.
Proof.
  destruct papers; try discriminate; intros _; cbn.
  - now destruct s.
  - reflexivity.
  - now destruct kvs.
Qed.

Lemma loadable_iter papers :
  has_len papers = true ->
  loadable papers = forallb is_record (py_iter papers).
Proof.
  destruct papers; try discriminate; intros _; unfold loadable; cbn.
  - now destruct s.
  - now destruct l.
  - now destruct kvs.
Qed.

(** Once the file is loaded, the loader is the pipeline with the tests
    skipped and a batch size of 100. *)
Lemma main_is_run accepts clock up f papers w :
  load_json_file f = Done papers ->
  main accepts clock up (Some f) w
  = run accepts clock up true 100 (Ok (py_iter papers)) w.
Proof.
  intros L. unfold main, run, run_body. rewrite L.
  rewrite (py_iter_truthy papers (load_has_len f papers L)).
  destruct (py_iter papers) as [|p ps]; [reflexivity|]. cbn [negb].
  rewrite creates_like_the_pipeline.
  destruct (create_table_if_needed up w) as [[|] w1]; [|reflexivity].
  unfold upload_papers.
  now destruct (insert_papers_with_deduplication accepts clock up (p :: ps) 100 w1)
    as [[|] w2].
Qed.

End SnapshotFacts.

(* ===================================================================== *)
(** * Facts about the time stamps *)
(* ===================================================================== *)

Module ClockFacts.

Lemma stamped_later now now' rows :
  (now <= now')%Z -> stamped now rows -> stamped now' rows.
Proof.
  intros L H. unfold stamped in *. rewrite Forall_forall in *.
  intros r Hr. destruct (H r Hr). split; lia.
Qed.

Lemma upsert_stamped now t : forall rows,
  stamped now rows -> stamped now (upsert now t rows).
Proof.
  induction rows as [|r rows IH]; intros H; cbn [upsert].
  - constructor; [cbn; lia | constructor].
  - inversion H as [|? ? [H1 H2] H']; subst. destruct (r_key r =? openalex_id t).
    + constructor; [cbn; lia | assumption].
    + constructor; [now split | now apply IH].
Qed.

Section Env.

Variable accepts : paper_tuple -> bool.
Variable clock : nat -> Z.
Hypothesis clock_mono : monotone clock.

Lemma executemany_stamped : forall batch s w,
  working s = Some w -> stamped (clock (txn s)) w ->
  txn (snd (executemany accepts clock batch s)) = txn s /\
  committed (snd (executemany accepts clock batch s)) = committed s /\
  exists w', working (snd (executemany accepts clock batch s)) = Some w' /\
             stamped (clock (txn s)) w'.
Proof.
  induction batch as [|t batch IH]; intros s w Hw Hs; cbn [executemany].
  - repeat split. eauto.
  - unfold execute_upsert. rewrite Hw. destruct (accepts t).
    + destruct (IH (mkStore (committed s) (Some (upsert (clock (txn s)) t w)) (txn s))
                  (upsert (clock (txn s)) t w) eq_refl) as (T & C & w' & W & S');
        [cbn; now apply upsert_stamped|].
      cbn [txn committed] in *.
      destruct (executemany accepts clock batch _) as [r s']. cbn [snd] in *.
      repeat split; eauto.
    + cbn [snd]. repeat split. eauto.
Qed.

Lemma insert_one_by_one_stamped : forall batch total s rows,
  settled s rows -> stamped (clock (txn s)) rows ->
  exists rows',
    settled (snd (insert_one_by_one accepts clock batch total s)) rows' /\
    stamped (clock (txn (snd (insert_one_by_one accepts clock batch total s)))) rows'.
Proof.
  induction batch as [|t batch IH]; intros total s rows [Hc Hw] Hs;
    cbn [insert_one_by_one].
  - exists rows. now split.
  - unfold execute_upsert. rewrite Hw. destruct (accepts t).
    + apply (IH _ _ (upsert (clock (txn s)) t rows)); [split; reflexivity|].
      cbn [commit txn]. apply (stamped_later (clock (txn s))).
      * apply clock_mono. lia.
      * now apply upsert_stamped.
    + apply (IH _ _ rows); [split; cbn; assumption|].
      cbn [rollback txn]. apply (stamped_later (clock (txn s))); [|assumption].
      apply clock_mono. lia.
Qed.

Lemma insert_batch_stamped batch total s rows :
  settled s rows -> stamped (clock (txn s)) rows ->
  exists rows',
    settled (snd (insert_batch accepts clock batch total s)) rows' /\
    stamped (clock (txn (snd (insert_batch accepts clock batch total s)))) rows'.
Proof.
  intros [Hc Hw] Hs. unfold insert_batch.
  destruct (executemany_stamped batch s rows Hw Hs) as (T & C & w' & W & S').
  destruct (executemany accepts clock batch s) as [[|] s']; cbn [snd] in *.
  - exists w'. split; [split; cbn; assumption|]. cbn [commit txn]. rewrite T.
    apply (stamped_later (clock (txn s))); [apply clock_mono; lia | assumption].
  - apply (insert_one_by_one_stamped batch total (rollback s') rows).
    + split; cbn; congruence.
    + cbn [rollback txn]. rewrite T.
      apply (stamped_later (clock (txn s))); [apply clock_mono; lia | assumption].
Qed.

Lemma insert_batches_stamped processed batch_size : forall starts total s rows,
  settled s rows -> stamped (clock (txn s)) rows ->
  exists rows',
    settled (snd (insert_batches accepts clock processed batch_size starts total s)) rows'
    /\ stamped (clock (txn (snd (insert_batches accepts clock processed batch_size
                                   starts total s)))) rows'.
Proof.
  induction starts as [|i starts IH]; intros total s rows Hs St; cbn [insert_batches].
  - exists rows. now split.
  - destruct (insert_batch_stamped (slice_from processed i batch_size) total s rows Hs St)
      as (rows1 & Hs1 & St1).
    destruct (insert_batch accepts clock _ total s) as [total' s']. cbn [snd] in *.
    now apply (IH total' s' rows1).
Qed.

End Env.

End ClockFacts.

(* ===================================================================== *)
(** * Further properties of the code *)
(* ===================================================================== *)

(* ===================================================================== *)
(** * Further properties of the normaliser *)
(* ===================================================================== *)

(** X1. [process_paper] returns a tuple exactly on the well-formed
    mappings, and raises on everything else. *)
Theorem process_paper_returns_iff_well_formed (paper : json) :
  is_ok (process_paper paper)
  = match paper with JObj kvs => well_formed kvs | _ => false end.
Proof.
  destruct paper; try reflexivity. apply NormalizerMore.process_paper_ok_iff.
Qed.

(** X2. In a tuple [process_paper] returns, each of the three counts is
    the record's value when that is truthy, whatever it is, and the integer
    0 when the key is absent or its value is null, zero or otherwise falsy;
    so a count is never null.  The [fwci] is always null. *)
Theorem counts_default_to_zero (kvs : list (string * json)) (t : paper_tuple) :
  process_paper (JObj kvs) = Ok t ->
  cited_by_count t = count_or_zero (assoc "cited_by_count" kvs) /\
  countries_count t = count_or_zero (assoc "countries_distinct_count" kvs) /\
  institutions_count t = count_or_zero (assoc "institutions_distinct_count" kvs) /\
  cited_by_count t <> JNull /\ countries_count t <> JNull /\
  institutions_count t <> JNull /\
  fwci t = JNull.
Proof.
  intros H.
  assert (forall o, count_or_zero o <> JNull) as Hnn.
  { intros [c|]; cbn; [|discriminate].
    destruct (truthy c) eqn:T; [|discriminate]. intros ->. discriminate. }
  destruct (NormalizerMore.process_paper_counts (JObj kvs) t H)
    as (c1 & c2 & c3 & E1 & E2 & E3 & H1 & H2 & H3 & H4).
  cbn [dict_get] in E1, E2, E3. injection E1 as <-. injection E2 as <-.
  injection E3 as <-.
  assert (forall k, (if truthy (match assoc k kvs with Some v => v | None => JInt 0 end)
                     then match assoc k kvs with Some v => v | None => JInt 0 end
                     else JInt 0) = count_or_zero (assoc k kvs)) as Hc.
  { intros k. unfold count_or_zero. now destruct (assoc k kvs). }
  rewrite Hc in H1, H2, H3.
  rewrite H1, H2, H3. repeat split; auto.
Qed.

Lemma counts_default_to_zero_witness :
  exists t,
    process_paper (JObj odd_counts_paper) = Ok t /\
    cited_by_count t = JInt (-5) /\ countries_count t = JInt 0 /\
    institutions_count t = JInt 0.
Proof.
  eexists. split; [reflexivity|].
  destruct (counts_default_to_zero odd_counts_paper _ eq_refl)
    as (H1 & H2 & H3 & _).
  rewrite H1, H2, H3. repeat split.
Defined.

(** X3. [extract_doi] returns [None] for a falsy DOI; a string that does
    not start with [https://doi.org/] as it is, even when that URL stands
    further inside; a string that starts with it, and holds it nowhere
    else, without the prefix; and it raises on a truthy value that is not a
    string. *)
Theorem extract_doi_cases (kvs : list (string * json)) :
  (truthy (item_or "doi" kvs JNull) = false -> extract_doi (JObj kvs) = Ok None) /\
  (forall s,
     item_or "doi" kvs JNull = JStr s -> s <> "" ->
     String.prefix doi_prefix s = false ->
     extract_doi (JObj kvs) = Ok (Some s)) /\
  (forall s,
     item_or "doi" kvs JNull = JStr s ->
     String.prefix doi_prefix s = true ->
     occurs doi_prefix (removeprefix doi_prefix s) = false ->
     extract_doi (JObj kvs) = Ok (Some (removeprefix doi_prefix s))) /\
  (truthy (item_or "doi" kvs JNull) = true ->
   is_string (item_or "doi" kvs JNull) = false ->
   extract_doi (JObj kvs) = Raise AttributeError).
Proof.
  unfold extract_doi, item_or. cbn [dict_get rbind].
  set (v := match assoc "doi" kvs with Some v => v | None => JNull end).
  split; [|split; [|split]].
  - now intros ->.
  - intros s -> Hne Hp. cbn [truthy].
    destruct (String.eqb_spec s ""); [contradiction|]. cbn. now rewrite Hp.
  - intros s -> Hp Ho. cbn [truthy].
    assert (s <> "") as Hne by (intros ->; discriminate).
    destruct (String.eqb_spec s ""); [contradiction|]. cbn [negb]. rewrite Hp.
    do 2 f_equal. unfold removeprefix in *. rewrite Hp in *.
    rewrite NormalizerFacts.replace_at_prefix by (try discriminate; assumption).
    now rewrite NormalizerFacts.replace_absent.
  - intros -> Hs. now destruct v.
Qed.

(** X4. Every tuple the first loop hands to the batch loop is what
    [process_paper] returned for one of the input records, and has a
    non-empty [openalex_id]. *)
Theorem processed_tuples_come_from_records (papers : list json)
    (processed : list paper_tuple) (skipped : nat) :
  normalize_all papers = Ok (processed, skipped) ->
  Forall (fun t => openalex_id t <> "" /\
                   exists paper, In paper papers /\ process_paper paper = Ok t)
    processed.
Proof.
  intros H. pose proof (NormalizerMore.processed_ids_non_empty _ _ _ H) as Hne.
  apply NormalizerFacts.normalize_loop_ok in H. injection H as -> _.
  cbn [fst app] in *. rewrite Forall_forall in *. intros t Hin.
  split; [now apply Hne|].
  apply in_flat_map in Hin as (p & Hp & Ht). exists p. split; [assumption|].
  unfold kept_tuple in Ht. destruct (process_paper p) as [t'|]; [|destruct Ht].
  destruct (openalex_id t' =? ""); [destruct Ht|]. destruct Ht as [<-|[]]. reflexivity.
Qed.

Lemma processed_tuples_come_from_records_witness :
  Forall (fun t => openalex_id t <> "" /\
                   exists paper,
                     In paper [sample_paper 1; JObj []; sample_paper 2] /\
                     process_paper paper = Ok t)
    (flat_map kept_tuple [sample_paper 1; JObj []; sample_paper 2]).
Proof.
  apply (processed_tuples_come_from_records
           [sample_paper 1; JObj []; sample_paper 2] _ 1).
  reflexivity.
Defined.

(* ===================================================================== *)
(** * Further properties of the batch upserter *)
(* ===================================================================== *)

(** What the function does to the store once the records are processed,
    a connection is served and the batch size is positive. *)
Lemma upload_unfolds accepts clock up papers processed skipped batch_size w :
  normalize_all papers = Ok (processed, skipped) ->
  (0 < batch_size)%Z ->
  up (length (w_acquired w)) = true ->
  exists starts,
    py_range0 (length processed) batch_size = Ok starts /\
    concat (map (fun i => slice_from processed i batch_size) starts) = processed /\
    w_store (snd (insert_papers_with_deduplication accepts clock up papers batch_size w))
    = snd (insert_batches accepts clock processed batch_size starts 0 (w_store w)).
Proof.
  intros Hn Hb Hup.
  destruct (py_range0 (length processed) batch_size) as [starts|] eqn:R.
  - exists starts. split; [reflexivity|].
    split; [now apply StoreFacts.chunks_cover|].
    unfold insert_papers_with_deduplication, get_connection. rewrite Hn, Hup, R.
    cbn [w_store w_acquired].
    now destruct (insert_batches accepts clock processed batch_size starts 0 (w_store w)).
  - unfold py_range0 in R. destruct (Z.eqb_spec batch_size 0); [lia|].
    destruct (batch_size <? 0)%Z; discriminate.
Qed.

(** The store is touched by the batch loop alone. *)
Lemma upload_store_cases accepts clock up papers batch_size w :
  w_store (snd (insert_papers_with_deduplication accepts clock up papers batch_size w))
    = w_store w \/
  exists processed skipped starts,
    normalize_all papers = Ok (processed, skipped) /\
    w_store (snd (insert_papers_with_deduplication accepts clock up papers batch_size w))
    = snd (insert_batches accepts clock processed batch_size starts 0 (w_store w)).
Proof.
  unfold insert_papers_with_deduplication, get_connection.
  destruct (normalize_all papers) as [[processed skipped]|]; [|now left].
  destruct (up (length (w_acquired w))); [|now left].
  destruct (py_range0 (length processed) batch_size) as [starts|]; [|now left].
  right. exists processed, skipped, starts. split; [reflexivity|].
  cbn [w_store w_acquired].
  now destruct (insert_batches accepts clock processed batch_size starts 0 (w_store w)).
Qed.

(** X5. With a batch size that is not positive nothing is written: with 0
    the function raises, and with a negative one it returns 0, however
    many records were processed. *)
Theorem nonpositive_batch_size_writes_nothing (accepts : paper_tuple -> bool)
    (clock : nat -> Z) (up : nat -> bool) (papers : list json) (batch_size : Z)
    (w : world) :
  (batch_size <= 0)%Z ->
  w_store (snd (insert_papers_with_deduplication accepts clock up papers batch_size w))
    = w_store w /\
  (batch_size = 0%Z ->
   is_ok (fst (insert_papers_with_deduplication accepts clock up papers batch_size w))
   = false) /\
  (batch_size <> 0%Z ->
   is_ok (normalize_all papers) = true -> up (length (w_acquired w)) = true ->
   fst (insert_papers_with_deduplication accepts clock up papers batch_size w)
   = Ok 0%nat).
Proof.
  intros Hb. unfold insert_papers_with_deduplication, get_connection, py_range0.
  destruct (normalize_all papers) as [[processed skipped]|];
    [|repeat split; intros; try reflexivity; discriminate].
  destruct (up (length (w_acquired w)));
    [|repeat split; intros; try reflexivity; discriminate].
  destruct (Z.eqb_spec batch_size 0) as [E|E].
  - repeat split; intros; try reflexivity; contradiction.
  - destruct (Z.ltb_spec batch_size 0); [|lia].
    repeat split; intros; reflexivity || contradiction.
Qed.

Lemma nonpositive_batch_size_writes_nothing_witness :
  insert_papers_with_deduplication (fun _ => true) Z.of_nat (fun _ => true)
    [sample_paper 1; sample_paper 2] (-100) (world_with [])
  = (Ok 0%nat, mkWorld (mkStore (Some []) (Some []) 0) [PUpload]).
Proof.
  pose proof (nonpositive_batch_size_writes_nothing (fun _ => true) Z.of_nat
                (fun _ => true) [sample_paper 1; sample_paper 2] (-100)
                (world_with [])) as H.
  destruct H as (Hs & _ & Hr); [lia|].
  specialize (Hr ltac:(discriminate) eq_refl eq_refl).
  destruct (insert_papers_with_deduplication _ _ _ _ _ _) as [r w'] eqn:E.
  cbn [fst snd] in Hs, Hr. subst r. f_equal.
  vm_compute in E. now injection E as <-.
Defined.




(** X7. With a positive batch size, a connection served and the table in
    place, the function returns the number of processed tuples the store
    takes and leaves no transaction open; the data of the table are then
    what upserting those tuples one by one, in the order of the input,
    gives.  Neither depends on the batch size, and a refused row leaves no
    trace. *)
Theorem upload_is_sequential_upsert (accepts : paper_tuple -> bool)
    (clock : nat -> Z) (up : nat -> bool) (papers : list json)
    (processed : list paper_tuple) (skipped : nat) (batch_size : Z) (w : world)
    (rows : list row) :
  normalize_all papers = Ok (processed, skipped) ->
  (0 < batch_size)%Z ->
  up (length (w_acquired w)) = true ->
  settled (w_store w) rows ->
  fst (insert_papers_with_deduplication accepts clock up papers batch_size w)
    = Ok (length (accepted_rows accepts processed)) /\
  exists rows',
    settled (w_store (snd (insert_papers_with_deduplication accepts clock up papers
                             batch_size w))) rows' /\
    map r_data rows' = data_upserts (accepted_rows accepts processed) (map r_data rows).
Proof.
  intros Hn Hb Hup Hs. split.
  - apply (insert_papers_total accepts clock up papers processed skipped batch_size w);
      try assumption.
    destruct Hs as [Hc Hw]. unfold table_ready. now rewrite Hc, Hw.
  - destruct (upload_unfolds accepts clock up papers processed skipped batch_size w
                Hn Hb Hup) as (starts & _ & Hcover & ->).
    destruct (UpserterMore.insert_batches_data accepts clock processed batch_size
                starts 0 (w_store w) rows Hs) as (rows' & Hs' & Hd).
    exists rows'. split; [assumption|]. now rewrite Hcover in Hd.
Qed.

Lemma upload_is_sequential_upsert_witness :
  fst (insert_papers_with_deduplication refuses_W36 Z.of_nat (fun _ => true)
         sample_papers 7 (world_with [])) = Ok 149%nat.
Proof.
  refine (eq_trans (proj1 (upload_is_sequential_upsert refuses_W36 Z.of_nat
            (fun _ => true) sample_papers sample_processed 0 7 (world_with []) []
            _ _ _ _)) _).
  - vm_compute. reflexivity.
  - lia.
  - reflexivity.
  - split; reflexivity.
  - vm_compute. reflexivity.
Defined.

(** X8. The last write wins: after such an upload, the row the table has
    for an identifier holds the data of the last processed tuple with that
    identifier that the store takes, and the data it held before when there
    is no such tuple. *)
Theorem last_write_wins (accepts : paper_tuple -> bool)
    (clock : nat -> Z) (up : nat -> bool) (papers : list json)
    (processed : list paper_tuple) (skipped : nat) (batch_size : Z) (w : world)
    (rows : list row) :
  normalize_all papers = Ok (processed, skipped) ->
  (0 < batch_size)%Z ->
  up (length (w_acquired w)) = true ->
  settled (w_store w) rows ->
  exists rows',
    settled (w_store (snd (insert_papers_with_deduplication accepts clock up papers
                             batch_size w))) rows' /\
    forall k,
      option_map r_data (find_row k rows')
      = match find (has_key k) (rev (accepted_rows accepts processed)) with
        | Some t => Some t
        | None => option_map r_data (find_row k rows)
        end.
Proof.
  intros Hn Hb Hup Hs.
  destruct (upload_unfolds accepts clock up papers processed skipped batch_size w
              Hn Hb Hup) as (starts & _ & Hcover & ->).
  destruct (UpserterMore.insert_batches_data accepts clock processed batch_size
              starts 0 (w_store w) rows Hs) as (rows' & Hs' & Hd).
  exists rows'. split; [assumption|]. intros k.
  rewrite !UpserterMore.find_row_data, Hd, Hcover.
  apply UpserterMore.find_data_upserts.
Qed.

Lemma last_write_wins_witness :
  exists rows',
    settled (w_store (snd (insert_papers_with_deduplication (fun _ => true) Z.of_nat
                             (fun _ => true) cited_twice 2 (world_with [])))) rows' /\
    option_map (fun r => cited_by_count (r_data r)) (find_row "W1" rows')
    = Some (JInt 8).
Proof.
  destruct (last_write_wins (fun _ => true) Z.of_nat (fun _ => true) cited_twice
              (flat_map kept_tuple cited_twice) 0 2 (world_with []) [])
    as (rows' & Hs & Hk).
  - reflexivity.
  - lia.
  - reflexivity.
  - split; reflexivity.
  - exists rows'. split; [exact Hs|]. specialize (Hk "W1").
    destruct (find_row "W1" rows') as [r|]; cbn in Hk |- *.
    + now injection Hk as ->.
    + discriminate.
Defined.

(** The store after the function ran is the one before or the one the
    batch loop left, and the batch loop keeps every property of the rows
    that upserting a processed tuple keeps. *)
Lemma upload_keeps (Q : list row -> Prop) accepts clock up papers batch_size w rows :
  (forall now t rows0,
     openalex_id t <> "" /\ fwci t = JNull -> Q rows0 -> Q (upsert now t rows0)) ->
  settled (w_store w) rows -> Q rows ->
  exists rows',
    settled (w_store (snd (insert_papers_with_deduplication accepts clock up papers
                             batch_size w))) rows' /\ Q rows'.
Proof.
  intros HQ Hs Qr.
  destruct (upload_store_cases accepts clock up papers batch_size w)
    as [->|(processed & skipped & starts & Hn & ->)]; [eauto|].
  apply (UpserterMore.insert_batches_keeps accepts clock Q
           (fun t => openalex_id t <> "" /\ fwci t = JNull) HQ processed batch_size
           starts 0 (w_store w) rows);
    try assumption.
  pose proof (NormalizerMore.processed_ids_non_empty papers processed skipped Hn) as H1.
  pose proof (NormalizerMore.processed_fwci_null papers processed skipped Hn) as H2.
  rewrite Forall_forall in *. intros t Ht. split; [now apply H1 | now apply H2].
Qed.

(** X9. Whatever the input, the batch size and the faults, the function
    deletes no row and changes no [created_at]: every row of the table is
    still there afterwards, created when it was, and no transaction is
    left open. *)
Theorem upload_keeps_rows_and_creation_times (accepts : paper_tuple -> bool)
    (clock : nat -> Z) (up : nat -> bool) (papers : list json) (batch_size : Z)
    (w : world) (rows : list row) :
  settled (w_store w) rows ->
  exists rows',
    settled (w_store (snd (insert_papers_with_deduplication accepts clock up papers
                             batch_size w))) rows' /\
    keeps_rows rows rows'.
Proof.
  intros Hs.
  apply (upload_keeps (keeps_rows rows) accepts clock up papers batch_size w rows);
    [|assumption|apply UpserterMore.keeps_rows_refl].
  intros now t rows0 _. apply UpserterMore.keeps_rows_upsert.
Qed.

Lemma upload_keeps_rows_and_creation_times_witness :
  exists rows',
    settled (w_store (snd (insert_papers_with_deduplication (fun _ => true) Z.of_nat
                             (fun _ => true) cited_twice 2
                             (world_with [mkRow (sample_tuple "W1" None) (-7) (-7)]))))
      rows' /\
    option_map created_at (find_row "W1" rows') = Some (-7)%Z.
Proof.
  destruct (upload_keeps_rows_and_creation_times (fun _ => true) Z.of_nat
              (fun _ => true) cited_twice 2
              (world_with [mkRow (sample_tuple "W1" None) (-7) (-7)])
              [mkRow (sample_tuple "W1" None) (-7) (-7)])
    as (rows' & Hs & Hk).
  - split; reflexivity.
  - exists rows'. split; [exact Hs|].
    destruct (Hk "W1" _ eq_refl) as (r' & -> & Hc). cbn. now rewrite Hc.
Defined.

(** X10. The function keeps the identifiers of the table unique and
    non-empty, so that after it the two checks on [openalex_id] of the
    validators count nothing. *)
Theorem upload_keeps_identifiers_valid (accepts : paper_tuple -> bool)
    (clock : nat -> Z) (up : nat -> bool) (papers : list json) (batch_size : Z)
    (w : world) (rows : list row) :
  settled (w_store w) rows ->
  NoDup (map r_key rows) ->
  Forall (fun r => r_key r <> "") rows ->
  exists rows',
    settled (w_store (snd (insert_papers_with_deduplication accepts clock up papers
                             batch_size w))) rows' /\
    NoDup (map r_key rows') /\
    Forall (fun r => r_key r <> "") rows' /\
    violations DuplicateOpenalexId rows' = 0%Z /\
    violations MissingOpenalexId rows' = 0%Z.
Proof.
  intros Hs ND NE.
  destruct (upload_keeps
              (fun rows0 => NoDup (map r_key rows0) /\ Forall (fun r => r_key r <> "") rows0)
              accepts clock up papers batch_size w rows) as (rows' & Hs' & ND' & NE').
  - intros now t rows0 [Ht _] [H1 H2]. split.
    + now apply StoreFacts.upsert_keeps_keys_unique.
    + now apply UpserterMore.upsert_keeps_keys_nonempty.
  - assumption.
  - now split.
  - exists rows'. do 3 (split; [assumption|]). split.
    + unfold violations. now rewrite UpserterMore.unique_keys_no_duplicated_group.
    + now apply UpserterMore.no_empty_key_counts_nothing.
Qed.

Lemma upload_keeps_identifiers_valid_witness :
  exists rows',
    settled (w_store (snd (insert_papers_with_deduplication (fun _ => true) Z.of_nat
                             (fun _ => true) cited_twice 2 (world_with [])))) rows' /\
    violations DuplicateOpenalexId rows' = 0%Z.
Proof.
  destruct (upload_keeps_identifiers_valid (fun _ => true) Z.of_nat (fun _ => true)
              cited_twice 2 (world_with []) [])
    as (rows' & Hs & _ & _ & Hd & _).
  - split; reflexivity.
  - constructor.
  - constructor.
  - exists rows'. now split.
Defined.

(* ===================================================================== *)
(** * Further properties of the validators *)
(* ===================================================================== *)

(** X11. On a reachable store whose table holds [rows], the validator of
    the pipeline returns 0 exactly when the nine checks that are not
    informational find nothing on the rows, and 1 otherwise. *)
Theorem pipeline_validator_reads_the_table (up : nat -> bool) (w : world)
    (rows : list row) :
  (forall n, up n = true) ->
  settled (w_store w) rows ->
  fst (PipelineValidator.run_data_quality_tests up w)
  = Ok (if forallb (clean rows) hard_checks then 0%Z else 1%Z).
Proof.
  intros Hup Hs.
  exact (proj1 (ValidatorMore.pipeline_validator_settled up Hup rows w Hs)).
Qed.

Lemma pipeline_validator_reads_the_table_witness :
  fst (PipelineValidator.run_data_quality_tests always_up (world_with shared_doi_rows))
  = Ok 0%Z.
Proof.
  refine (eq_trans (pipeline_validator_reads_the_table always_up
                      (world_with shared_doi_rows) shared_doi_rows _ _) _).
  - reflexivity.
  - split; reflexivity.
  - vm_compute. reflexivity.
Defined.

(** X12. On a reachable store whose table holds [rows], the stand-alone
    validator returns 0 exactly when all ten checks, the DOI check
    included, find nothing on the rows, and 1 otherwise. *)
Theorem standalone_validator_reads_the_table (up : nat -> bool) (w : world)
    (rows : list row) :
  (forall n, up n = true) ->
  settled (w_store w) rows ->
  fst (StandaloneValidator.run_all_tests up w)
  = if forallb (clean rows) all_checks then 0%Z else 1%Z.
Proof.
  intros Hup Hs. unfold StandaloneValidator.run_all_tests.
  destruct (ValidatorMore.cursor_settled up Hup rows PTableExists
              StandaloneValidator.check_table w ValidatorMore.check_table_reads Hs)
    as [E1 Hs1].
  rewrite E1. unfold StandaloneValidator.check_table at 1.
  unfold select_table_exists, select_count_all. destruct Hs as [Hc Hw]. rewrite Hw.
  cbn [fst].
  set (w1 := snd (get_cursor up PTableExists StandaloneValidator.check_table w)) in *.
  unfold StandaloneValidator.test_missing_required_fields,
    StandaloneValidator.test_citation_count_validation,
    StandaloneValidator.test_score_range_validation,
    StandaloneValidator.test_duplicate_detection.
  repeat match goal with
         | H : settled (w_store ?w0) rows
           |- context [StandaloneValidator.run_test up ?c true ?t ?w0] =>
             let w' := fresh "w" in
             let E := fresh "E" in
             let Hs' := fresh "Hs" in
             destruct (ValidatorMore.standalone_step up Hup rows c t w0 H)
               as (w' & E & Hs');
             rewrite E; clear E
         end.
  cbn [fst]. unfold StandaloneValidator.print_results.
  rewrite !ValidatorMore.failed_after_record. cbn [empty_tally failed_tests plus].
  unfold all_checks. cbn [forallb].
  repeat match goal with
         | |- context [clean rows ?c] => destruct (clean rows c); cbn; [|reflexivity]
         end.
  reflexivity.
Qed.

Lemma standalone_validator_reads_the_table_witness :
  fst (StandaloneValidator.run_all_tests always_up (world_with shared_doi_rows)) = 1%Z.
Proof.
  refine (eq_trans (standalone_validator_reads_the_table always_up
                      (world_with shared_doi_rows) shared_doi_rows _ _) _).
  - reflexivity.
  - split; reflexivity.
  - vm_compute. reflexivity.
Defined.

(** X13. Neither validator writes: when no transaction is open, the table
    and its rows are the same after a validator ran as before, whatever the
    checks find and whichever connections fail. *)
Theorem validators_only_read (up : nat -> bool) (w : world) :
  quiescent (w_store w) ->
  same_tables w (snd (PipelineValidator.run_data_quality_tests up w)) /\
  same_tables w (snd (StandaloneValidator.run_all_tests up w)).
Proof.
  intros Hq. split.
  - now apply ValidatorMore.pipeline_validator_reads.
  - now apply ValidatorMore.standalone_validator_reads.
Qed.

Lemma validators_only_read_witness :
  committed (w_store (snd (StandaloneValidator.run_all_tests always_up
                             (world_with shared_doi_rows))))
  = Some shared_doi_rows.
Proof.
  destruct (validators_only_read always_up (world_with shared_doi_rows) eq_refl)
    as [_ [Hc _]].
  exact Hc.
Defined.

(** X14. When the first connection is refused, the validator of the
    pipeline raises and the stand-alone one returns 1; when the table is
    missing both return 1, and neither asks for a connection to run a
    test. *)
Theorem validators_without_store_or_table (up : nat -> bool) (w : world) :
  (up (length (w_acquired w)) = false ->
   fst (PipelineValidator.run_data_quality_tests up w) = Raise OperationalError /\
   fst (StandaloneValidator.run_all_tests up w) = 1%Z) /\
  (up (length (w_acquired w)) = true -> working (w_store w) = None ->
   fst (PipelineValidator.run_data_quality_tests up w) = Ok 1%Z /\
   fst (StandaloneValidator.run_all_tests up w) = 1%Z /\
   w_acquired (snd (PipelineValidator.run_data_quality_tests up w))
     = w_acquired w ++ [PTableExists] /\
   w_acquired (snd (StandaloneValidator.run_all_tests up w))
     = w_acquired w ++ [PTableExists]).
Proof.
  unfold PipelineValidator.run_data_quality_tests, PipelineValidator.table_exists,
    StandaloneValidator.run_all_tests, get_cursor, get_connection.
  split.
  - intros ->. split; reflexivity.
  - intros -> Hw. cbn [w_store].
    unfold StandaloneValidator.check_table, select_table_exists. rewrite Hw.
    repeat split; reflexivity.
Qed.

(* ===================================================================== *)
(** * Further properties of the orchestrator *)
(* ===================================================================== *)

Import Orchestrator.

(** X15. When [create_table_if_needed] returns, the table is there and no
    transaction is open: an existing table keeps its rows and costs one
    connection, a new table is empty and costs five. *)
Theorem create_table_if_needed_keeps_rows (up : nat -> bool) (w w' : world) :
  quiescent (w_store w) ->
  create_table_if_needed up w = (Ok tt, w') ->
  exists rows,
    settled (w_store w') rows /\
    match committed (w_store w) with
    | Some rows0 => rows = rows0 /\ w_acquired w' = w_acquired w ++ [PTableExists]
    | None =>
        rows = [] /\
        w_acquired w'
        = w_acquired w ++ [PTableExists; PExtension; PCreateTable; PIndexes; PComments]
    end.
Proof.
  intros Hq H. exact (OrchestratorMore.create_table_settles up w w' Hq H).
Qed.

Lemma create_table_if_needed_keeps_rows_witness :
  exists rows,
    settled (w_store (snd (create_table_if_needed always_up
                             (mkWorld (mkStore None None 0) [])))) rows /\
    rows = [].
Proof.
  destruct (create_table_if_needed_keeps_rows always_up
              (mkWorld (mkStore None None 0) [])
              (snd (create_table_if_needed always_up (mkWorld (mkStore None None 0) [])))
              eq_refl eq_refl) as (rows & Hs & Hr & _).
  exists rows. now split.
Defined.

(** X16. Validation does not undo the upload: once the upload has
    returned with no transaction open, the table [run] leaves is the table
    the upload left, whether the tests are skipped, pass, fail or raise. *)
Theorem run_keeps_the_uploaded_rows (accepts : paper_tuple -> bool)
    (clock : nat -> Z) (up : nat -> bool) (skip_tests : bool) (batch_size : Z)
    (papers : list json) (w w1 w2 : world) (n : nat) :
  papers <> [] ->
  create_table_if_needed up w = (Ok tt, w1) ->
  upload_papers accepts clock up papers batch_size w1 = (Ok n, w2) ->
  quiescent (w_store w2) ->
  same_tables w2 (snd (run accepts clock up skip_tests batch_size (Ok papers) w)).
Proof.
  intros Hne Hc Hu Hq. unfold run, run_body.
  destruct papers as [|p papers]; [congruence|]. rewrite Hc, Hu.
  destruct skip_tests; cbn [negb snd].
  - apply ValidatorMore.same_tables_refl.
  - pose proof (ValidatorMore.pipeline_validator_reads up w2 Hq) as H.
    now destruct (PipelineValidator.run_data_quality_tests up w2) as [[|] w3].
Qed.

Lemma run_keeps_the_uploaded_rows_witness :
  exists rows,
    committed (w_store (snd (run (fun _ => true) Z.of_nat always_up false 100
                               (Ok cited_twice) (mkWorld (mkStore None None 0) []))))
    = Some rows /\ length rows = 2%nat.
Proof.
  pose (w := mkWorld (mkStore None None 0) []).
  pose (w1 := snd (create_table_if_needed always_up w)).
  pose (w2 := snd (upload_papers (fun _ => true) Z.of_nat always_up cited_twice 100 w1)).
  destruct (run_keeps_the_uploaded_rows (fun _ => true) Z.of_nat always_up false 100
              cited_twice w w1 w2 3) as [Hc _].
  - discriminate.
  - reflexivity.
  - vm_compute. reflexivity.
  - vm_compute. reflexivity.
  - fold w. rewrite Hc. eexists. split; [vm_compute; reflexivity | reflexivity].
Defined.

(** A whole run on a reachable store: the table is created when it is
    missing, the processed tuples the store takes are upserted, and the
    tests, when they run, read the table the upload left. *)
Lemma run_settles accepts clock up skip_tests batch_size papers processed skipped w :
  (forall n, up n = true) ->
  quiescent (w_store w) ->
  papers <> [] ->
  normalize_all papers = Ok (processed, skipped) ->
  (0 < batch_size)%Z ->
  exists rows',
    settled (w_store (snd (run accepts clock up skip_tests batch_size (Ok papers) w)))
      rows' /\
    map r_data rows'
      = data_upserts (accepted_rows accepts processed) (map r_data (rows_of (w_store w))) /\
    fst (run accepts clock up skip_tests batch_size (Ok papers) w)
      = if skip_tests then 0%Z
        else if forallb (clean rows') hard_checks then 0%Z else 1%Z.
Proof.
  intros Hup Hq Hne Hn Hb.
  destruct (OrchestratorMore.create_table_reachable up w Hup Hq) as (w1 & Hc & Hs1).
  assert (exists n w2,
            upload_papers accepts clock up papers batch_size w1 = (Ok n, w2) /\
            exists rows',
              settled (w_store w2) rows' /\
              map r_data rows'
              = data_upserts (accepted_rows accepts processed)
                  (map r_data (rows_of (w_store w)))) as (n & w2 & Hu & rows' & Hs2 & Hd).
  { assert (upload_papers accepts clock up papers batch_size w1
            = insert_papers_with_deduplication accepts clock up papers batch_size w1)
      as -> by (destruct papers; [congruence | reflexivity]).
    destruct (upload_unfolds accepts clock up papers processed skipped batch_size w1
                Hn Hb (Hup _)) as (starts & _ & Hcover & Hst).
    destruct (UpserterMore.insert_batches_data accepts clock processed batch_size
                starts 0 (w_store w1) _ Hs1) as (rows' & Hs' & Hd).
    rewrite Hcover in Hd. rewrite <- Hst in Hs'.
    assert (table_ready (w_store w1) = true) as R
      by (destruct Hs1 as [H1 H2]; unfold table_ready; now rewrite H1, H2).
    pose proof (insert_papers_total accepts clock up papers processed skipped
                  batch_size w1 Hn Hb (Hup _) R) as Ht.
    destruct (insert_papers_with_deduplication accepts clock up papers batch_size w1)
      as [r w2]. cbn [fst snd] in *. subst r. eauto 8. }
  exists rows'. unfold run, run_body.
  destruct papers as [|p papers]; [congruence|]. rewrite Hc, Hu.
  destruct skip_tests; cbn [negb fst snd].
  { split; [exact Hs2|]. split; [exact Hd|]. reflexivity. }
  destruct (ValidatorMore.pipeline_validator_settled up Hup rows' w2 Hs2) as [E Hs3].
  destruct (PipelineValidator.run_data_quality_tests up w2) as [r w3].
  cbn [fst snd] in *. subst r.
  split; [exact Hs3|]. split; [exact Hd|]. reflexivity.
Qed.



(* ===================================================================== *)
(** * Properties of the fetcher *)
(* ===================================================================== *)

(** X18. Whatever the API answers, the works [fetch_recent_works] returns
    are mappings with a truthy identifier, each was on a page the API
    served, and no two of them have equal identifiers. *)
Theorem fetched_works_have_distinct_ids
    (get : Fetch.query -> nat -> result (list json)) (fuel : nat)
    (field_id subfield_id : json) (works : list json) :
  Fetch.fetch_recent_works get fuel field_id subfield_id = Some (Done works) ->
  distinct_ids works = true /\
  forallb identified works = true /\
  Forall (on_a_page get) works.
Proof.
  apply FetchFacts.fetch_spec.
Qed.

Lemma fetched_works_have_distinct_ids_witness :
  Fetch.fetch_recent_works sample_api 5 (JStr "17") JNull
    = Some (Done (map sample_paper (seq 0 400))) /\
  distinct_ids (map sample_paper (seq 0 400)) = true.
Proof.
  assert (Fetch.fetch_recent_works sample_api 5 (JStr "17") JNull
          = Some (Done (map sample_paper (seq 0 400)))) as E
    by (vm_compute; reflexivity).
  split; [exact E|].
  exact (proj1 (fetched_works_have_distinct_ids sample_api 5 (JStr "17") JNull _ E)).
Defined.

(** X19. When the API serves each filter that has an identifier with pages
    that end in a short one, the function reads them up to that page and
    no further, and returns once the fuel covers them.  It returns exactly
    when every work on those pages is a mapping whose identifier is falsy
    or can be hashed; what it returns then is taken from those pages, has
    no identifier twice, and has a work for every truthy identifier on
    them. *)
Theorem fetch_keeps_one_work_per_identifier
    (get : Fetch.query -> nat -> result (list json)) (fuel : nat)
    (field_id subfield_id : json) (field_pages subfield_pages : list (list json)) :
  answers get (Fetch.ByField field_id) field_pages ->
  answers get (Fetch.BySubfield subfield_id) subfield_pages ->
  (length field_pages <= fuel)%nat ->
  (length subfield_pages <= fuel)%nat ->
  let read := concat field_pages ++ concat subfield_pages in
  if forallb fetchable read
  then exists works,
         Fetch.fetch_recent_works get fuel field_id subfield_id
           = Some (Done works) /\
         distinct_ids works = true /\
         incl works read /\
         forall w, In w read -> truthy (work_id w) = true ->
                   exists w', In w' works /\
                              Fetch.py_eq (work_id w) (work_id w') = true
  else exists e,
         Fetch.fetch_recent_works get fuel field_id subfield_id
           = Some (Fails e).
Proof.
  intros A1 A2 L1 L2 read. unfold Fetch.fetch_recent_works.
  rewrite (FetchFacts.fetch_filter_answers get _ field_pages fuel _ A1 L1).
  pose proof (FetchFacts.add_works_app (concat field_pages) (concat subfield_pages)
                (Fetch.mkState [] [])) as App. fold read in App.
  destruct (Fetch.add_works read (Fetch.mkState [] [])) as [st2|e] eqn:E.
  - destruct (FetchFacts.add_works_spec read _ st2 E FetchFacts.inv_empty)
      as ((S2 & D2 & _) & F & (extra & X & I) & M).
    rewrite F.
    destruct (Fetch.add_works (concat field_pages) (Fetch.mkState [] [])) as [st1|];
      [|discriminate].
    rewrite (FetchFacts.fetch_filter_answers get _ subfield_pages fuel _ A2 L2), <- App.
    exists (Fetch.all_works st2). split; [reflexivity|]. split; [assumption|]. split.
    + rewrite X. exact I.
    + intros w Hw T. specialize (M w Hw T). rewrite S2 in M. unfold Fetch.member in M.
      apply existsb_exists in M as (i & Hi & Hp). apply in_map_iff in Hi as (w' & <- & Hw').
      now exists w'.
  - assert (forallb fetchable read = false) as ->.
    { destruct (forallb fetchable read) eqn:F; [|reflexivity].
      destruct (FetchFacts.add_works_total read (Fetch.mkState [] []) F) as [st' E'].
      congruence. }
    destruct (Fetch.add_works (concat field_pages) (Fetch.mkState [] [])) as [st1|e1].
    + rewrite (FetchFacts.fetch_filter_answers get _ subfield_pages fuel _ A2 L2), <- App.
      now exists e.
    + now exists e1.
Qed.

Lemma fetch_keeps_one_work_per_identifier_witness :
  exists works,
    Fetch.fetch_recent_works sample_api 3 (JStr "17") JNull = Some (Done works) /\
    distinct_ids works = true /\
    exists w', In w' works /\
               Fetch.py_eq (work_id (sample_paper 8)) (work_id w') = true.
Proof.
  pose proof (fetch_keeps_one_work_per_identifier sample_api 3 (JStr "17") JNull
                sample_pages []) as H.
  cbv zeta in H.
  assert (forallb fetchable (concat sample_pages ++ concat []) = true) as F
    by (vm_compute; reflexivity).
  rewrite F in H.
  destruct H as (works & E & D & _ & C).
  - cbn [answers filter_id truthy negb String.eqb Ascii.eqb Bool.eqb sample_pages served].
    repeat split; try reflexivity;
      unfold Fetch.per_page; rewrite ?length_map, ?length_seq; cbn [length]; lia.
  - reflexivity.
  - cbn [length sample_pages]. lia.
  - cbn [length]. lia.
  - exists works. split; [exact E|]. split; [exact D|].
    apply C; [|reflexivity].
    apply in_or_app. left. unfold sample_pages. cbn [concat].
    apply in_or_app. right. apply in_or_app. right. right. now left.
Defined.

(** X20. The loop has no bound on the pages of its own: when the API
    answers every page of the field filter with a full page of works the
    fetcher can look at, the function does not return, however many pages
    it is given. *)
Theorem fetch_never_returns_on_full_pages
    (get : Fetch.query -> nat -> result (list json)) (field_id subfield_id : json) :
  truthy field_id = true ->
  (forall page, exists works,
     get (Fetch.ByField field_id) page = Ok works /\
     (Fetch.per_page <= length works)%nat /\
     forallb fetchable works = true) ->
  forall fuel, Fetch.fetch_recent_works get fuel field_id subfield_id = None.
Proof.
  intros T H fuel. unfold Fetch.fetch_recent_works, Fetch.fetch_filter. rewrite T.
  now rewrite (FetchFacts.fetch_pages_never_ends get _ H).
Qed.

Lemma fetch_never_returns_on_full_pages_witness :
  Fetch.fetch_recent_works stuck_api 1000 (JStr "17") JNull = None.
Proof.
  apply (fetch_never_returns_on_full_pages stuck_api (JStr "17") JNull).
  - reflexivity.
  - intros page. exists (map sample_paper (seq 0 200)). split; [reflexivity|]. split.
    + unfold Fetch.per_page. rewrite length_map, length_seq. lia.
    + vm_compute. reflexivity.
Defined.

(** X21. The first loop of the upserter never raises on what the fetcher
    returned: every fetched work is a mapping, so each is processed or
    counted as skipped. *)
Theorem fetched_works_pass_the_first_loop
    (get : Fetch.query -> nat -> result (list json)) (fuel : nat)
    (field_id subfield_id : json) (works : list json) :
  Fetch.fetch_recent_works get fuel field_id subfield_id = Some (Done works) ->
  exists processed skipped,
    normalize_all works = Ok (processed, skipped) /\
    (length processed + skipped = length works)%nat.
Proof.
  intros H. apply FetchFacts.fetch_spec in H as (_ & G & _).
  exists (flat_map kept_tuple works), (length (filter skipped_record works)).
  split; [|apply NormalizerFacts.kept_or_skipped].
  apply NormalizerFacts.normalize_all_records.
  apply Forall_forall. intros w Hw. rewrite forallb_forall in G. specialize (G w Hw).
  unfold identified in G. now destruct (is_record w).
Qed.

Lemma fetched_works_pass_the_first_loop_witness :
  exists processed skipped,
    normalize_all (map sample_paper (seq 0 400)) = Ok (processed, skipped) /\
    (length processed + skipped = 400)%nat.
Proof.
  destruct (fetched_works_pass_the_first_loop sample_api 5 (JStr "17") JNull
              (map sample_paper (seq 0 400))) as (processed & skipped & E & L).
  - vm_compute. reflexivity.
  - exists processed, skipped. split; [exact E|].
    rewrite L, length_map, length_seq. reflexivity.
Defined.

(* ===================================================================== *)
(** * Properties of the loader *)
(* ===================================================================== *)

(** A run whose records hold something that is not a mapping: the table is
    set up, the first loop raises, and the exit code is 1. *)
Lemma run_on_unprocessable accepts clock up skip_tests batch_size papers w :
  (forall n, up n = true) ->
  quiescent (w_store w) ->
  papers <> [] ->
  forallb is_record papers = false ->
  fst (run accepts clock up skip_tests batch_size (Ok papers) w) = 1%Z /\
  settled (w_store (snd (run accepts clock up skip_tests batch_size (Ok papers) w)))
    (rows_of (w_store w)).
Proof.
  intros Hup Hq Hne F.
  destruct (OrchestratorMore.create_table_reachable up w Hup Hq) as (w1 & Hc & Hs1).
  unfold run, run_body. destruct papers as [|p papers]; [congruence|]. rewrite Hc.
  unfold upload_papers, insert_papers_with_deduplication, normalize_all.
  rewrite (SnapshotFacts.normalize_loop_raises _ _ F). cbn [fst snd]. now split.
Qed.

(** X22. On a reachable store with no transaction open, the loader exits
    with 0 exactly when the file loads and what it holds is falsy or a list
    of mappings; a missing or unreadable file, a mapping without [papers],
    a string, a non-empty mapping or a list with an element that is not a
    mapping all end in 1. *)
Theorem loader_exits_zero_iff_loadable (accepts : paper_tuple -> bool)
    (clock : nat -> Z) (up : nat -> bool) (f : Snapshot.file) (w : world) :
  (forall n, up n = true) ->
  quiescent (w_store w) ->
  fst (Snapshot.main accepts clock up (Some f) w)
  = match Snapshot.load_json_file f with
    | Done papers => if loadable papers then 0%Z else 1%Z
    | Fails _ => 1%Z
    end.
Proof.
  intros Hup Hq. destruct (Snapshot.load_json_file f) as [papers|e] eqn:L.
  - rewrite (SnapshotFacts.main_is_run accepts clock up f papers w L).
    rewrite (SnapshotFacts.loadable_iter papers (SnapshotFacts.load_has_len f papers L)).
    destruct (Snapshot.py_iter papers) as [|p ps] eqn:I; [reflexivity|].
    rewrite <- I. assert (Snapshot.py_iter papers <> []) as Hne by (rewrite I; discriminate).
    destruct (forallb is_record (Snapshot.py_iter papers)) eqn:F.
    + assert (normalize_all (Snapshot.py_iter papers)
              = Ok (flat_map kept_tuple (Snapshot.py_iter papers),
                    length (filter skipped_record (Snapshot.py_iter papers)))) as N.
      { apply NormalizerFacts.normalize_all_records. apply Forall_forall.
        now apply forallb_forall. }
      destruct (run_settles accepts clock up true 100 _ _ _ w Hup Hq Hne N)
        as (rows' & _ & _ & E); [lia|]. exact E.
    + now destruct (run_on_unprocessable accepts clock up true 100 _ w Hup Hq Hne F).
  - unfold Snapshot.main. now rewrite L.
Qed.

Lemma loader_exits_zero_iff_loadable_witness :
  fst (Snapshot.main (fun _ => true) Z.of_nat always_up (Some text_snapshot)
         (mkWorld (mkStore None None 0) [])) = 1%Z.
Proof.
  exact (loader_exits_zero_iff_loadable (fun _ => true) Z.of_nat always_up
           text_snapshot (mkWorld (mkStore None None 0) [])
           (fun _ => eq_refl) eq_refl).
Defined.

(** X23. When the file holds a truthy value, the loader leaves the table
    in place on a reachable store, created if it was missing.  If the value
    is a list of mappings, the table then holds, for data, the rows it had
    with the processed tuples the store takes upserted one by one; if it is
    anything else, the table holds the rows it had and nothing more. *)
Theorem loader_end_to_end (accepts : paper_tuple -> bool) (clock : nat -> Z)
    (up : nat -> bool) (f : Snapshot.file) (papers : json) (w : world) :
  (forall n, up n = true) ->
  quiescent (w_store w) ->
  Snapshot.load_json_file f = Done papers ->
  truthy papers = true ->
  exists rows',
    settled (w_store (snd (Snapshot.main accepts clock up (Some f) w))) rows' /\
    map r_data rows'
    = if loadable papers
      then data_upserts
             (accepted_rows accepts (flat_map kept_tuple (Snapshot.py_iter papers)))
             (map r_data (rows_of (w_store w)))
      else map r_data (rows_of (w_store w)).
Proof.
  intros Hup Hq L T.
  rewrite (SnapshotFacts.main_is_run accepts clock up f papers w L).
  pose proof (SnapshotFacts.load_has_len f papers L) as HL.
  rewrite (SnapshotFacts.loadable_iter papers HL).
  rewrite (SnapshotFacts.py_iter_truthy papers HL) in T.
  assert (Snapshot.py_iter papers <> []) as Hne
    by (destruct (Snapshot.py_iter papers); [discriminate T | discriminate]).
  destruct (forallb is_record (Snapshot.py_iter papers)) eqn:F.
  - assert (normalize_all (Snapshot.py_iter papers)
            = Ok (flat_map kept_tuple (Snapshot.py_iter papers),
                  length (filter skipped_record (Snapshot.py_iter papers)))) as N.
    { apply NormalizerFacts.normalize_all_records. apply Forall_forall.
      now apply forallb_forall. }
    destruct (run_settles accepts clock up true 100 _ _ _ w Hup Hq Hne N)
      as (rows' & S & D & _); [lia|]. now exists rows'.
  - destruct (run_on_unprocessable accepts clock up true 100 _ w Hup Hq Hne F) as [_ S].
    now exists (rows_of (w_store w)).
Qed.

Lemma loader_end_to_end_witness :
  settled (w_store (snd (Snapshot.main (fun _ => true) Z.of_nat always_up
                           (Some text_snapshot) (mkWorld (mkStore None None 0) []))))
    [].
Proof.
  destruct (loader_end_to_end (fun _ => true) Z.of_nat always_up text_snapshot
              (JStr "W1") (mkWorld (mkStore None None 0) [])
              (fun _ => eq_refl) eq_refl eq_refl eq_refl) as (rows' & S & D).
  destruct rows'; [exact S | discriminate D].
Defined.


(* ===================================================================== *)
(** * What the pipeline never writes *)
(* ===================================================================== *)

(** X25. The pipeline never writes an [fwci]: in a table whose rows have
    none, no row has one after the upload, so the check on a negative
    [fwci] counts nothing there, whatever the input. *)
Theorem upload_writes_no_fwci (accepts : paper_tuple -> bool)
    (clock : nat -> Z) (up : nat -> bool) (papers : list json) (batch_size : Z)
    (w : world) (rows : list row) :
  settled (w_store w) rows ->
  Forall (fun r => fwci (r_data r) = JNull) rows ->
  exists rows',
    settled (w_store (snd (insert_papers_with_deduplication accepts clock up papers
                             batch_size w))) rows' /\
    Forall (fun r => fwci (r_data r) = JNull) rows' /\
    violations NegativeFwci rows' = 0%Z.
Proof.
  intros Hs HF.
  destruct (upload_keeps (Forall (fun r => fwci (r_data r) = JNull))
              accepts clock up papers batch_size w rows) as (rows' & Hs' & HF').
  - intros now t rows0 [_ Ht] H. induction H as [|r rows0 Hr H IH]; cbn [upsert].
    + constructor; [exact Ht | constructor].
    + destruct (r_key r =? openalex_id t).
      * constructor; [exact Ht | assumption].
      * constructor; assumption.
  - assumption.
  - assumption.
  - exists rows'. split; [assumption|]. split; [assumption|].
    unfold violations, count_where.
    assert (filter (fun r => negative (fwci (r_data r))) rows' = []) as ->; [|reflexivity].
    clear Hs'. induction HF' as [|r rows' Hr HF' IH]; [reflexivity|]. cbn [filter].
    now rewrite Hr.
Qed.

Lemma upload_writes_no_fwci_witness :
  exists rows',
    settled (w_store (snd (insert_papers_with_deduplication (fun _ => true) Z.of_nat
                             (fun _ => true) cited_twice 2 (world_with [])))) rows' /\
    violations NegativeFwci rows' = 0%Z.
Proof.
  destruct (upload_writes_no_fwci (fun _ => true) Z.of_nat (fun _ => true)
              cited_twice 2 (world_with []) [])
    as (rows' & Hs & _ & Hv).
  - split; reflexivity.
  - constructor.
  - exists rows'. now split.
Defined.

(* ===================================================================== *)
(** * The time stamps *)
(* ===================================================================== *)

(** X26. When the clock of the store never goes backwards and no row is
    stamped later than now, the upload keeps every row's [updated_at] at
    or after its [created_at], whatever the input, the batch size and the
    faults. *)
Theorem upload_keeps_timestamps_ordered (accepts : paper_tuple -> bool)
    (clock : nat -> Z) (up : nat -> bool) (papers : list json) (batch_size : Z)
    (w : world) (rows : list row) :
  monotone clock ->
  settled (w_store w) rows ->
  stamped (clock (txn (w_store w))) rows ->
  exists rows',
    settled (w_store (snd (insert_papers_with_deduplication accepts clock up papers
                             batch_size w))) rows' /\
    Forall (fun r => (created_at r <= updated_at r)%Z) rows'.
Proof.
  intros M Hs St.
  assert (forall now rows0, stamped now rows0 ->
            Forall (fun r => (created_at r <= updated_at r)%Z) rows0) as W.
  { intros now rows0 H. unfold stamped in H. rewrite Forall_forall in *.
    intros r Hr. now destruct (H r Hr). }
  destruct (upload_store_cases accepts clock up papers batch_size w)
    as [->|(processed & skipped & starts & _ & ->)].
  - exists rows. split; [assumption | now apply (W _ _ St)].
  - destruct (ClockFacts.insert_batches_stamped accepts clock M processed batch_size
                starts 0 (w_store w) rows Hs St) as (rows' & Hs' & St').
    exists rows'. split; [assumption | now apply (W _ _ St')].
Qed.

Lemma upload_keeps_timestamps_ordered_witness :
  exists rows',
    settled (w_store (snd (insert_papers_with_deduplication (fun _ => true) Z.of_nat
                             (fun _ => true) cited_twice 2
                             (world_with [mkRow (sample_tuple "W1" None) (-7) (-3)]))))
      rows' /\
    Forall (fun r => (created_at r <= updated_at r)%Z) rows'.
Proof.
  apply (upload_keeps_timestamps_ordered (fun _ => true) Z.of_nat (fun _ => true)
           cited_twice 2 (world_with [mkRow (sample_tuple "W1" None) (-7) (-3)])
           [mkRow (sample_tuple "W1" None) (-7) (-3)]).
  - intros m n L. lia.
  - split; reflexivity.
  - constructor; [cbn; lia | constructor].
Defined.

